(** * hypr-blue-light: the mode/temperature decision engine

    A shallow embedding of [hypr-blue-light.py] and the properties of its
    state store, temperature decider, display applier, mode controller and
    command dispatch.

    The program is a Python class [ScreenLightManager] whose methods mutate
    [self.state] (a dict read from a JSON file), write that dict back to the
    file, spawn external programs and append to a log.  It is embedded as a
    state-and-exception monad over the manager object and the outside world;
    everything the program only observes (the clock, the weather provider,
    whether an external program can be started, whether the state file can
    be written) is read from an environment record. *)

From Stdlib Require Import ZArith Floats Ascii String.
From stdpp Require Import gmap strings list fin_maps.

Set Warnings "-register-all".

Local Open Scope string_scope.
Local Open Scope list_scope.
Local Open Scope Z_scope.

(** ** Python values

    What [json.load] can return, and so what [self.state] and the weather
    payload can be. A JSON object is a dict with string keys. *)

Inductive pyval :=
| PNone
| PBool (b : bool)
| PInt (z : Z)
| PFloat (f : float)
| PStr (s : string)
| PList (l : list pyval)
| PDict (d : gmap string pyval).

(** The exceptions the modelled code can meet.  All of them are instances of
    Python's [Exception]; [FileNotFoundError] and [JSONDecodeError] are the
    two that [load_state] names in its first handler. *)

Inductive exn :=
| FileNotFoundError
| JSONDecodeError
| OSError
| KeyError (k : string)
| IndexError
| TypeError
| ValueError
| AttributeError.

Inductive result (A : Type) :=
| Ok (a : A)
| Raise (e : exn).
Arguments Ok {A} a.
Arguments Raise {A} e.

(** [str(e)] inside a log line: only the exception class is kept. *)
Definition exn_str (e : exn) : pyval :=
  PStr match e with
       | FileNotFoundError => "FileNotFoundError"
       | JSONDecodeError => "JSONDecodeError"
       | OSError => "OSError"
       | KeyError k => "KeyError"
       | IndexError => "IndexError"
       | TypeError => "TypeError"
       | ValueError => "ValueError"
       | AttributeError => "AttributeError"
       end.

(** Python's truth value of an object ([if x], [not x]). *)
Definition truthy (v : pyval) : bool :=
  match v with
  | PNone => false
  | PBool b => b
  | PInt z => negb (z =? 0)
  | PFloat f => negb (PrimFloat.eqb f 0%float)
  | PStr s => negb (String.eqb s "")
  | PList l => match l with [] => false | _ :: _ => true end
  | PDict d => negb (Nat.eqb (size d) 0)
  end.

(** [v[k]] for a string key [k]. *)
Definition getitem (v : pyval) (k : string) : result pyval :=
  match v with
  | PDict d => match d !! k with
               | Some x => Ok x
               | None => Raise (KeyError k)
               end
  | _ => Raise TypeError
  end.

(** [v[0]]. A dict loaded from JSON has string keys only, so the integer key
    0 is never found in it. *)
Definition getitem0 (v : pyval) : result pyval :=
  match v with
  | PList (x :: _) => Ok x
  | PList [] => Raise IndexError
  | PStr (String c _) => Ok (PStr (String c EmptyString))
  | PStr EmptyString => Raise IndexError
  | PDict _ => Raise (KeyError "0")
  | _ => Raise TypeError
  end.

(** [v[k] = x] for a string key [k]. *)
Definition setitem (v : pyval) (k : string) (x : pyval) : result pyval :=
  match v with
  | PDict d => Ok (PDict (<[k := x]> d))
  | _ => Raise TypeError
  end.

(** [v.get(k, dflt)]. *)
Definition dict_get (v : pyval) (k : string) (dflt : pyval) : result pyval :=
  match v with
  | PDict d => Ok (default dflt (d !! k))
  | _ => Raise AttributeError
  end.

(** An int as a double. CPython compares a float with an int by converting
    the int when it fits a double exactly; this conversion is exact for
    [|z| < 2^53], which covers every integer the program compares a float
    with (5 and the profile constants). *)
Definition Z_to_float (z : Z) : float :=
  if z <? 0 then PrimFloat.opp (PrimFloat.of_uint63 (Uint63.of_Z (- z)))
  else PrimFloat.of_uint63 (Uint63.of_Z z).

(** [v < n] for an int [n]; [bool] is a subclass of [int]. *)
Definition py_lt_int (v : pyval) (n : Z) : result bool :=
  match v with
  | PBool b => Ok (Z.b2z b <? n)
  | PInt z => Ok (z <? n)
  | PFloat f => Ok (PrimFloat.ltb f (Z_to_float n))
  | _ => Raise TypeError
  end.

(** [n != v] for an int [n]. *)
Definition py_int_ne (n : Z) (v : pyval) : bool :=
  match v with
  | PBool b => negb (n =? Z.b2z b)
  | PInt z => negb (n =? z)
  | PFloat f => negb (PrimFloat.eqb (Z_to_float n) f)
  | _ => true
  end.

(** [v == s] for a string [s]. *)
Definition py_eq_str (v : pyval) (s : string) : bool :=
  match v with
  | PStr s' => String.eqb s' s
  | _ => false
  end.

(** [v in [s1, s2, ...]]. *)
Definition py_in (v : pyval) (l : list string) : bool :=
  existsb (py_eq_str v) l.
Arguments py_in : simpl never.
Arguments py_eq_str : simpl never.
Arguments py_lt_int : simpl never.
Arguments py_int_ne : simpl never.

(** ** Temperature presets (Kelvin) *)

Module TEMPERATURE_PROFILE.
Definition DAY_CLEAR : Z := 6500.
Definition DAY_CLOUDY : Z := 5800.
Definition DAY_RAINY : Z := 5200.
Definition NIGHT_DEFAULT : Z := 4200.
Definition NIGHT_COLD : Z := 3800.
Definition BLUELIGHT_OFF : Z := 6500.
Definition BLUELIGHT_ON : Z := 4000.
Definition MANUAL_ON : Z := 5000.
Definition MANUAL_OFF : Z := 6500.
End TEMPERATURE_PROFILE.
Import TEMPERATURE_PROFILE.

(** ** The manager, the world and the environment *)

(** A message: a format string and the values interpolated into it. *)
Inductive msg := Msg (fmt : string) (args : list pyval).

(** What the program does to the outside, in order: a line appended to the
    log file (without its timestamp), a line printed, a call of an external
    program, a sleep (in milliseconds).  [RunPkill], [PopenHyprsunset] and
    [RunNotifySend] record that the program issued the call; whether the
    external program could be started is the environment's answer. *)
Inductive event :=
| Log (m : msg)
| Stdout (m : msg)
| RunNotifySend (m : msg)
| RunPkill
| Sleep (ms : Z)
| PopenHyprsunset (temp : Z).

(** STATE_FILE on disk, as [open] and [json.load] see it: no such file, a
    file that cannot be opened or decoded, a file that is not JSON, or a
    file holding a JSON value. *)
Inductive disk_file :=
| Absent
| Unreadable
| Malformed
| Holds (v : pyval).

(** The attributes of a [ScreenLightManager] object. *)
Record manager := Manager {
  state : pyval;
  hyprsunset_pid : option Z
}.

(** The outside: the state file and the trace of what the program did. *)
Record world := World {
  state_file : disk_file;
  trace : list event
}.

(** What a run observes: the UTC hour, the answer of [get_weather], whether
    [pkill] and [notify-send] are installed, what [Popen] of [hyprsunset]
    gives (a pid or an exception), and whether the state file can be
    written. *)
Record env := Env {
  utc_hour : Z;
  weather : pyval;
  pkill_present : bool;
  popen : result Z;
  notify_present : bool;
  state_writable : bool
}.

Definition machine : Type := manager * world.

(** ** The monad *)

Definition M (A : Type) : Type := env -> machine -> result A * machine.

Definition ret {A} (a : A) : M A := fun _ s => (Ok a, s).

Definition bind {A B} (m : M A) (k : A -> M B) : M B :=
  fun e s =>
    match m e s with
    | (Ok a, s') => k a e s'
    | (Raise x, s') => (Raise x, s')
    end.

Definition raise {A} (x : exn) : M A := fun _ s => (Raise x, s).

Definition lift {A} (r : result A) : M A := fun _ s => (r, s).

Definition try_except {A} (body : M A) (handler : exn -> M A) : M A :=
  fun e s =>
    match body e s with
    | (Ok a, s') => (Ok a, s')
    | (Raise x, s') => handler x e s'
    end.

Declare Scope py_scope.
Delimit Scope py_scope with py.
Notation "x <- c1 ;; c2" := (bind c1 (fun x => c2))
  (at level 100, c1 at next level, c2 at level 200, right associativity) : py_scope.
Notation "c1 ;; c2" := (bind c1 (fun _ => c2))
  (at level 100, c2 at level 200, right associativity) : py_scope.
Local Open Scope py_scope.

Definition ask : M env := fun e s => (Ok e, s).

Definition get_state : M pyval := fun _ s => (Ok (state (fst s)), s).

Definition put_state (v : pyval) : M unit :=
  fun _ s => (Ok tt, (Manager v (hyprsunset_pid (fst s)), snd s)).

Definition put_pid (p : option Z) : M unit :=
  fun _ s => (Ok tt, (Manager (state (fst s)) p, snd s)).

Definition emit (ev : event) : M unit :=
  fun _ s => (Ok tt, (fst s, World (state_file (snd s)) (trace (snd s) ++ [ev]))).

(** [self.state[k]] and [self.state[k] = x]. *)
Definition state_getitem (k : string) : M pyval :=
  st <- get_state ;; lift (getitem st k).

Definition state_setitem (k : string) (x : pyval) : M unit :=
  st <- get_state ;; st' <- lift (setitem st k x) ;; put_state st'.

(** ** ScreenLightManager *)

Definition default_state : pyval :=
  PDict {[ "manual" := PBool false;
           "bluelight" := PBool false;
           "last_temp" := PInt 4500 ]}.

(** [self.log(message)]; appending to the log file is taken to succeed. *)
Definition log (m : msg) : M unit := emit (Log m).

(** [with open(STATE_FILE) as f: json.load(f)] *)
Definition json_load_state_file : M pyval :=
  fun _ s =>
    match state_file (snd s) with
    | Absent => (Raise FileNotFoundError, s)
    | Unreadable => (Raise OSError, s)
    | Malformed => (Raise JSONDecodeError, s)
    | Holds v => (Ok v, s)
    end.

(** [with open(STATE_FILE, 'w') as f: json.dump(v, f, indent=2)] *)
Definition json_dump_state_file (v : pyval) : M unit :=
  fun e s =>
    if state_writable e
    then (Ok tt, (fst s, World (Holds v) (trace (snd s))))
    else (Raise OSError, s).

Definition load_state : M unit :=
  try_except
    (v <- json_load_state_file ;;
     put_state v ;;
     st <- get_state ;;
     log (Msg "State loaded: {}" [st]))
    (fun e =>
       match e with
       | FileNotFoundError | JSONDecodeError =>
           put_state default_state ;;
           st <- get_state ;;
           log (Msg "State file not found or invalid, using defaults: {}" [st])
       | _ =>
           log (Msg "Error loading state: {}" [exn_str e]) ;;
           put_state default_state
       end).

Definition save_state : M unit :=
  try_except
    (st <- get_state ;;
     json_dump_state_file st ;;
     st <- get_state ;;
     log (Msg "State saved: {}" [st]))
    (fun e => log (Msg "Error saving state: {}" [exn_str e])).

(** [subprocess.run(['notify-send', ...])]; the event carries the message
    without the icon put before it. *)
Definition run_notify_send (m : msg) : M unit :=
  emit (RunNotifySend m) ;;
  e <- ask ;;
  if notify_present e then ret tt else raise FileNotFoundError.

Definition notify (message : msg) : M unit :=
  try_except
    (run_notify_send message ;; log message)
    (fun e =>
       match e with
       | FileNotFoundError => ret tt
       | _ => raise e
       end).

(** [self.get_weather()]: the weather provider is an external collaborator;
    its answer ([None], or whatever JSON the provider or the cache gave) is
    read from the environment. *)
Definition get_weather : M pyval := e <- ask ;; ret (weather e).

Definition calculate_temperature : M Z :=
  e <- ask ;;
  let current_hour := utc_hour e in
  let is_night := (current_hour <? 6) || (current_hour >=? 20) in
  _bluelight <- state_getitem "bluelight" ;;
  weather <- get_weather ;;
  if negb (truthy weather) then
    ret (if is_night then NIGHT_DEFAULT else DAY_CLEAR)
  else if is_night then
    w_main <- lift (getitem weather "main") ;;
    temp <- lift (getitem w_main "temp") ;;
    w_weather <- lift (getitem weather "weather") ;;
    w_0 <- lift (getitem0 w_weather) ;;
    cond <- lift (getitem w_0 "main") ;;
    if py_in cond ["Rain"; "Drizzle"; "Thunderstorm"] then ret NIGHT_COLD
    else
      cold <- lift (py_lt_int temp 5) ;;
      ret (if cold then NIGHT_COLD else NIGHT_DEFAULT)
  else
    w_weather <- lift (getitem weather "weather") ;;
    w_0 <- lift (getitem0 w_weather) ;;
    weather_main <- lift (getitem w_0 "main") ;;
    if py_eq_str weather_main "Clear" then ret DAY_CLEAR
    else if py_in weather_main ["Rain"; "Drizzle"; "Thunderstorm"] then ret DAY_RAINY
    else ret DAY_CLOUDY.

(** [subprocess.run(['pkill', 'hyprsunset'], check=False)] *)
Definition run_pkill : M unit :=
  emit RunPkill ;;
  e <- ask ;;
  if pkill_present e then ret tt else raise FileNotFoundError.

(** [subprocess.Popen(['hyprsunset', '-t', str(temp)], ...)], giving the pid. *)
Definition popen_hyprsunset (temp : Z) : M Z :=
  emit (PopenHyprsunset temp) ;;
  e <- ask ;;
  lift (popen e).

Definition apply_temperature (temp : Z) : M unit :=
  try_except
    (run_pkill ;;
     emit (Sleep 500))
    (fun e => log (Msg "Error killing hyprsunset processes: {}" [exn_str e])) ;;
  try_except
    (pid <- popen_hyprsunset temp ;;
     put_pid (Some pid) ;;
     state_setitem "last_temp" (PInt temp) ;;
     save_state ;;
     notify (Msg "Screen temperature set to {}K" [PInt temp]) ;;
     log (Msg "Started hyprsunset with PID {}, temp {}K" [PInt pid; PInt temp]))
    (fun e =>
       match e with
       | FileNotFoundError =>
           log (Msg "Error: hyprsunset command not found" []) ;;
           notify (Msg "Error: hyprsunset not installed or not in PATH" [])
       | _ =>
           log (Msg "Error starting hyprsunset: {}" [exn_str e]) ;;
           notify (Msg "Error setting temperature: {}" [exn_str e])
       end).

Definition toggle_bluelight : M unit :=
  manual <- state_getitem "manual" ;;
  if negb (truthy manual) then
    notify (Msg "Cannot toggle blue light filter in automatic mode. Switch to manual mode first." [])
  else
    bl <- state_getitem "bluelight" ;;
    state_setitem "bluelight" (PBool (negb (truthy bl))) ;;
    bl <- state_getitem "bluelight" ;;
    let temp := if truthy bl then MANUAL_ON else MANUAL_OFF in
    apply_temperature temp ;;
    save_state ;;
    bl <- state_getitem "bluelight" ;;
    let status := if truthy bl then "ON (5000K)" else "OFF (6500K)" in
    notify (Msg "Blue light filter toggled {}" [PStr status]).

Definition update_temperature : M unit :=
  manual <- state_getitem "manual" ;;
  if negb (truthy manual) then
    new_temp <- calculate_temperature ;;
    last <- state_getitem "last_temp" ;;
    log (Msg "Calculated temperature: {}K, current: {}K" [PInt new_temp; last]) ;;
    last <- state_getitem "last_temp" ;;
    if py_int_ne new_temp last then apply_temperature new_temp
    else log (Msg "Temperature unchanged at {}K" [PInt new_temp])
  else ret tt.

Definition mode_name (manual : pyval) : pyval :=
  PStr (if truthy manual then "Manual" else "Automatic").

Definition toggle_manual_mode : M unit :=
  load_state ;;
  manual <- state_getitem "manual" ;;
  log (Msg "Current mode before toggle: {}" [mode_name manual]) ;;
  manual <- state_getitem "manual" ;;
  (if truthy manual then
     state_setitem "manual" (PBool false) ;;
     state_setitem "bluelight" (PBool false) ;;
     save_state ;;
     log (Msg "Toggled to automatic mode" []) ;;
     notify (Msg "Switched to automatic mode" []) ;;
     update_temperature
   else
     state_setitem "manual" (PBool true) ;;
     state_setitem "bluelight" (PBool false) ;;
     save_state ;;
     log (Msg "Toggled to manual mode" []) ;;
     apply_temperature MANUAL_OFF ;;
     notify (Msg "Switched to manual mode - screen set to neutral (6500K)" [])) ;;
  manual <- state_getitem "manual" ;;
  log (Msg "Final mode after toggle: {}" [mode_name manual]).

Definition toggle_auto_mode : M unit :=
  manual <- state_getitem "manual" ;;
  if truthy manual then
    state_setitem "manual" (PBool false) ;;
    state_setitem "bluelight" (PBool false) ;;
    save_state ;;
    notify (Msg "Switched to automatic mode" []) ;;
    update_temperature
  else
    notify (Msg "Already in automatic mode" []).

Definition force_manual_mode : M unit :=
  manual <- state_getitem "manual" ;;
  if negb (truthy manual) then
    state_setitem "manual" (PBool true) ;;
    state_setitem "bluelight" (PBool false) ;;
    apply_temperature MANUAL_OFF ;;
    save_state ;;
    notify (Msg "Switched to manual mode - screen set to neutral (6500K)" [])
  else
    notify (Msg "Already in manual mode" []).

(** [run_daemon] up to its loop, and one iteration of the loop.  The clock
    and the weather differ from one iteration to the next, so the loop itself
    is a fold over the environments of its ticks. *)
Definition run_daemon_start : M unit :=
  st <- get_state ;;
  last <- lift (dict_get st "last_temp" (PStr "Unknown")) ;;
  notify (Msg "Starting screen temperature service, initial temp: {}K" [last]) ;;
  manual <- state_getitem "manual" ;;
  if negb (truthy manual) then update_temperature else ret tt.

Definition daemon_tick : M unit :=
  try_except
    (update_temperature ;;
     emit (Sleep 300000))
    (fun e =>
       log (Msg "Error in daemon loop: {}" [exn_str e]) ;;
       emit (Sleep 60000)).

Fixpoint daemon_loop (ticks : list env) (s : machine) : machine :=
  match ticks with
  | [] => s
  | e :: ticks' => daemon_loop ticks' (snd (daemon_tick e s))
  end.

(** [status]: the report shows the reloaded state; the location and the
    formatting of the weather are left out, the values shown are kept. *)
Definition status : M unit :=
  load_state ;;
  weather <- get_weather ;;
  e <- ask ;;
  let current_hour := utc_hour e in
  let is_night := (current_hour <? 6) || (current_hour >=? 20) in
  let time_period := PStr (if is_night then "Night" else "Day") in
  st <- get_state ;;
  temp <- lift (dict_get st "last_temp" (PStr "Unknown")) ;;
  manual <- lift (dict_get st "manual" (PBool false)) ;;
  bluelight <- lift (dict_get st "bluelight" (PBool false)) ;;
  let mode := mode_name manual in
  let bluelight_status := PStr (if truthy bluelight then "ON" else "OFF") in
  emit (Stdout (Msg "Weather: {} Time Period: {} Screen Temperature: {}K Mode: {} Blue Light Filter: {}"
                   [weather; time_period; temp; mode; bluelight_status])) ;;
  log (Msg "Status check - Weather: {}, Mode: {}, Temp: {}K, BlueLight: {}"
           [weather; mode; temp; bluelight_status]).

(** ** The command line *)

(** How a process started from the command line ends: it exits with a
    status, or it is inside the daemon loop with its manager object. *)
Inductive outcome :=
| Exit (code : Z)
| InDaemonLoop (self : manager).

Definition usage : msg :=
  Msg "Usage: ./blue-light.py [toggle|manual|auto|force-manual|refresh-location|test <temp>|status]" [].

Section Main.

(** Python's [int(s)] ([None] when it raises [ValueError]) and
    [s.lower()]. *)
Variable py_int : string -> option Z.
Variable str_lower : string -> string.

Definition int (s : string) : M Z :=
  match py_int s with
  | Some z => ret z
  | None => raise ValueError
  end.

(** [ScreenLightManager.__init__]; the directories and the API keys of the
    configuration matter to the providers only. *)
Definition ScreenLightManager_init : M unit :=
  load_state ;;
  put_pid None.

(** The [if len(sys.argv) > 1] branch, for [argv = prog :: arg1 :: rest].
    [refresh-location] works on the caches of the location provider, which
    are not modelled; its printed line is kept. *)
Definition dispatch (arg1 : string) (rest : list string) : M unit :=
  let cmd := str_lower arg1 in
  if String.eqb cmd "toggle" then toggle_bluelight
  else if String.eqb cmd "manual" then toggle_manual_mode
  else if String.eqb cmd "auto" then toggle_auto_mode
  else if String.eqb cmd "force-manual" then force_manual_mode
  else if String.eqb cmd "refresh-location" then
    emit (Stdout (Msg "Location data refreshed" []))
  else if String.eqb cmd "test" then
    match rest with
    | arg2 :: _ =>
        try_except
          (temp <- int arg2 ;;
           apply_temperature temp)
          (fun e =>
             match e with
             | ValueError => emit (Stdout (Msg "Invalid temperature value" []))
             | _ => raise e
             end)
    | [] => emit (Stdout (Msg "Usage: ./blue-light.py test <temperature>" []))
    end
  else if String.eqb cmd "status" then status
  else emit (Stdout usage).

(** The script body from [manager = ScreenLightManager()] on.  An
    exception nobody catches ends the process with status 1; falling off
    the end of the script ends it with status 0. *)
Definition main (argv : list string) (e : env) (w : world) : outcome * world :=
  let s0 := (Manager PNone None, w) in
  match argv with
  | _ :: arg1 :: rest =>
      match (ScreenLightManager_init ;; dispatch arg1 rest) e s0 with
      | (Ok _, (_, w')) => (Exit 0, w')
      | (Raise _, (_, w')) => (Exit 1, w')
      end
  | _ =>
      match (ScreenLightManager_init ;; run_daemon_start) e s0 with
      | (Ok _, (self, w')) => (InDaemonLoop self, w')
      | (Raise _, (_, w')) => (Exit 1, w')
      end
  end.

(** *** Processes sharing the state file

    Any number of daemons and command-line runs share one state file.  A
    command-line run is a process of its own: it builds a manager, runs
    one command and exits.  A daemon keeps its manager from tick to
    tick. *)

Record system := System {
  daemons : list manager;
  disk : world
}.

Inductive action :=
| Command (argv : list string)
| Tick (i : nat)
| Interrupt (i : nat).

Definition sys_step (a : action) (e : env) (s : system) : system :=
  match a with
  | Command argv =>
      match main argv e (disk s) with
      | (Exit _, w') => System (daemons s) w'
      | (InDaemonLoop self, w') => System (daemons s ++ [self]) w'
      end
  | Tick i =>
      match daemons s !! i with
      | Some self =>
          let '(_, (self', w')) := daemon_tick e (self, disk s) in
          System (<[i := self']> (daemons s)) w'
      | None => s
      end
  | Interrupt i =>
      match daemons s !! i with
      | Some self =>
          let '(_, (_, w')) := notify (Msg "Service stopped" []) e (self, disk s) in
          System (delete i (daemons s)) w'
      | None => s
      end
  end.

Inductive reachable_from (s0 : system) : system -> Prop :=
| reach_refl : reachable_from s0 s0
| reach_step s a e : reachable_from s0 s -> reachable_from s0 (sys_step a e s).

End Main.

(** A first run: no state file, nothing running. *)
Definition initial_system : system := System [] (World Absent []).

(** Instances of the two builtins, as they behave on plain ASCII input:
    lower-casing of the letters A-Z, and decimal integers with an optional
    sign (Python's [int] also accepts surrounding blanks and underscores
    between digits; the theorems hold for any [py_int]). *)
Definition ascii_lower_char (c : ascii) : ascii :=
  let n := nat_of_ascii c in
  if (Nat.leb 65 n && Nat.leb n 90)%bool then ascii_of_nat (n + 32) else c.

Fixpoint ascii_lower (s : string) : string :=
  match s with
  | EmptyString => EmptyString
  | String c s' => String (ascii_lower_char c) (ascii_lower s')
  end.

Fixpoint ascii_digits (s : string) (acc : Z) : option Z :=
  match s with
  | EmptyString => Some acc
  | String c s' =>
      let n := nat_of_ascii c in
      if (Nat.leb 48 n && Nat.leb n 57)%bool
      then ascii_digits s' (10 * acc + Z.of_nat (n - 48))
      else None
  end.

Definition ascii_int (s : string) : option Z :=
  match s with
  | EmptyString => None
  | String "-"%char (String c s') => Z.opp <$> ascii_digits (String c s') 0
  | String "+"%char (String c s') => ascii_digits (String c s') 0
  | String "-"%char EmptyString | String "+"%char EmptyString => None
  | _ => ascii_digits s 0
  end.

(** ** Vocabulary of the properties *)

(** The field [k] of a state record, when the value is a dict that has it. *)
Definition field (v : pyval) (k : string) : option pyval :=
  match v with
  | PDict d => d !! k
  | _ => None
  end.

(** [v] is a PersistedState: a dict whose three fields are two booleans and
    an integer.  Further keys are allowed. *)
Definition is_state (v : pyval) (manual bluelight : bool) (last_temp : Z) : Prop :=
  field v "manual" = Some (PBool manual) /\
  field v "bluelight" = Some (PBool bluelight) /\
  field v "last_temp" = Some (PInt last_temp).

(** The record with exactly the three fields. *)
Definition record_state (manual bluelight : bool) (last_temp : Z) : pyval :=
  PDict {[ "manual" := PBool manual;
           "bluelight" := PBool bluelight;
           "last_temp" := PInt last_temp ]}.

(** The events a run added to the trace, and the temperatures the display
    applier was asked for among them. *)
Definition new_events (w w' : world) : list event :=
  drop (length (trace w)) (trace w').

Definition applier_temps (evs : list event) : list Z :=
  omap (fun ev => match ev with PopenHyprsunset t => Some t | _ => None end) evs.

Definition notices (evs : list event) : list msg :=
  omap (fun ev => match ev with RunNotifySend m => Some m | _ => None end) evs.

Definition printed (evs : list event) : list msg :=
  omap (fun ev => match ev with Stdout m => Some m | _ => None end) evs.

(** The world after more events, with the state file as it was. *)
Definition add_events (evs : list event) (w : world) : world :=
  World (state_file w) (trace w ++ evs).

(** What [notify], [save_state] and [apply_temperature] add to the trace. *)
Definition notify_events (e : env) (m : msg) : list event :=
  if notify_present e then [RunNotifySend m; Log m] else [RunNotifySend m].

Definition save_events (e : env) (st : pyval) : list event :=
  if state_writable e then [Log (Msg "State saved: {}" [st])]
  else [Log (Msg "Error saving state: {}" [exn_str OSError])].

Definition pkill_events (e : env) : list event :=
  if pkill_present e then [RunPkill; Sleep 500]
  else [RunPkill; Log (Msg "Error killing hyprsunset processes: {}" [exn_str FileNotFoundError])].

(** The state file after [save_state] of [st]. *)
Definition saved (e : env) (st : pyval) (f : disk_file) : disk_file :=
  if state_writable e then Holds st else f.

(** The smallest weather payload with the two fields the decider reads. *)
Definition weather_snapshot (cond temp : pyval) : pyval :=
  PDict {[ "main" := PDict {[ "temp" := temp ]};
           "weather" := PList [PDict {[ "main" := cond ]}] ]}.

(** The spec's decision table (section 4.2), written from its words: the
    night window, an ambient temperature (a JSON number), the rainy
    conditions, and the table itself. *)
Definition isNight (h : Z) : bool := bool_decide (h < 6 \/ h >= 20).

Inductive celsius :=
| CInt (z : Z)
| CFloat (f : float).

Definition celsius_py (c : celsius) : pyval :=
  match c with
  | CInt z => PInt z
  | CFloat f => PFloat f
  end.

Definition below_5 (c : celsius) : bool :=
  match c with
  | CInt z => bool_decide (z < 5)
  | CFloat f => PrimFloat.ltb f 5%float
  end.

Definition rainy (cond : string) : bool :=
  bool_decide (cond ∈ ["Rain"; "Drizzle"; "Thunderstorm"]).

Definition spec_temperature (h : Z) (w : option (string * celsius)) : Z :=
  match w with
  | None => if isNight h then 4200 else 6500
  | Some (cond, ambient) =>
      if isNight h then
        if rainy cond then 3800
        else if below_5 ambient then 3800 else 4200
      else
        if bool_decide (cond = "Clear") then 6500
        else if rainy cond then 5200
        else 5800
  end.

(** The invariant of the data model, on a state, on the state file and on a
    system of processes. *)
Definition state_inv (v : pyval) : Prop :=
  exists m b t, is_state v m b t /\ (m = false -> b = false).

Definition file_inv (f : disk_file) : Prop :=
  match f with
  | Holds v => state_inv v
  | _ => True
  end.

Definition sys_inv (s : system) : Prop :=
  file_inv (state_file (disk s)) /\
  Forall (fun self => state_inv (state self)) (daemons s).

(** The five operations of the mode controller. *)
Inductive operation :=
| Reconcile
| ToggleFilter
| ToggleManualMode
| SwitchToAutomatic
| SwitchToManual.

Definition run_operation (o : operation) : M unit :=
  match o with
  | Reconcile => update_temperature
  | ToggleFilter => toggle_bluelight
  | ToggleManualMode => toggle_manual_mode
  | SwitchToAutomatic => toggle_auto_mode
  | SwitchToManual => force_manual_mode
  end.

(** The trace of a call of [apply_temperature] after its [pkill], when
    [hyprsunset] started and when it did not. *)
Definition apply_error_events (e : env) (x : exn) : list event :=
  match x with
  | FileNotFoundError =>
      Log (Msg "Error: hyprsunset command not found" []) ::
      notify_events e (Msg "Error: hyprsunset not installed or not in PATH" [])
  | _ =>
      Log (Msg "Error starting hyprsunset: {}" [exn_str x]) ::
      notify_events e (Msg "Error setting temperature: {}" [exn_str x])
  end.

Definition apply_ok_events (e : env) (temp pid : Z) (st : pyval) : list event :=
  save_events e st ++
  notify_events e (Msg "Screen temperature set to {}K" [PInt temp]) ++
  [Log (Msg "Started hyprsunset with PID {}, temp {}K" [PInt pid; PInt temp])].

(** A weather payload with the fields the decider reads, whatever else it
    holds: [w['main']['temp']] and [w['weather'][0]['main']]. *)
Definition has_weather_fields (w cond temp : pyval) : Prop :=
  exists w_main w_0 rest,
    field w "main" = Some w_main /\
    field w_main "temp" = Some temp /\
    field w "weather" = Some (PList (w_0 :: rest)) /\
    field w_0 "main" = Some cond.

(** What [load_state] leaves in memory for a state file, and what it logs. *)
Definition loaded (f : disk_file) : pyval :=
  match f with
  | Holds v => v
  | _ => default_state
  end.

Definition load_events (f : disk_file) : list event :=
  match f with
  | Holds v => [Log (Msg "State loaded: {}" [v])]
  | Unreadable => [Log (Msg "Error loading state: {}" [exn_str OSError])]
  | _ => [Log (Msg "State file not found or invalid, using defaults: {}" [default_state])]
  end.

(** The commands the dispatch recognizes. *)
Definition commands : list string :=
  ["toggle"; "manual"; "auto"; "force-manual"; "refresh-location"; "test"; "status"].

(** Exit status of the script: 1 when an exception reaches the top. *)
Definition exit_status {A} (r : result A) : Z :=
  match r with
  | Ok _ => 0
  | Raise _ => 1
  end.

(** The temperature [calculate_temperature] computes in an environment: it
    reads the state only to look up a key whose value it ignores. *)
Definition computed_temperature (e : env) : result Z :=
  fst (calculate_temperature e (Manager default_state None, World Absent [])).

(** A program keeps the invariant of the manager's state and of the state
    file. *)
Definition keeps_inv {A} (p : M A) : Prop :=
  forall e self w r self' w',
    state_inv (state self) ->
    file_inv (state_file w) ->
    p e (self, w) = (r, (self', w')) ->
    state_inv (state self') /\ file_inv (state_file w').

(** After a run the state file holds the manager's state, or neither the
    manager's state nor the state file changed. *)
Definition persisted_or_untouched (s s' : machine) : Prop :=
  state_file (snd s') = Holds (state (fst s')) \/
  (state (fst s') = state (fst s) /\ state_file (snd s') = state_file (snd s)).

Definition persists {A} (p : M A) : Prop :=
  forall e s r s',
    state_writable e = true ->
    p e s = (r, s') ->
    persisted_or_untouched s s'.

(** ** Concrete environments and inputs *)

(** Noon and ten in the evening UTC with no weather data and every external
    program working; a rainy and a clear, cold night; and a machine without
    [hyprsunset]. *)
Definition env_day : env := Env 12 PNone true (Ok 100) true true.
Definition env_night : env := Env 22 PNone true (Ok 101) true true.
Definition env_rainy_night : env :=
  Env 22 (weather_snapshot (PStr "Rain") (PFloat 7.5%float)) true (Ok 102) true true.
Definition env_clear_night : env :=
  Env 23 (weather_snapshot (PStr "Clear") (PFloat 0x1.399999999999ap+2%float))
      true (Ok 103) true true.
Definition env_no_hyprsunset : env :=
  Env 12 PNone true (Raise FileNotFoundError) true true.

(** A first run (no state file, empty trace), the manager a first run
    builds, and a manager in manual mode. *)
Definition first_run : world := World Absent [].
Definition new_manager : manager := Manager default_state None.
Definition manual_manager : manager := Manager (record_state true false 6500) None.

(** ** Vocabulary of the further properties *)

(** The temperatures the decider can return. *)
Definition decided_temperatures : list Z := [6500; 5800; 5200; 4200; 3800].

(** The temperatures the five operations can ask the applier for. *)
Definition operation_temperatures : list Z := [6500; 5800; 5200; 5000; 4200; 3800].

(** A run extends the trace by events among which the applier is asked for
    at most one temperature, and that one satisfies [P]. *)
Definition asks_at_most {A} (P : Z -> Prop) (p : M A) : Prop :=
  forall e s,
  exists evs,
    trace (snd (snd (p e s))) = trace (snd s) ++ evs /\
    (applier_temps evs = [] \/ exists t, applier_temps evs = [t] /\ P t).

(** Two worlds with the same state file: a program run in either ends with
    the same result, manager and state file, and adds the same events. *)
Definition same_run {A} (p : M A) (e : env) (self : manager) (w1 w2 : world) : Prop :=
  exists r self' f evs,
    p e (self, w1) = (r, (self', World f (trace w1 ++ evs))) /\
    p e (self, w2) = (r, (self', World f (trace w2 ++ evs))).

(** What a user sees of a command-line run: how the process ends, the state
    file it leaves, the notices it sent and the temperatures it asked the
    applier for (the log and the printed lines are left out). *)
Definition observe (w : world) (r : outcome * world)
  : outcome * disk_file * list msg * list Z :=
  (fst r, state_file (snd r),
   notices (new_events w (snd r)), applier_temps (new_events w (snd r))).

(** An answer of the weather service without the fields the decider reads,
    a state file left by manual mode, and a state file of another shape. *)
Definition env_unusable_weather : env :=
  Env 22 (PDict {[ "cod" := PInt 401; "message" := PStr "Invalid API key" ]})
      true (Ok 104) true true.
Definition manual_run : world := World (Holds (record_state true false 6500)) [].
Definition other_shape_run : world := World (Holds (PList [])) [].

(** ** The location and weather providers

    [get_coordinates], [get_location_info], [get_weather] and the
    [refresh-location] command work on three files of the cache directory
    and on two web services.  What the configuration holds, what the
    services answer and which files can be written is the environment's;
    the files and what the program did are the state.  As above, appending
    to the log file is taken to succeed, and so is [path.exists()].

    The [get_weather] of the mode controller above is this [get_weather]
    seen from its caller: the controller reads the answer from its own
    environment, and a run in which [get_weather] raises is not a run of
    the controller's model. *)

Module Providers.

(** [CACHE_DIR / "coordinates"] by what reading it gives:
    [lat, lon = map(float, f.read().split())] raises, or gives the two
    numbers.  [f"{lat} {lon}"] writes the shortest decimal that reads back
    as the same double. *)
Inductive coordinates_file :=
| NoCoordinates
| BadCoordinates (x : exn)
| Coordinates (lat lon : float).

(** The two [requests.get] calls with their parameters. *)
Inductive request :=
| IpGeolocation (apiKey fields : string)
| OpenWeather (lat lon : float) (appid units : string).

Inductive event :=
| Logged (m : msg)
| HttpGet (r : request)
| Printed (m : msg).

Record caches := Caches {
  coordinates_cache : coordinates_file;
  location_cache : disk_file;
  weather_cache : disk_file;
  events : list event
}.

(** [api_key name] is [self.config['API'].get(name)]: it raises
    [KeyError] when the configuration file has no [API] section.  [ipgeo]
    is [requests.get], [raise_for_status] and [response.json()] on the
    geolocation service, [owm] is [requests.get] and [response.json()] on
    the weather service. *)
Record services := Services {
  api_key : string -> result (option string);
  ipgeo : result pyval;
  owm : float -> float -> result pyval;
  coordinates_writable : bool;
  location_writable : bool;
  weather_writable : bool;
  coordinates_unlinkable : bool;
  location_unlinkable : bool
}.

Definition P (A : Type) : Type := services -> caches -> result A * caches.

Definition ret {A} (a : A) : P A := fun _ c => (Ok a, c).

Definition bind {A B} (m : P A) (k : A -> P B) : P B :=
  fun e c =>
    match m e c with
    | (Ok a, c') => k a e c'
    | (Raise x, c') => (Raise x, c')
    end.

Definition raise {A} (x : exn) : P A := fun _ c => (Raise x, c).

Definition lift {A} (r : result A) : P A := fun _ c => (r, c).

Definition try_except {A} (body : P A) (handler : exn -> P A) : P A :=
  fun e c =>
    match body e c with
    | (Ok a, c') => (Ok a, c')
    | (Raise x, c') => handler x e c'
    end.

Declare Scope provider_scope.
Delimit Scope provider_scope with provider.
Notation "x <- c1 ;; c2" := (bind c1 (fun x => c2))
  (at level 100, c1 at next level, c2 at level 200, right associativity) : provider_scope.
Notation "c1 ;; c2" := (bind c1 (fun _ => c2))
  (at level 100, c2 at level 200, right associativity) : provider_scope.
Local Open Scope provider_scope.

Definition ask : P services := fun e c => (Ok e, c).

Definition get_caches : P caches := fun _ c => (Ok c, c).

Definition emit (ev : event) : P unit :=
  fun _ c =>
    (Ok tt, Caches (coordinates_cache c) (location_cache c) (weather_cache c)
                   (events c ++ [ev])).

Definition log (m : msg) : P unit := emit (Logged m).

Definition config_get (name : string) : P (option string) :=
  e <- ask ;; lift (api_key e name).

(** [if api_key:] for the [Optional[str]] that [config_get] gives. *)
Definition key_present (k : option string) : bool :=
  match k with
  | Some s => negb (String.eqb s "")
  | None => false
  end.

Definition key_string (k : option string) : string := default "" k.

Definition IPGEO_FIELDS : string := "latitude,longitude,city,country_name".

Definition requests_get_ipgeo (k : string) : P pyval :=
  emit (HttpGet (IpGeolocation k IPGEO_FIELDS)) ;;
  e <- ask ;;
  lift (ipgeo e).

Definition requests_get_owm (lat lon : float) (k : string) : P pyval :=
  emit (HttpGet (OpenWeather lat lon k "metric")) ;;
  e <- ask ;;
  lift (owm e lat lon).

(** [with open(cache_file, 'w') as f: f.write(f"{lat} {lon}")] *)
Definition write_coordinates (lat lon : float) : P unit :=
  fun e c =>
    if coordinates_writable e
    then (Ok tt, Caches (Coordinates lat lon) (location_cache c) (weather_cache c) (events c))
    else (Raise OSError, c).

(** [with open(cache_file) as f: lat, lon = map(float, f.read().split())] *)
Definition read_coordinates : P (float * float) :=
  fun _ c =>
    match coordinates_cache c with
    | NoCoordinates => (Raise FileNotFoundError, c)
    | BadCoordinates x => (Raise x, c)
    | Coordinates lat lon => (Ok (lat, lon), c)
    end.

Definition coordinates_exist (f : coordinates_file) : bool :=
  match f with
  | NoCoordinates => false
  | _ => true
  end.

(** [with open(path, 'w') as f: json.dump(v, f)] on the two JSON caches. *)
Definition json_dump_location (v : pyval) : P unit :=
  fun e c =>
    if location_writable e
    then (Ok tt, Caches (coordinates_cache c) (Holds v) (weather_cache c) (events c))
    else (Raise OSError, c).

Definition json_dump_weather (v : pyval) : P unit :=
  fun e c =>
    if weather_writable e
    then (Ok tt, Caches (coordinates_cache c) (location_cache c) (Holds v) (events c))
    else (Raise OSError, c).

(** [path.exists()] and [with open(path) as f: json.load(f)]. *)
Definition file_exists (f : disk_file) : bool :=
  match f with
  | Absent => false
  | _ => true
  end.

Definition json_load (f : disk_file) : result pyval :=
  match f with
  | Absent => Raise FileNotFoundError
  | Unreadable => Raise OSError
  | Malformed => Raise JSONDecodeError
  | Holds v => Ok v
  end.

(** The fallback coordinates [51.5074, -0.1278] as doubles. *)
Definition LONDON : float * float :=
  (0x1.9c0f27bb2fec5p+5%float, (-0x1.05bc01a36e2ebp-3)%float).

Definition london_info : pyval :=
  PDict {[ "city" := PStr "London";
           "country" := PStr "United Kingdom";
           "lat" := PFloat (fst LONDON);
           "lon" := PFloat (snd LONDON) ]}.

Section Float.

(** Python's [float(x)]. *)
Variable py_float : pyval -> result float.

(** The live lookup of [get_coordinates]: the body of its first [try].
    [Some] is its [return lat, lon]. *)
Definition fetch_coordinates (k : string) : P (option (float * float)) :=
  log (Msg "Attempting to fetch location from IP geolocation API..." []) ;;
  data <- requests_get_ipgeo k ;;
  latitude <- lift (getitem data "latitude") ;;
  lat <- lift (py_float latitude) ;;
  longitude <- lift (getitem data "longitude") ;;
  lon <- lift (py_float longitude) ;;
  city <- lift (dict_get data "city" (PStr "Unknown")) ;;
  country <- lift (dict_get data "country_name" (PStr "Unknown")) ;;
  log (Msg "Successfully fetched location: {}, {} ({}, {})"
           [city; country; PFloat lat; PFloat lon]) ;;
  write_coordinates lat lon ;;
  json_dump_location
    (PDict {[ "city" := city; "country" := country;
              "lat" := PFloat lat; "lon" := PFloat lon ]}) ;;
  ret (Some (lat, lon)).

(** The cached coordinates: [Some] is the [return lat, lon] of the second
    [try]. *)
Definition cached_coordinates : P (option (float * float)) :=
  c <- get_caches ;;
  if coordinates_exist (coordinates_cache c) then
    try_except
      (p <- read_coordinates ;;
       log (Msg "Using cached coordinates: {}, {}" [PFloat (fst p); PFloat (snd p)]) ;;
       ret (Some p))
      (fun x =>
         log (Msg "Error reading cached coordinates: {}" [exn_str x]) ;;
         ret None)
  else ret None.

(** [get_coordinates] in its three stages: the live lookup when a key is
    configured, the cached coordinates, London. *)
Definition live_coordinates : P (option (float * float)) :=
  k <- config_get "ipgeolocation" ;;
  if key_present k then
    try_except
      (fetch_coordinates (key_string k))
      (fun x =>
         log (Msg "Geolocation API error: {}" [exn_str x]) ;;
         ret None)
  else
    log (Msg "No IP geolocation API key configured" []) ;;
    ret None.

Definition stored_coordinates : P (float * float) :=
  cached <- cached_coordinates ;;
  match cached with
  | Some p => ret p
  | None =>
      log (Msg "Using fallback coordinates (London)" []) ;;
      ret LONDON
  end.

Definition get_coordinates : P (float * float) :=
  live <- live_coordinates ;;
  match live with
  | Some p => ret p
  | None => stored_coordinates
  end.

Definition get_location_info : P pyval :=
  cached <- try_except
              (c <- get_caches ;;
               if file_exists (location_cache c) then
                 v <- lift (json_load (location_cache c)) ;;
                 ret (Some v)
               else ret None)
              (fun x =>
                 log (Msg "Error reading location cache: {}" [exn_str x]) ;;
                 ret None) ;;
  match cached with
  | Some v => ret v
  | None => ret london_info
  end.

(** [if cache_file.exists(): ... return json.load(f)] and [return None]. *)
Definition cached_weather : P pyval :=
  c <- get_caches ;;
  if file_exists (weather_cache c) then lift (json_load (weather_cache c))
  else ret PNone.

Definition get_weather : P pyval :=
  try_except
    (p <- get_coordinates ;;
     k <- config_get "openweather" ;;
     if negb (key_present k) then
       log (Msg "OpenWeather API key not configured" []) ;;
       cached_weather
     else
       data <- requests_get_owm (fst p) (snd p) (key_string k) ;;
       json_dump_weather data ;;
       ret data)
    (fun x =>
       log (Msg "Weather API error: {}" [exn_str x]) ;;
       cached_weather).

(** [if path.exists(): path.unlink()] on each of the two location caches:
    two calls, each of which can fail on its own. *)
Definition unlink_coordinates : P unit :=
  fun e c =>
    if coordinates_exist (coordinates_cache c) then
      if coordinates_unlinkable e
      then (Ok tt, Caches NoCoordinates (location_cache c) (weather_cache c) (events c))
      else (Raise OSError, c)
    else (Ok tt, c).

Definition unlink_location : P unit :=
  fun e c =>
    if file_exists (location_cache c) then
      if location_unlinkable e
      then (Ok tt, Caches (coordinates_cache c) Absent (weather_cache c) (events c))
      else (Raise OSError, c)
    else (Ok tt, c).

(** The [refresh-location] branch of the script. *)
Definition refresh_location : P unit :=
  unlink_coordinates ;;
  unlink_location ;;
  get_coordinates ;;
  emit (Printed (Msg "Location data refreshed" [])).

End Float.

(** [float(x)] on the values of JSON that are not strings; the concrete
    answers below hold their coordinates as JSON numbers, so that the
    parsing of a string is never asked for. *)
Definition float_of_number (v : pyval) : result float :=
  match v with
  | PFloat f => Ok f
  | PInt z => Ok (Z_to_float z)
  | PBool b => Ok (if b then 1%float else 0%float)
  | PStr _ => Raise ValueError
  | _ => Raise TypeError
  end.

(** *** Vocabulary *)

(** The caches after more events, with the files as they were. *)
Definition with_events (evs : list event) (c : caches) : caches :=
  Caches (coordinates_cache c) (location_cache c) (weather_cache c) (events c ++ evs).

(** The web requests among some events. *)
Definition requests (evs : list event) : list request :=
  omap (fun ev => match ev with HttpGet r => Some r | _ => None end) evs.

(** A geolocation answer from which the live lookup reads [lat] and [lon]. *)
Definition locates (py_float : pyval -> result float) (data : pyval) (lat lon : float) : Prop :=
  exists latitude longitude,
    getitem data "latitude" = Ok latitude /\ py_float latitude = Ok lat /\
    getitem data "longitude" = Ok longitude /\ py_float longitude = Ok lon.

(** The record of the location cache for an answer. *)
Definition location_data (data : pyval) (lat lon : float) : pyval :=
  match data with
  | PDict d =>
      PDict {[ "city" := default (PStr "Unknown") (d !! "city");
               "country" := default (PStr "Unknown") (d !! "country_name");
               "lat" := PFloat lat; "lon" := PFloat lon ]}
  | _ => PNone
  end.

(** What [get_coordinates] falls back to: the cache, then London. *)
Definition fallback_coordinates (c : caches) : float * float :=
  match coordinates_cache c with
  | Coordinates lat lon => (lat, lon)
  | _ => LONDON
  end.

(** What [get_weather] returns is what the weather cache holds afterwards,
    or [None] without a cache; it raises only what reading the cache
    raises. *)
Definition weather_result (c : caches) (r : result pyval) (wc : disk_file) : Prop :=
  match r with
  | Ok v => (v = PNone /\ wc = Absent /\ weather_cache c = Absent) \/ wc = Holds v
  | Raise x =>
      json_load (weather_cache c) = Raise x /\ file_exists (weather_cache c) = true /\
      wc = weather_cache c
  end.

(** What reading the weather cache gives [get_weather]. *)
Definition stored_weather (c : caches) : result pyval :=
  match weather_cache c with
  | Absent => Ok PNone
  | f => json_load f
  end.

(** [get_weather] gets a new answer and can store it. *)
Definition fetches (py_float : pyval -> result float) (e : services) (c : caches)
    (p : float * float) (k : option string) (data : pyval) : Prop :=
  fst (get_coordinates py_float e c) = Ok p /\
  api_key e "openweather" = Ok k /\ key_present k = true /\
  owm e (fst p) (snd p) = Ok data /\ weather_writable e = true.

(** No weather key is configured. *)
Definition no_weather_key (e : services) : Prop :=
  forall k, api_key e "openweather" = Ok k -> key_present k = false.

(** The geolocation service cannot be used: no key, or the request fails. *)
Definition offline (e : services) : Prop :=
  exists k, api_key e "ipgeolocation" = Ok k /\
            (key_present k = false \/ exists x, ipgeo e = Raise x).

(** Concrete services and caches: a geolocation answer for Paris, a
    weather answer, and machines with both keys, without keys, without an
    [API] section, with a cache directory that cannot be written, and with
    a location record that cannot be deleted. *)
Definition paris : pyval :=
  PDict {[ "latitude" := PFloat 0x1.86e147ae147aep+5%float;
           "longitude" := PFloat 0x1.2cccccccccccdp+1%float;
           "city" := PStr "Paris"; "country_name" := PStr "France" ]}.

Definition clear_sky : pyval :=
  PDict {[ "main" := PDict {[ "temp" := PFloat 0x1.2p+4%float ]};
           "weather" := PList [PDict {[ "main" := PStr "Clear" ]}] ]}.

Definition both_keys (name : string) : result (option string) :=
  Ok (if String.eqb name "ipgeolocation" then Some "geo-key"
      else if String.eqb name "openweather" then Some "owm-key"
      else None).

Definition online : services :=
  Services both_keys (Ok paris) (fun _ _ => Ok clear_sky) true true true true true.

Definition no_keys : services :=
  Services (fun _ => Ok (Some "")) (Raise OSError) (fun _ _ => Raise OSError)
           true true true true true.

Definition no_api_section : services :=
  Services (fun _ => Raise (KeyError "API")) (Raise OSError) (fun _ _ => Raise OSError)
           true true true true true.

Definition read_only : services :=
  Services both_keys (Ok paris) (fun _ _ => Ok clear_sky) false false false false false.

Definition location_kept : services :=
  Services both_keys (Ok paris) (fun _ _ => Ok clear_sky) true true true true false.

Definition no_caches : caches := Caches NoCoordinates Absent Absent [].

Definition paris_cached : caches :=
  Caches (Coordinates 0x1.86e147ae147aep+5%float 0x1.2cccccccccccdp+1%float)
         Absent Absent [].

Definition paris_known : caches :=
  Caches (Coordinates 0x1.86e147ae147aep+5%float 0x1.2cccccccccccdp+1%float)
         (Holds (location_data paris 0x1.86e147ae147aep+5%float 0x1.2cccccccccccdp+1%float))
         Absent [].

End Providers.

(** ** Running the primitives *)

Ltac unfold_monad :=
  unfold state_getitem, state_setitem, log, emit, put_state, put_pid,
    get_state, get_weather, ask, lift, raise, try_except, bind, ret in *.

Ltac norm_trace :=
  unfold add_events; simpl; rewrite <- ?app_assoc; simpl.

Lemma notify_run m e self w :
  notify m e (self, w) = (Ok tt, (self, add_events (notify_events e m) w)).
Proof.
  unfold notify, run_notify_send, notify_events. unfold_monad. simpl.
  destruct (notify_present e); norm_trace; reflexivity.
Qed.

Lemma save_state_run e self w :
  save_state e (self, w) =
  (Ok tt, (self, World (saved e (state self) (state_file w))
                       (trace w ++ save_events e (state self)))).
Proof.
  unfold save_state, json_dump_state_file, save_events, saved. unfold_monad. simpl.
  destruct (state_writable e); simpl; reflexivity.
Qed.

Lemma load_state_run e self w :
  load_state e (self, w) =
  (Ok tt,
   match state_file w with
   | Holds v =>
       (Manager v (hyprsunset_pid self),
        add_events [Log (Msg "State loaded: {}" [v])] w)
   | Unreadable =>
       (Manager default_state (hyprsunset_pid self),
        add_events [Log (Msg "Error loading state: {}" [exn_str OSError])] w)
   | _ =>
       (Manager default_state (hyprsunset_pid self),
        add_events [Log (Msg "State file not found or invalid, using defaults: {}"
                             [default_state])] w)
   end).
Proof.
  unfold load_state, json_load_state_file. unfold_monad. simpl.
  destruct (state_file w); reflexivity.
Qed.

Lemma load_state_loaded e self w :
  load_state e (self, w) =
  (Ok tt, (Manager (loaded (state_file w)) (hyprsunset_pid self),
           add_events (load_events (state_file w)) w)).
Proof. rewrite load_state_run. by destruct (state_file w). Qed.

Lemma apply_temperature_run temp e self w :
  apply_temperature temp e (self, w) =
  (Ok tt,
   match popen e with
   | Ok pid =>
       match setitem (state self) "last_temp" (PInt temp) with
       | Ok st' =>
           (Manager st' (Some pid),
            World (saved e st' (state_file w))
                  (trace w ++ pkill_events e ++ PopenHyprsunset temp ::
                     apply_ok_events e temp pid st'))
       | Raise x =>
           (Manager (state self) (Some pid),
            add_events (pkill_events e ++ PopenHyprsunset temp ::
                          apply_error_events e x) w)
       end
   | Raise x =>
       (self,
        add_events (pkill_events e ++ PopenHyprsunset temp ::
                      apply_error_events e x) w)
   end).
Proof.
  destruct self as [st p], w as [f tr].
  unfold apply_temperature, run_pkill, popen_hyprsunset.
  unfold_monad. simpl.
  unfold pkill_events, apply_ok_events.
  destruct (pkill_present e); simpl;
    (destruct (popen e) as [pid|x]; simpl;
     [ destruct (setitem st "last_temp" (PInt temp)) as [st'|x]; simpl;
       [ rewrite save_state_run; simpl; rewrite notify_run; norm_trace; reflexivity
       | destruct x; rewrite notify_run; norm_trace; reflexivity ]
     | destruct x; rewrite notify_run; norm_trace; reflexivity ]).
Qed.

Lemma calculate_temperature_pure e s :
  snd (calculate_temperature e s) = s.
Proof.
  unfold calculate_temperature. unfold_monad. simpl.
  repeat (case_match; simpl; try reflexivity).
Qed.

Lemma hour_is_night h : (h <? 6) || (h >=? 20) = isNight h.
Proof.
  unfold isNight.
  destruct (Z.ltb_spec h 6), (Z.geb_spec h 20); simpl; symmetry;
    first [ apply bool_decide_eq_true; lia | apply bool_decide_eq_false; lia ].
Qed.

Lemma py_eq_str_decide c s : py_eq_str (PStr c) s = bool_decide (c = s).
Proof.
  unfold py_eq_str. destruct (String.eqb_spec c s).
  - symmetry. by apply bool_decide_eq_true.
  - symmetry. by apply bool_decide_eq_false.
Qed.

Lemma py_in_rainy c : py_in (PStr c) ["Rain"; "Drizzle"; "Thunderstorm"] = rainy c.
Proof.
  unfold py_in, rainy. cbn [existsb]. rewrite !py_eq_str_decide.
  destruct (bool_decide (c ∈ ["Rain"; "Drizzle"; "Thunderstorm"])) eqn:E.
  - apply bool_decide_eq_true in E.
    repeat (apply elem_of_cons in E as [-> | E]; [reflexivity |]).
    by apply elem_of_nil in E.
  - apply bool_decide_eq_false in E.
    repeat (case_bool_decide as Hc; [subst c; exfalso; apply E; set_solver |];
            clear Hc; cbn [orb]).
    reflexivity.
Qed.

Lemma py_lt_5 a : py_lt_int (celsius_py a) 5 = Ok (below_5 a).
Proof.
  destruct a as [z|f]; unfold py_lt_int; simpl.
  - f_equal. destruct (Z.ltb_spec z 5); symmetry;
      [ apply bool_decide_eq_true | apply bool_decide_eq_false ]; lia.
  - reflexivity.
Qed.

Lemma field_truthy v k x : field v k = Some x -> truthy v = true.
Proof.
  destruct v; simpl; try discriminate. intros H.
  destruct (size d) eqn:E; [| reflexivity].
  apply map_size_empty_iff in E. subst. by rewrite lookup_empty in H.
Qed.

Lemma field_getitem v k x : field v k = Some x -> getitem v k = Ok x.
Proof. destruct v; simpl; try discriminate. by intros ->. Qed.

Lemma is_state_dict v m b t :
  is_state v m b t ->
  exists d, v = PDict d /\ d !! "manual" = Some (PBool m) /\
            d !! "bluelight" = Some (PBool b) /\ d !! "last_temp" = Some (PInt t).
Proof.
  intros (Hm & Hb & Ht). destruct v; try discriminate. eauto.
Qed.

Lemma new_events_add evs w f :
  new_events w (World f (trace w ++ evs)) = evs.
Proof. unfold new_events. simpl. apply drop_app_length. Qed.

Lemma new_events_trace w w' evs :
  trace w' = trace w ++ evs -> new_events w w' = evs.
Proof. unfold new_events. intros ->. apply drop_app_length. Qed.

Lemma new_events_refl w : new_events w w = [].
Proof. apply new_events_trace. by rewrite app_nil_r. Qed.

Lemma applier_temps_app evs1 evs2 :
  applier_temps (evs1 ++ evs2) = applier_temps evs1 ++ applier_temps evs2.
Proof. apply omap_app. Qed.

Lemma applier_temps_notify e m : applier_temps (notify_events e m) = [].
Proof. unfold notify_events. by destruct (notify_present e). Qed.

Lemma applier_temps_save e st : applier_temps (save_events e st) = [].
Proof. unfold save_events. by destruct (state_writable e). Qed.

Lemma applier_temps_pkill e : applier_temps (pkill_events e) = [].
Proof. unfold pkill_events. by destruct (pkill_present e). Qed.

Lemma applier_temps_error e x : applier_temps (apply_error_events e x) = [].
Proof. destruct x; simpl; apply applier_temps_notify. Qed.

Lemma applier_temps_load f : applier_temps (load_events f) = [].
Proof. by destruct f. Qed.

Lemma applier_temps_ok e temp pid st : applier_temps (apply_ok_events e temp pid st) = [].
Proof.
  unfold apply_ok_events.
  by rewrite !applier_temps_app, applier_temps_save, applier_temps_notify.
Qed.

Lemma notices_notify e m : notices (notify_events e m) = [m].
Proof. unfold notify_events. by destruct (notify_present e). Qed.

Lemma py_int_ne_int n t : py_int_ne n (PInt t) = negb (n =? t).
Proof. reflexivity. Qed.

Ltac run_step :=
  first
    [ rewrite notify_run
    | rewrite save_state_run
    | rewrite apply_temperature_run
    | rewrite load_state_run
    | rewrite lookup_insert_eq
    | rewrite lookup_insert_ne by done ];
  simpl.

Ltac run_known :=
  match goal with
  | H : ?d !! ?k = _ |- context [?d !! ?k] => rewrite H; simpl
  | H : popen ?e = _ |- context [popen ?e] => rewrite H; simpl
  | H : state_file ?w = _ |- context [state_file ?w] => rewrite H; simpl
  end.

Ltac run := repeat first [run_step | run_known].

(** Destructs [is_state (state self) m b t] into a dict and its lookups. *)
Ltac dict_state H self :=
  let d := fresh "d" in
  let Hd := fresh "Hd" in
  let Hm := fresh "Hm" in
  let Hb := fresh "Hb" in
  let Ht := fresh "Ht" in
  let st := fresh "st" in
  let p := fresh "p" in
  apply is_state_dict in H as (d & Hd & Hm & Hb & Ht);
  destruct self as [st p]; simpl in Hd; subst st.

Ltac simpl_lookup :=
  repeat first [ rewrite lookup_insert_eq | rewrite lookup_insert_ne by done ].

Lemma run_eta {A} (p : M A) e s :
  p e s = (fst (p e s), (fst (snd (p e s)), snd (snd (p e s)))).
Proof. by destruct (p e s) as [r [self' w']]. Qed.

Lemma calculate_temperature_no_weather e self w m b t :
  is_state (state self) m b t ->
  truthy (weather e) = false ->
  calculate_temperature e (self, w) =
  (Ok (spec_temperature (utc_hour e) None), (self, w)).
Proof.
  intros (Hm & Hb & Ht) Hw. apply field_getitem in Hb.
  unfold calculate_temperature. unfold_monad. simpl.
  rewrite Hb, Hw, hour_is_night. simpl.
  destruct (isNight (utc_hour e)); reflexivity.
Qed.

Lemma calculate_temperature_weather e self w m b t cond ambient :
  is_state (state self) m b t ->
  has_weather_fields (weather e) (PStr cond) (celsius_py ambient) ->
  calculate_temperature e (self, w) =
  (Ok (spec_temperature (utc_hour e) (Some (cond, ambient))), (self, w)).
Proof.
  intros (Hm & Hb & Ht) (w_main & w_0 & rest & H1 & H2 & H3 & H4).
  apply field_getitem in Hb.
  pose proof (field_truthy _ _ _ H1) as Htr.
  apply field_getitem in H1, H2, H3, H4.
  unfold calculate_temperature. unfold_monad. simpl.
  rewrite Hb, Htr, hour_is_night. simpl.
  destruct (isNight (utc_hour e)); simpl.
  - rewrite H1, H2, H3. cbn [getitem0]. rewrite H4, py_in_rainy.
    destruct (rainy cond); [reflexivity |].
    rewrite py_lt_5. destruct (below_5 ambient); reflexivity.
  - rewrite H3. cbn [getitem0]. rewrite H4, py_eq_str_decide, py_in_rainy.
    case_bool_decide; [reflexivity |].
    destruct (rainy cond); reflexivity.
Qed.

Lemma weather_snapshot_fields cond temp :
  has_weather_fields (weather_snapshot cond temp) cond temp.
Proof.
  exists (PDict {[ "temp" := temp ]}), (PDict {[ "main" := cond ]}), [].
  repeat split; reflexivity.
Qed.

Lemma computed_temperature_spec e self w m b t :
  is_state (state self) m b t ->
  calculate_temperature e (self, w) = (computed_temperature e, (self, w)).
Proof.
  intros (Hm & Hb & Ht). apply field_getitem in Hb.
  assert (Hd : getitem default_state "bluelight" = Ok (PBool false)) by reflexivity.
  unfold computed_temperature, calculate_temperature. unfold_monad.
  cbn [fst snd state]. rewrite Hb, Hd.
  repeat (case_match; simpl; try reflexivity).
Qed.

Lemma is_state_set_last_temp d m b t k :
  is_state (PDict d) m b t ->
  is_state (PDict (<["last_temp" := PInt k]> d)) m b k.
Proof.
  intros (Hm & Hb & Ht). unfold is_state in *. simpl in *.
  by rewrite lookup_insert_eq, !lookup_insert_ne.
Qed.

Lemma update_temperature_manual e self w b t :
  is_state (state self) true b t ->
  update_temperature e (self, w) = (Ok tt, (self, w)).
Proof.
  intros H. dict_state H self.
  unfold update_temperature. unfold_monad. simpl. by run.
Qed.

Lemma update_temperature_auto e self w b t :
  is_state (state self) false b t ->
  update_temperature e (self, w) =
  match fst (calculate_temperature e (self, w)) with
  | Ok new =>
      let calculated :=
        Log (Msg "Calculated temperature: {}K, current: {}K" [PInt new; PInt t]) in
      if new =? t
      then (Ok tt, (self, add_events [calculated; Log (Msg "Temperature unchanged at {}K" [PInt new])] w))
      else apply_temperature new e (self, add_events [calculated] w)
  | Raise x => (Raise x, (self, w))
  end.
Proof.
  intros H. dict_state H self.
  unfold update_temperature. unfold_monad. simpl. run.
  pose proof (calculate_temperature_pure e (Manager (PDict d) p, w)) as Hpure.
  destruct (calculate_temperature e (Manager (PDict d) p, w)) as [[new|x] s'].
  all: simpl in Hpure; subst s'; simpl.
  - run. rewrite py_int_ne_int.
    destruct (new =? t); simpl; [norm_trace; reflexivity |].
    rewrite !apply_temperature_run. reflexivity.
  - reflexivity.
Qed.

Lemma apply_temperature_trace temp e self w :
  exists evs,
    trace (snd (snd (apply_temperature temp e (self, w)))) = trace w ++ evs /\
    applier_temps evs = [temp].
Proof.
  rewrite apply_temperature_run. simpl.
  destruct (popen e) as [pid|x]; [destruct (setitem (state self) "last_temp" (PInt temp)) |].
  all: simpl; eexists; split; [reflexivity |].
  all: rewrite applier_temps_app, applier_temps_pkill; simpl.
  all: by rewrite ?applier_temps_ok, ?applier_temps_error.
Qed.

Lemma main_command py_int lower prog arg1 rest e w :
  main py_int lower (prog :: arg1 :: rest) e w =
  let s := dispatch py_int lower arg1 rest e
             (Manager (loaded (state_file w)) None,
              add_events (load_events (state_file w)) w) in
  (Exit (exit_status (fst s)), snd (snd s)).
Proof.
  unfold main, ScreenLightManager_init. unfold_monad.
  rewrite load_state_loaded. simpl.
  destruct (dispatch _ _ _ _ _ _) as [[?|?] [? ?]]; reflexivity.
Qed.

(** The script started without a command: the constructor, then
    [run_daemon] up to its loop. *)
Lemma main_daemon py_int lower argv e w :
  (length argv <= 1)%nat ->
  main py_int lower argv e w =
  match run_daemon_start e (Manager (loaded (state_file w)) None,
                            add_events (load_events (state_file w)) w) with
  | (Ok _, (self, w')) => (InDaemonLoop self, w')
  | (Raise _, (_, w')) => (Exit 1, w')
  end.
Proof.
  intros Hlen. destruct argv as [|prog [|arg1 rest]]; [| | simpl in Hlen; lia].
  all: unfold main, ScreenLightManager_init; unfold_monad.
  all: rewrite load_state_loaded; reflexivity.
Qed.

Lemma dispatch_unrecognized py_int lower arg1 rest :
  lower arg1 ∉ commands ->
  dispatch py_int lower arg1 rest = emit (Stdout usage).
Proof.
  intros H. unfold dispatch, commands in *.
  repeat match goal with
         | |- context [String.eqb (lower arg1) ?s] =>
             destruct (String.eqb_spec (lower arg1) s) as [E|_];
             [exfalso; apply H; rewrite E; set_solver |]
         end.
  reflexivity.
Qed.

(** ** The invariant is kept *)

Ltac solve_state_inv :=
  unfold state_inv, is_state; simpl;
  eexists _, _, _; split;
  [ repeat split; simpl_lookup; first [ reflexivity | eassumption ]
  | first [ done | intros; congruence | eauto ] ].

Ltac solve_file_inv :=
  simpl; unfold saved;
  repeat match goal with
         | |- context [state_writable ?e] => destruct (state_writable e)
         end;
  simpl; first [ assumption | solve_state_inv ].

Ltac inv_state H self :=
  let m := fresh "m" in
  let b := fresh "b" in
  let t := fresh "t" in
  let Hst := fresh "Hst" in
  let Hinv := fresh "Hinv" in
  destruct H as (m & b & t & Hst & Hinv);
  dict_state Hst self.

Lemma state_inv_default : state_inv default_state.
Proof. exists false, false, 4500. by repeat split. Qed.

Lemma state_inv_loaded f : file_inv f -> state_inv (loaded f).
Proof. destruct f; simpl; auto using state_inv_default. Qed.

Lemma keeps_inv_apply_temperature temp : keeps_inv (apply_temperature temp).
Proof.
  intros e self w r self' w' Hs Hf. inv_state Hs self.
  rewrite apply_temperature_run. simpl.
  destruct (popen e) as [pid|x]; intros [= <- <- <-]; split.
  - solve_state_inv.
  - solve_file_inv.
  - solve_state_inv.
  - solve_file_inv.
Qed.

Lemma keeps_inv_update_temperature : keeps_inv update_temperature.
Proof.
  intros e self w r self' w' Hs Hf.
  pose proof Hs as (m & b & t & Hst & Hinv).
  destruct m.
  - rewrite (update_temperature_manual _ _ _ _ _ Hst). by intros [= <- <- <-].
  - rewrite (update_temperature_auto _ _ _ _ _ Hst).
    destruct (fst (calculate_temperature e (self, w))) as [new|x].
    + destruct (new =? t).
      * by intros [= <- <- <-].
      * cbv beta iota zeta. by apply keeps_inv_apply_temperature.
    + by intros [= <- <- <-].
Qed.

Lemma keeps_inv_toggle_bluelight : keeps_inv toggle_bluelight.
Proof.
  intros e self w r self' w' Hs Hf. inv_state Hs self.
  unfold toggle_bluelight. unfold_monad. simpl. run.
  destruct m; simpl; run.
  - destruct (popen e) as [pid|x]; simpl; run; intros [= <- <- <-]; split;
      solve [solve_state_inv | solve_file_inv].
  - intros [= <- <- <-]. split; [solve_state_inv | solve_file_inv].
Qed.

Lemma keeps_inv_force_manual_mode : keeps_inv force_manual_mode.
Proof.
  intros e self w r self' w' Hs Hf. inv_state Hs self.
  unfold force_manual_mode. unfold_monad. simpl. run.
  destruct m; simpl; run.
  - intros [= <- <- <-]. split; [solve_state_inv | solve_file_inv].
  - destruct (popen e) as [pid|x]; simpl; run; intros [= <- <- <-]; split;
      solve [solve_state_inv | solve_file_inv].
Qed.

Lemma keeps_inv_toggle_auto_mode : keeps_inv toggle_auto_mode.
Proof.
  intros e self w r self' w' Hs Hf. inv_state Hs self.
  unfold toggle_auto_mode. unfold_monad. simpl. run.
  destruct m; simpl; run.
  - apply keeps_inv_update_temperature; [solve_state_inv | solve_file_inv].
  - intros [= <- <- <-]. split; [solve_state_inv | solve_file_inv].
Qed.

Lemma keeps_inv_toggle_manual_mode : keeps_inv toggle_manual_mode.
Proof.
  intros e self w r self' w' _ Hf.
  unfold toggle_manual_mode. unfold_monad.
  rewrite load_state_loaded.
  pose proof (state_inv_loaded _ Hf) as Hs.
  assert (Hf' : file_inv (state_file (add_events (load_events (state_file w)) w))) by done.
  revert Hs Hf'.
  generalize (add_events (load_events (state_file w)) w) as w0.
  generalize (loaded (state_file w)) as st.
  intros st w0 Hs Hf'. clear Hf w.
  destruct Hs as (m & b & t & Hst & Hinv).
  apply is_state_dict in Hst as (d & -> & Hm & Hb & Ht).
  simpl. run.
  destruct m; simpl; run.
  - match goal with
    | |- context [update_temperature e ?s] =>
        destruct (update_temperature e s) as [r1 [self1 w1]] eqn:Hup
    end.
    apply keeps_inv_update_temperature in Hup as [Hs1 Hf1];
      [| solve_state_inv | solve_file_inv].
    destruct r1; simpl.
    + destruct (getitem (state self1) "manual"); simpl; by intros [= <- <- <-].
    + by intros [= <- <- <-].
  - destruct (popen e) as [pid|x]; simpl; run; intros [= <- <- <-]; split;
      solve [solve_state_inv | solve_file_inv].
Qed.

Lemma keeps_inv_run_operation o : keeps_inv (run_operation o).
Proof.
  destruct o; simpl;
    auto using keeps_inv_update_temperature, keeps_inv_toggle_bluelight,
      keeps_inv_toggle_manual_mode, keeps_inv_toggle_auto_mode,
      keeps_inv_force_manual_mode.
Qed.

Lemma keeps_inv_emit ev : keeps_inv (emit ev).
Proof. intros e self w r self' w' Hs Hf. by intros [= <- <- <-]. Qed.

Lemma keeps_inv_status : keeps_inv status.
Proof.
  intros e self w r self' w' _ Hf.
  unfold status. unfold_monad. rewrite load_state_loaded.
  pose proof (state_inv_loaded _ Hf) as Hs. simpl.
  destruct (dict_get (loaded (state_file w)) "last_temp" (PStr "Unknown")); simpl;
    [| by intros [= <- <- <-]].
  destruct (dict_get (loaded (state_file w)) "manual" (PBool false)); simpl;
    [| by intros [= <- <- <-]].
  destruct (dict_get (loaded (state_file w)) "bluelight" (PBool false)); simpl;
    by intros [= <- <- <-].
Qed.

Lemma keeps_inv_daemon_tick : keeps_inv daemon_tick.
Proof.
  intros e self w r self' w' Hs Hf.
  unfold daemon_tick. unfold_monad.
  destruct (update_temperature e (self, w)) as [r1 [self1 w1]] eqn:Hup.
  apply keeps_inv_update_temperature in Hup as [Hs1 Hf1]; [| done..].
  destruct r1; simpl; by intros [= <- <- <-].
Qed.

Lemma keeps_inv_run_daemon_start : keeps_inv run_daemon_start.
Proof.
  intros e self w r self' w' Hs Hf.
  unfold run_daemon_start. unfold_monad. simpl.
  destruct (dict_get (state self) "last_temp" (PStr "Unknown")); simpl;
    [| by intros [= <- <- <-]].
  rewrite notify_run. simpl.
  destruct (getitem (state self) "manual"); simpl; [| by intros [= <- <- <-]].
  destruct (truthy a0); simpl; [by intros [= <- <- <-] |].
  by apply keeps_inv_update_temperature.
Qed.

Lemma keeps_inv_dispatch py_int lower arg1 rest :
  keeps_inv (dispatch py_int lower arg1 rest).
Proof.
  unfold dispatch.
  repeat (case_match;
          eauto using keeps_inv_toggle_bluelight, keeps_inv_toggle_manual_mode,
            keeps_inv_toggle_auto_mode, keeps_inv_force_manual_mode,
            keeps_inv_status, keeps_inv_emit).
  intros e self w r self' w' Hs Hf. unfold int. unfold_monad.
  destruct (py_int s); simpl.
  - destruct (apply_temperature z e (self, w)) as [r1 [self1 w1]] eqn:Hap.
    apply keeps_inv_apply_temperature in Hap as [Hs1 Hf1]; [| done..].
    destruct r1 as [|x]; simpl; [by intros [= <- <- <-] |].
    destruct x; simpl; by intros [= <- <- <-].
  - by intros [= <- <- <-].
Qed.

Lemma main_keeps_inv py_int lower argv e w out w' :
  file_inv (state_file w) ->
  main py_int lower argv e w = (out, w') ->
  file_inv (state_file w') /\
  (forall self, out = InDaemonLoop self -> state_inv (state self)).
Proof.
  intros Hf. pose proof (state_inv_loaded _ Hf) as Hs.
  assert (Hf0 : file_inv (state_file (add_events (load_events (state_file w)) w))) by done.
  unfold main, ScreenLightManager_init. unfold_monad.
  rewrite load_state_loaded. cbn [fst snd state state_file hyprsunset_pid].
  destruct argv as [|prog [|arg1 rest]].
  1, 2: destruct (run_daemon_start e _) as [r1 [self1 w1]] eqn:Hrun;
        apply keeps_inv_run_daemon_start in Hrun as [Hs1 Hf1]; [| done..];
        destruct r1; intros [= <- <-]; (split; [done |]); by intros self [= <-].
  destruct (dispatch py_int lower arg1 rest e _) as [r1 [self1 w1]] eqn:Hrun.
  apply keeps_inv_dispatch in Hrun as [Hs1 Hf1]; [| done..].
  destruct r1; intros [= <- <-]; (split; [done |]); by intros self [=].
Qed.

Lemma sys_step_keeps_inv py_int lower a e s :
  sys_inv s -> sys_inv (sys_step py_int lower a e s).
Proof.
  intros [Hf Hd]. destruct a as [argv|i|i]; simpl.
  - destruct (main py_int lower argv e (disk s)) as [out w'] eqn:Hmain.
    apply main_keeps_inv in Hmain as [Hf' Hout]; [| done].
    destruct out as [code|self]; split; simpl; try done.
    apply Forall_app. split; [done |]. apply Forall_singleton. by apply Hout.
  - destruct (daemons s !! i) as [self|] eqn:Hi; [| done].
    destruct (daemon_tick e (self, disk s)) as [r [self' w']] eqn:Htick.
    apply keeps_inv_daemon_tick in Htick as [Hs' Hf']; [| | done].
    + split; simpl; [done |]. by apply Forall_insert.
    + by eapply (Forall_lookup_1 _ _ _ _ Hd Hi).
  - destruct (daemons s !! i) as [self|] eqn:Hi; [| done].
    rewrite notify_run. split; simpl; [done |]. by apply Forall_delete.
Qed.

(** ** What the operations persist *)

Ltac untouched := intros [= <- <-]; right; split; reflexivity.

Ltac finish_persist Hw :=
  intros [= <- <-]; unfold persisted_or_untouched, saved; simpl; rewrite ?Hw; auto.

Ltac case_lookup k :=
  match goal with
  | |- context [?d !! k] =>
      let v := fresh "v" in
      let H := fresh "Hk" in
      destruct (d !! k) as [v|] eqn:H; simpl
  end.

Lemma persists_apply_temperature temp : persists (apply_temperature temp).
Proof.
  intros e [self w] r s' Hw. rewrite apply_temperature_run.
  unfold persisted_or_untouched, saved.
  destruct (popen e) as [pid|x]; [destruct (setitem (state self) "last_temp" (PInt temp)) |].
  all: intros [= <- <-]; simpl; rewrite ?Hw; auto.
Qed.

Lemma persists_update_temperature : persists update_temperature.
Proof.
  intros e [self w] r s' Hw.
  unfold update_temperature. unfold_monad. simpl.
  destruct (getitem (state self) "manual") as [manual|x]; simpl; [| untouched].
  destruct (truthy manual); simpl; [untouched |].
  pose proof (calculate_temperature_pure e (self, w)) as Hpure.
  destruct (calculate_temperature e (self, w)) as [[new|x] s1]; simpl in Hpure; subst s1;
    [| untouched].
  simpl.
  destruct (getitem (state self) "last_temp") as [last|x]; simpl; [| untouched].
  destruct (py_int_ne new last); [| untouched].
  intros Hrun. apply persists_apply_temperature in Hrun; [| done].
  exact Hrun.
Qed.

Lemma persists_toggle_bluelight : persists toggle_bluelight.
Proof.
  intros e [[st p] w] r s' Hw.
  unfold toggle_bluelight. unfold_monad.
  destruct st; simpl; try untouched.
  case_lookup "manual"; [| untouched].
  destruct (truthy v); simpl; run; [| finish_persist Hw].
  case_lookup "bluelight"; [| untouched].
  run. destruct (popen e) as [pid|x]; simpl; run; finish_persist Hw.
Qed.

Lemma persists_force_manual_mode : persists force_manual_mode.
Proof.
  intros e [[st p] w] r s' Hw.
  unfold force_manual_mode. unfold_monad.
  destruct st; simpl; try untouched.
  case_lookup "manual"; [| untouched].
  destruct (truthy v); simpl; run; [finish_persist Hw |].
  destruct (popen e) as [pid|x]; simpl; run; finish_persist Hw.
Qed.

Lemma persists_toggle_auto_mode : persists toggle_auto_mode.
Proof.
  intros e [[st p] w] r s' Hw.
  unfold toggle_auto_mode. unfold_monad.
  destruct st; simpl; try untouched.
  case_lookup "manual"; [| untouched].
  destruct (truthy v); simpl; run; [| finish_persist Hw].
  intros Hrun. apply persists_update_temperature in Hrun; [| done].
  revert Hrun. unfold persisted_or_untouched, saved. simpl. rewrite Hw.
  intros [H | [H1 H2]]; left; [done |]. by rewrite H2, H1.
Qed.

Lemma persists_toggle_manual_mode : persists toggle_manual_mode.
Proof.
  intros e [[st0 p] w] r s' Hw.
  unfold toggle_manual_mode. unfold_monad.
  rewrite load_state_loaded. cbn [fst snd state hyprsunset_pid].
  assert (Hfile : state_file w = Holds (loaded (state_file w)) \/
                  loaded (state_file w) = default_state).
  { destruct (state_file w); simpl; auto. }
  assert (Hsame : state_file (add_events (load_events (state_file w)) w) = state_file w)
    by reflexivity.
  revert Hfile Hsame.
  generalize (add_events (load_events (state_file w)) w) as w0.
  generalize (loaded (state_file w)) as st.
  intros st w0 Hfile Hsame.
  destruct st; simpl.
  1-6: destruct Hfile as [Hf | [=]]; intros [= <- <-]; left; simpl; congruence.
  case_lookup "manual".
  2: { destruct Hfile as [Hf | [= ->]]; [| vm_compute in Hk; discriminate].
       intros [= <- <-]. left. simpl. congruence. }
  destruct (truthy v); simpl; run.
  - match goal with
    | |- context [update_temperature e ?s] =>
        destruct (update_temperature e s) as [r1 [self1 w1]] eqn:Hup
    end.
    apply persists_update_temperature in Hup; [| done].
    assert (Hp : state_file w1 = Holds (state self1)).
    { revert Hup. unfold persisted_or_untouched, saved. simpl. rewrite Hw.
      intros [H | [H1 H2]]; [done |]. by rewrite H2, H1. }
    destruct r1; simpl.
    + destruct (getitem (state self1) "manual"); simpl; intros [= <- <-]; by left.
    + intros [= <- <-]. by left.
  - destruct (popen e) as [pid|x]; simpl; run; finish_persist Hw.
Qed.

Lemma persists_run_operation o : persists (run_operation o).
Proof.
  destruct o; simpl;
    auto using persists_update_temperature, persists_toggle_bluelight,
      persists_toggle_manual_mode, persists_toggle_auto_mode,
      persists_force_manual_mode.
Qed.

(** ** The edges of the preconditions

    What the model does outside the well-formed inputs of the theorems
    below: a weather payload without the fields (the provider's error
    answer) makes the decider raise, and a state file holding JSON of
    another shape is loaded as it is, so that the command run on it ends
    with an uncaught exception. *)

Example calculate_temperature_error_payload :
  fst (calculate_temperature
         (Env 22 (PDict {[ "cod" := PInt 401; "message" := PStr "Invalid API key" ]})
              true (Ok 1) true true)
         (new_manager, first_run)) = Raise (KeyError "main").
Proof. vm_compute. reflexivity. Qed.

Example toggle_on_state_of_another_shape :
  main ascii_int ascii_lower ["blue-light.py"; "toggle"] env_day
       (World (Holds (PList [])) []) =
  (Exit 1, World (Holds (PList [])) [Log (Msg "State loaded: {}" [PList []])]).
Proof. vm_compute. reflexivity. Qed.

(** ** The claims *)

(** C1: with a state record and a weather payload that has its two fields
    (a condition string and a numeric ambient temperature), or with no
    weather at all, [calculate_temperature] returns the temperature of the
    spec's table for the current UTC hour, and changes nothing. *)
Theorem calculate_temperature_table e self w m b t :
  is_state (state self) m b t ->
  (truthy (weather e) = false ->
   calculate_temperature e (self, w) =
   (Ok (spec_temperature (utc_hour e) None), (self, w))) /\
  (forall cond ambient,
     has_weather_fields (weather e) (PStr cond) (celsius_py ambient) ->
     calculate_temperature e (self, w) =
     (Ok (spec_temperature (utc_hour e) (Some (cond, ambient))), (self, w))).
Proof.
  intros Hst. split.
  - intros Hw. by eapply calculate_temperature_no_weather.
  - intros cond ambient Hw. by eapply calculate_temperature_weather.
Qed.

Lemma calculate_temperature_table_witness :
  is_state (state new_manager) false false 4500 /\
  has_weather_fields (weather env_rainy_night) (PStr "Rain") (PFloat 7.5%float) /\
  calculate_temperature env_rainy_night (new_manager, first_run) =
  (Ok 3800, (new_manager, first_run)).
Proof.
  assert (Hst : is_state (state new_manager) false false 4500)
    by (repeat split; reflexivity).
  assert (Hw : has_weather_fields (weather env_rainy_night) (PStr "Rain") (PFloat 7.5%float)).
  { exists (PDict {[ "temp" := PFloat 7.5%float ]}), (PDict {[ "main" := PStr "Rain" ]}), [].
    repeat split; reflexivity. }
  split; [exact Hst |]. split; [exact Hw |].
  exact (proj2 (calculate_temperature_table env_rainy_night new_manager first_run
                  false false 4500 Hst) "Rain" (CFloat 7.5%float) Hw).
Defined.

(** C2 fails as stated: with no state file, [load_state] puts the default
    record in memory and writes nothing; the state file is still absent
    afterwards. *)
Lemma load_state_does_not_persist :
  let e := Env 12 PNone true (Ok 1) true true in
  let s := load_state e (Manager PNone None, World Absent []) in
  fst s = Ok tt /\
  state (fst (snd s)) =
    PDict {[ "manual" := PBool false; "bluelight" := PBool false; "last_temp" := PInt 4500 ]} /\
  state_file (snd (snd s)) = Absent /\
  state_file (snd (snd s)) <> Holds default_state.
Proof. vm_compute. repeat split. discriminate. Qed.

(** C2, amended: [load_state] never raises and never writes the state file.
    It sets the in-memory state to what the file holds when the file is
    readable JSON (whatever its shape), and to the default record when the
    file is missing, is not JSON or cannot be read. *)
Theorem load_state_total e self w :
  exists self' w',
    load_state e (self, w) = (Ok tt, (self', w')) /\
    state_file w' = state_file w /\
    hyprsunset_pid self' = hyprsunset_pid self /\
    state self' = match state_file w with
                  | Holds v => v
                  | Absent | Malformed | Unreadable =>
                      PDict {[ "manual" := PBool false;
                               "bluelight" := PBool false;
                               "last_temp" := PInt 4500 ]}
                  end.
Proof.
  rewrite load_state_run.
  destruct (state_file w) eqn:Hf; do 2 eexists; (split; [reflexivity |]); simpl; by rewrite ?Hf.
Qed.

(** C3: the code at the failing input.  [update_temperature] does not
    reload the state file, although [toggle_manual_mode] does ("Reload
    state to ensure we have the latest state").  A daemon is started on a
    first run at noon and applies 6500K; the user then switches to manual
    mode from the command line, which saves [manual = true]; at its next
    iteration, at ten in the evening, the daemon still holds the record it
    loaded when it started: it asks the applier for 4200K and overwrites
    the saved record with [manual = false]. *)
Lemma daemon_tick_overwrites_manual_mode :
  let step := sys_step ascii_int ascii_lower in
  let s1 := step (Command ["blue-light.py"]) env_day initial_system in
  let s2 := step (Command ["blue-light.py"; "manual"]) env_day s1 in
  let s3 := step (Tick 0) env_night s2 in
  state_file (disk s1) = Holds (record_state false false 6500) /\
  state_file (disk s2) = Holds (record_state true false 6500) /\
  daemons s2 = [Manager (record_state false false 6500) (Some 100)] /\
  applier_temps (new_events (disk s2) (disk s3)) = [4200] /\
  state_file (disk s3) = Holds (record_state false false 4200).
Proof. vm_compute. repeat split. Qed.

(** What the operations do reload and save: a command given on the
    command line runs on the state that the constructor has just loaded
    from the state file, and [toggle_manual_mode] reloads the saved state
    itself before it acts, so that its outcome does not depend on the
    state the manager had in memory.
    With a writable state file, each of the five operations ends either with
    the state file holding the manager's state, or with the manager's state
    and the state file both as they were: the rejected and no-op branches,
    and a failed apply, save nothing. *)
Theorem operations_reload_and_persist :
  (forall py_int lower prog arg1 rest e w,
     main py_int lower (prog :: arg1 :: rest) e w =
     let s := dispatch py_int lower arg1 rest e
                (Manager (loaded (state_file w)) None,
                 add_events (load_events (state_file w)) w) in
     (Exit (exit_status (fst s)), snd (snd s))) /\
  (forall e st1 st2 pid w,
     toggle_manual_mode e (Manager st1 pid, w) =
     toggle_manual_mode e (Manager st2 pid, w)) /\
  (forall o e self w r self' w',
     state_writable e = true ->
     run_operation o e (self, w) = (r, (self', w')) ->
     state_file w' = Holds (state self') \/
     (state self' = state self /\ state_file w' = state_file w)).
Proof.
  split; [apply main_command |]. split.
  - intros e st1 st2 pid w. unfold toggle_manual_mode, bind.
    by rewrite !load_state_loaded.
  - intros o e self w r self' w' Hw Hrun.
    apply (persists_run_operation o e (self, w) r (self', w') Hw Hrun).
Qed.

Lemma operations_reload_and_persist_witness :
  state_writable env_day = true /\
  state_file (snd (snd (force_manual_mode env_day (new_manager, first_run)))) =
  Holds (record_state true false 6500) /\
  state (fst (snd (force_manual_mode env_day (new_manager, first_run)))) =
  record_state true false 6500.
Proof.
  split; [reflexivity |].
  destruct (proj2 (proj2 operations_reload_and_persist)
              SwitchToManual env_day new_manager first_run
              _ _ _ eq_refl (run_eta force_manual_mode env_day (new_manager, first_run)))
    as [Hsaved | [Hsame _]].
  - split; [rewrite Hsaved |]; vm_compute; reflexivity.
  - vm_compute in Hsame. discriminate Hsame.
Defined.

(** C4: the code at the failing input, by the defect of C3
    ([update_temperature] decides on the record the manager holds, which
    it does not reload).  In the run of C3, after the [manual] command the
    saved mode is manual and the saved [last_temp] is 6500; the daemon's
    next [update_temperature], at ten in the evening, is not a no-op: it
    asks the applier for 4200K and changes the state. *)
Lemma reconcile_applies_in_saved_manual_mode :
  let step := sys_step ascii_int ascii_lower in
  let s1 := step (Command ["blue-light.py"]) env_day initial_system in
  let s2 := step (Command ["blue-light.py"; "manual"]) env_day s1 in
  let daemon := Manager (record_state false false 6500) (Some 100) in
  let s' := snd (update_temperature env_night (daemon, disk s2)) in
  daemons s2 = [daemon] /\
  is_state (loaded (state_file (disk s2))) true false 6500 /\
  applier_temps (new_events (disk s2) (snd s')) = [4200] /\
  state (fst s') = record_state false false 4200 /\
  state_file (snd s') = Holds (record_state false false 4200).
Proof. vm_compute. repeat split. Qed.

(** What holds on the record the manager holds in memory:
    [update_temperature] in manual mode does nothing at all; in automatic
    mode it asks the display applier for the computed temperature exactly
    when that temperature differs from [last_temp], and when the two are
    equal it changes neither the manager nor the state file. *)
Theorem update_temperature_applies_only_on_change e self w m b t r self' w' :
  is_state (state self) m b t ->
  update_temperature e (self, w) = (r, (self', w')) ->
  (m = true -> r = Ok tt /\ self' = self /\ w' = w) /\
  (forall new,
     m = false ->
     fst (calculate_temperature e (self, w)) = Ok new ->
     applier_temps (new_events w w') = (if new =? t then [] else [new]) /\
     (new = t -> self' = self /\ state_file w' = state_file w)) /\
  (applier_temps (new_events w w') <> [] ->
   m = false /\
   exists new, fst (calculate_temperature e (self, w)) = Ok new /\ new <> t).
Proof.
  intros Hst Hrun. destruct m.
  - rewrite (update_temperature_manual _ _ _ _ _ Hst) in Hrun.
    injection Hrun as <- <- <-.
    split; [done |]. split; [done |].
    rewrite new_events_refl. done.
  - rewrite (update_temperature_auto _ _ _ _ _ Hst) in Hrun.
    split; [done |].
    destruct (fst (calculate_temperature e (self, w))) as [new|x] eqn:Hcalc.
    + destruct (Z.eqb_spec new t) as [->|Hne].
      * injection Hrun as <- <- <-. unfold add_events. rewrite new_events_add. simpl.
        split; [| done].
        intros new _ [= <-]. rewrite Z.eqb_refl. done.
      * cbv beta iota zeta in Hrun.
        assert (Happ : applier_temps (new_events w w') = [new]).
        { destruct (apply_temperature_trace new e self
                      (add_events [Log (Msg "Calculated temperature: {}K, current: {}K"
                                            [PInt new; PInt t])] w))
            as (evs & Htr & Hevs).
          rewrite Hrun in Htr. simpl in Htr. rewrite <- app_assoc in Htr.
          rewrite (new_events_trace _ _ _ Htr). simpl. exact Hevs. }
        rewrite Happ. split.
        -- intros new' _ [= <-]. destruct (Z.eqb_spec new t); [done |].
           split; [reflexivity | done].
        -- intros _. split; [reflexivity |]. eauto.
    + injection Hrun as <- <- <-. rewrite new_events_refl.
      split; [| done]. intros new _ [=].
Qed.

Lemma update_temperature_applies_only_on_change_witness :
  is_state (state new_manager) false false 4500 /\
  fst (calculate_temperature env_night (new_manager, first_run)) = Ok 4200 /\
  applier_temps
    (new_events first_run (snd (snd (update_temperature env_night (new_manager, first_run)))))
  = [4200].
Proof.
  assert (Hst : is_state (state new_manager) false false 4500)
    by (repeat split; reflexivity).
  split; [exact Hst |]. split; [reflexivity |].
  destruct (update_temperature_applies_only_on_change env_night new_manager first_run
              false false 4500 _ _ _ Hst
              (run_eta update_temperature env_night (new_manager, first_run)))
    as (_ & Hauto & _).
  apply (Hauto 4200); reflexivity.
Defined.

(** C5: in automatic mode [toggle_bluelight] only sends the rejection
    notice: the manager (every field of the record) and the state file are
    unchanged and the display applier is not asked for anything. *)
Theorem toggle_bluelight_rejected_in_automatic e self w b t r self' w' :
  is_state (state self) false b t ->
  toggle_bluelight e (self, w) = (r, (self', w')) ->
  r = Ok tt /\
  self' = self /\
  state_file w' = state_file w /\
  notices (new_events w w') =
    [Msg "Cannot toggle blue light filter in automatic mode. Switch to manual mode first." []] /\
  applier_temps (new_events w w') = [].
Proof.
  intros H. dict_state H self.
  unfold toggle_bluelight. unfold_monad. simpl. run.
  intros [= <- <- <-]. unfold add_events. rewrite new_events_add.
  by rewrite notices_notify, applier_temps_notify.
Qed.

Lemma toggle_bluelight_rejected_in_automatic_witness :
  is_state (state new_manager) false false 4500 /\
  snd (snd (toggle_bluelight env_day (new_manager, first_run))) =
  World Absent
    [RunNotifySend (Msg "Cannot toggle blue light filter in automatic mode. Switch to manual mode first." []);
     Log (Msg "Cannot toggle blue light filter in automatic mode. Switch to manual mode first." [])] /\
  applier_temps
    (new_events first_run (snd (snd (toggle_bluelight env_day (new_manager, first_run))))) = [].
Proof.
  assert (Hst : is_state (state new_manager) false false 4500)
    by (repeat split; reflexivity).
  split; [exact Hst |]. split; [vm_compute; reflexivity |].
  apply (toggle_bluelight_rejected_in_automatic env_day new_manager first_run false 4500
           _ _ _ Hst (run_eta toggle_bluelight env_day (new_manager, first_run))).
Defined.

(** C6: the default record has [bluelight] false whenever [manual] is
    false; each of the five operations of the mode controller keeps this
    true of the manager's state and of the state file; and so it holds of
    the record in the state file and of the state of every running daemon in
    every system reachable from a first run by command-line invocations,
    daemon ticks and interrupts. *)
Theorem filter_flag_invariant :
  state_inv default_state /\
  (forall o e self w r self' w',
     state_inv (state self) ->
     file_inv (state_file w) ->
     run_operation o e (self, w) = (r, (self', w')) ->
     state_inv (state self') /\ file_inv (state_file w')) /\
  (forall py_int lower s,
     reachable_from py_int lower initial_system s ->
     (forall v,
        state_file (disk s) = Holds v ->
        exists m b t, is_state v m b t /\ (m = false -> b = false)) /\
     (forall self,
        self ∈ daemons s ->
        exists m b t, is_state (state self) m b t /\ (m = false -> b = false))).
Proof.
  split; [apply state_inv_default |]. split.
  - intros o. apply keeps_inv_run_operation.
  - intros py_int lower s Hreach.
    assert (Hinv : sys_inv s).
    { induction Hreach as [|s a e _ IH].
      - split; simpl; [done | constructor].
      - by apply sys_step_keeps_inv. }
    destruct Hinv as [Hf Hd]. split.
    + intros v Hv. rewrite Hv in Hf. exact Hf.
    + intros self Hin. by apply (proj1 (Forall_forall _ _) Hd).
Qed.

Lemma filter_flag_invariant_witness :
  let step := sys_step ascii_int ascii_lower in
  let s := step (Tick 0) env_night
             (step (Command ["blue-light.py"; "toggle"]) env_day
                (step (Command ["blue-light.py"; "manual"]) env_day
                   (step (Command ["blue-light.py"]) env_day initial_system))) in
  state_file (disk s) = Holds (record_state false false 4200) /\
  exists m b t,
    is_state (record_state false false 4200) m b t /\ (m = false -> b = false).
Proof.
  assert (Hfile :
            state_file
              (disk (sys_step ascii_int ascii_lower (Tick 0) env_night
                       (sys_step ascii_int ascii_lower (Command ["blue-light.py"; "toggle"]) env_day
                          (sys_step ascii_int ascii_lower (Command ["blue-light.py"; "manual"]) env_day
                             (sys_step ascii_int ascii_lower (Command ["blue-light.py"]) env_day
                                initial_system))))) =
            Holds (record_state false false 4200))
    by (vm_compute; reflexivity).
  split; [exact Hfile |].
  refine (proj1 (proj2 (proj2 filter_flag_invariant) ascii_int ascii_lower _ _) _ Hfile).
  repeat apply reach_step. apply reach_refl.
Defined.

(** C7: at night with condition Clear the decided temperature is 3800K at
    4.9 degrees and 4200K at exactly 5.0 degrees; for every ambient
    temperature it is 3800K exactly when the temperature is strictly below
    5. The double 0x1.399999999999ap+2 is what [json.load] reads 4.9 as. *)
Theorem cold_night_boundary e self w m b t :
  is_state (state self) m b t ->
  utc_hour e < 6 \/ utc_hour e >= 20 ->
  (weather e = weather_snapshot (PStr "Clear") (PFloat 0x1.399999999999ap+2%float) ->
   calculate_temperature e (self, w) = (Ok 3800, (self, w))) /\
  (weather e = weather_snapshot (PStr "Clear") (PFloat 5%float) ->
   calculate_temperature e (self, w) = (Ok 4200, (self, w))) /\
  (forall ambient,
     has_weather_fields (weather e) (PStr "Clear") (celsius_py ambient) ->
     calculate_temperature e (self, w) =
     (Ok (if below_5 ambient then 3800 else 4200), (self, w))).
Proof.
  intros Hst Hnight.
  assert (Hspec : forall ambient,
             spec_temperature (utc_hour e) (Some ("Clear", ambient)) =
             if below_5 ambient then 3800 else 4200).
  { intros ambient. unfold spec_temperature, isNight.
    rewrite bool_decide_eq_true_2 by done. reflexivity. }
  split; [| split].
  - intros Hw.
    rewrite (calculate_temperature_weather e self w m b t "Clear" (CFloat 0x1.399999999999ap+2%float) Hst).
    + by rewrite Hspec.
    + rewrite Hw. apply weather_snapshot_fields.
  - intros Hw.
    rewrite (calculate_temperature_weather e self w m b t "Clear" (CFloat 5%float) Hst).
    + by rewrite Hspec.
    + rewrite Hw. apply weather_snapshot_fields.
  - intros ambient Hw.
    rewrite (calculate_temperature_weather e self w m b t "Clear" ambient Hst Hw).
    by rewrite Hspec.
Qed.

Lemma cold_night_boundary_witness :
  is_state (state new_manager) false false 4500 /\
  (utc_hour env_clear_night < 6 \/ utc_hour env_clear_night >= 20) /\
  calculate_temperature env_clear_night (new_manager, first_run) =
  (Ok 3800, (new_manager, first_run)).
Proof.
  assert (Hst : is_state (state new_manager) false false 4500)
    by (repeat split; reflexivity).
  assert (Hnight : utc_hour env_clear_night < 6 \/ utc_hour env_clear_night >= 20)
    by (right; vm_compute; discriminate).
  split; [exact Hst |]. split; [exact Hnight |].
  exact (proj1 (cold_night_boundary env_clear_night new_manager first_run
                  false false 4500 Hst Hnight) eq_refl).
Defined.

(** C8 fails as stated: an unrecognized command, and [test] with an argument
    that is not an integer, both end with exit status 0. *)
Lemma bad_command_line_exit_status :
  let e := Env 12 PNone true (Ok 1) true true in
  let w := World Absent [] in
  fst (main ascii_int ascii_lower ["blue-light.py"; "frobnicate"] e w) = Exit 0 /\
  fst (main ascii_int ascii_lower ["blue-light.py"; "test"; "warm"] e w) = Exit 0.
Proof. vm_compute. split; reflexivity. Qed.

(** C8, amended: an unrecognized command prints the usage message, and
    [test] with an argument that [int] rejects prints an error; in both
    cases the process ends with exit status 0 and the state file is not
    written. *)
Theorem bad_command_line_prints_and_exits_zero py_int lower prog arg1 rest e w :
  (lower arg1 ∉ commands ->
   exists w',
     main py_int lower (prog :: arg1 :: rest) e w = (Exit 0, w') /\
     state_file w' = state_file w /\
     printed (new_events w w') = [usage]) /\
  (forall arg2 rest',
     lower arg1 = "test" ->
     rest = arg2 :: rest' ->
     py_int arg2 = None ->
     exists w',
       main py_int lower (prog :: arg1 :: rest) e w = (Exit 0, w') /\
       state_file w' = state_file w /\
       printed (new_events w w') = [Msg "Invalid temperature value" []]).
Proof.
  split.
  - intros H. rewrite main_command, (dispatch_unrecognized _ _ _ _ H).
    unfold_monad. simpl. eexists. split; [reflexivity |]. split; [reflexivity |].
    erewrite new_events_trace; [| simpl; rewrite <- app_assoc; reflexivity].
    unfold printed. rewrite omap_app. by destruct (state_file w).
  - intros arg2 rest' Hcmd -> Hint. rewrite main_command.
    unfold dispatch, int. rewrite Hcmd, Hint. unfold_monad. simpl.
    eexists. split; [reflexivity |]. split; [reflexivity |].
    erewrite new_events_trace; [| simpl; rewrite <- app_assoc; reflexivity].
    unfold printed. rewrite omap_app. by destruct (state_file w).
Qed.

Lemma bad_command_line_prints_and_exits_zero_witness :
  (ascii_lower "Frobnicate" ∉ commands) /\
  exists w',
    main ascii_int ascii_lower ["blue-light.py"; "Frobnicate"] env_day first_run =
    (Exit 0, w') /\
    state_file w' = state_file first_run /\
    printed (new_events first_run w') = [usage].
Proof.
  assert (Hcmd : ascii_lower "Frobnicate" ∉ commands).
  { apply (bool_decide_unpack _). vm_compute. exact I. }
  split; [exact Hcmd |].
  exact (proj1 (bad_command_line_prints_and_exits_zero ascii_int ascii_lower
                  "blue-light.py" "Frobnicate" [] env_day first_run) Hcmd).
Defined.

(** C9: in manual mode, when [hyprsunset] cannot be started,
    [toggle_bluelight] still flips [bluelight] and saves the flipped flag,
    while [last_temp] keeps its value: the saved record then names a filter
    setting whose temperature was asked for but never recorded as applied. *)
Theorem toggle_bluelight_apply_failure e self w b t x r self' w' :
  is_state (state self) true b t ->
  popen e = Raise x ->
  toggle_bluelight e (self, w) = (r, (self', w')) ->
  r = Ok tt /\
  is_state (state self') true (negb b) t /\
  hyprsunset_pid self' = hyprsunset_pid self /\
  state_file w' = (if state_writable e then Holds (state self') else state_file w) /\
  applier_temps (new_events w w') = [if negb b then MANUAL_ON else MANUAL_OFF].
Proof.
  intros H Hp. dict_state H self.
  unfold toggle_bluelight. unfold_monad. simpl. run.
  intros [= <- <- <-]. simpl.
  split; [done |]. split.
  { unfold is_state. simpl. by rewrite lookup_insert_eq, !lookup_insert_ne. }
  split; [done |]. split; [done |].
  erewrite new_events_trace; [| unfold add_events; simpl; rewrite <- !app_assoc; reflexivity].
  rewrite !applier_temps_app, applier_temps_pkill, applier_temps_save, applier_temps_notify.
  simpl. by rewrite applier_temps_error.
Qed.

Lemma toggle_bluelight_apply_failure_witness :
  is_state (state manual_manager) true false 6500 /\
  popen env_no_hyprsunset = Raise FileNotFoundError /\
  state_file (snd (snd (toggle_bluelight env_no_hyprsunset (manual_manager, first_run)))) =
  Holds (record_state true true 6500).
Proof.
  assert (Hst : is_state (state manual_manager) true false 6500)
    by (repeat split; reflexivity).
  split; [exact Hst |]. split; [reflexivity |].
  destruct (toggle_bluelight_apply_failure env_no_hyprsunset manual_manager first_run
              false 6500 FileNotFoundError _ _ _ Hst eq_refl
              (run_eta toggle_bluelight env_no_hyprsunset (manual_manager, first_run)))
    as (_ & _ & _ & Hfile & _).
  rewrite Hfile. vm_compute. reflexivity.
Defined.

(** C10: the code at the failing input, by the defect of C3.  A daemon is
    started on a first run at noon and applies 6500K; [test 4200] from the
    command line then saves [last_temp = 4200] in automatic mode; at the
    daemon's next iteration, at ten in the evening, the computed
    temperature is 4200, equal to the saved [last_temp], and the daemon
    asks the applier for 4200K all the same: it compares with the 6500 it
    holds in memory. *)
Lemma reconcile_applies_tested_temperature_again :
  let step := sys_step ascii_int ascii_lower in
  let s1 := step (Command ["blue-light.py"]) env_day initial_system in
  let s2 := step (Command ["blue-light.py"; "test"; "4200"]) env_day s1 in
  let s3 := step (Tick 0) env_night s2 in
  state_file (disk s2) = Holds (record_state false false 4200) /\
  daemons s2 = [Manager (record_state false false 6500) (Some 100)] /\
  computed_temperature env_night = Ok 4200 /\
  applier_temps (new_events (disk s2) (disk s3)) = [4200].
Proof. vm_compute. repeat split. Qed.

(** What holds of the [test] command, whatever the state file: [test k]
    asks the display applier for [k] and leaves the mode flags alone; when
    [hyprsunset] starts (and the state file is writable) the saved record
    has [last_temp = k], otherwise the state file is not touched.  A daemon
    started afterwards in automatic mode loads that record: its first
    [update_temperature] asks the applier for nothing when the computed
    temperature is [k]. *)
Theorem test_command_records_temperature
    py_int lower prog arg1 arg2 rest k e w m b t :
  lower arg1 = "test" ->
  py_int arg2 = Some k ->
  is_state (loaded (state_file w)) m b t ->
  exists w',
    main py_int lower (prog :: arg1 :: arg2 :: rest) e w = (Exit 0, w') /\
    applier_temps (new_events w w') = [k] /\
    (exists t', is_state (loaded (state_file w')) m b t') /\
    (forall pid,
       popen e = Ok pid -> state_writable e = true ->
       (exists v', state_file w' = Holds v' /\ is_state v' m b k) /\
       (m = false ->
        forall e2 argv,
          (length argv <= 1)%nat ->
          (computed_temperature e2 = Ok k ->
           applier_temps (new_events w' (snd (main py_int lower argv e2 w'))) = [] /\
           state_file (snd (main py_int lower argv e2 w')) = state_file w') /\
          (forall new,
             computed_temperature e2 = Ok new -> new <> k ->
             applier_temps (new_events w' (snd (main py_int lower argv e2 w'))) = [new]))) /\
    ((forall pid, popen e <> Ok pid) \/ state_writable e = false ->
     state_file w' = state_file w).
Proof.
  intros Hcmd Hint Hst.
  rewrite main_command. unfold dispatch, int. rewrite Hcmd, Hint.
  unfold_monad. cbn [String.eqb Ascii.eqb Bool.eqb].
  rewrite apply_temperature_run. cbn [fst snd exit_status state].
  pose proof Hst as Hst'.
  apply is_state_dict in Hst' as (d & Hd & Hm & Hb & Ht). rewrite Hd in *. cbn [setitem].
  pose proof (is_state_set_last_temp d m b t k Hst) as Hst_k.
  eexists. split; [reflexivity |].
  destruct (popen e) as [pid|x] eqn:Hp.
  - split.
    { erewrite new_events_trace; [| unfold add_events; simpl; rewrite <- !app_assoc; reflexivity].
      rewrite !applier_temps_app, applier_temps_load, applier_temps_pkill. simpl.
      by rewrite applier_temps_ok. }
    split.
    { cbn [state_file saved add_events]. unfold saved.
      destruct (state_writable e); cbn [loaded snd state_file]; rewrite ?Hd; eauto. }
    split.
    + intros pid' _ Hw.
      match goal with
      | |- context [state_file ?W = Holds _] => set (W' := W)
      end.
      assert (HW : state_file W' = Holds (PDict (<["last_temp" := PInt k]> d))).
      { subst W'. cbn [state_file]. unfold saved. by rewrite Hw. }
      clearbody W'.
      split; [eauto |].
      intros -> e2 argv Hlen.
      rewrite (main_daemon _ _ _ _ _ Hlen).
      unfold run_daemon_start. unfold_monad.
      rewrite HW. cbn [loaded load_events fst snd state dict_get].
      rewrite notify_run. cbn [fst snd state].
      destruct Hst_k as (Hm' & Hb' & Ht'). cbn [field] in Hm', Hb', Ht'.
      cbn [getitem]. rewrite Hm'. cbn [truthy negb].
      rewrite (update_temperature_auto e2 _ _ b k) by (by repeat split).
      rewrite (computed_temperature_spec e2 _ _ false b k) by (by repeat split).
      cbn [fst].
      destruct (computed_temperature e2) as [new|x2].
      * destruct (Z.eqb_spec new k) as [->|Hne].
        -- split.
           ++ intros _. cbn [snd state_file add_events]. split; [| exact HW].
              erewrite new_events_trace;
                [| unfold add_events; cbn [trace]; rewrite <- !app_assoc; reflexivity].
              rewrite !applier_temps_app, applier_temps_notify. reflexivity.
           ++ intros new [= <-] Hne. done.
        -- cbv beta iota zeta.
           match goal with
           | |- context [apply_temperature new e2 (?s0, ?w0)] =>
               destruct (apply_temperature_trace new e2 s0 w0) as (evs & Htr & Hevs);
               destruct (apply_temperature new e2 (s0, w0)) as [r2 [self2 w2]]
           end.
           split.
           ++ intros [= ->]. done.
           ++ intros new' [= <-] _.
              unfold add_events in Htr. cbn [trace snd fst] in Htr.
              rewrite <- !app_assoc in Htr.
              destruct r2; cbn [snd]; rewrite (new_events_trace _ _ _ Htr);
                rewrite !applier_temps_app, applier_temps_notify; cbn; exact Hevs.
      * split; [done |]. intros new [=].
    + intros [Hno | Hw].
      * by destruct (Hno pid).
      * cbn [state_file]. unfold saved. by rewrite Hw.
  - split.
    { erewrite new_events_trace; [| unfold add_events; simpl; rewrite <- !app_assoc; reflexivity].
      rewrite !applier_temps_app, applier_temps_load, applier_temps_pkill. simpl.
      by rewrite applier_temps_error. }
    split; [cbn [state_file saved add_events snd]; rewrite Hd; eauto |].
    split; [intros pid [=] |].
    intros _. reflexivity.
Qed.

Lemma test_command_records_temperature_witness :
  ascii_lower "TEST" = "test" /\
  ascii_int "3000" = Some 3000 /\
  is_state (loaded (state_file first_run)) false false 4500 /\
  exists v',
    state_file
      (snd (main ascii_int ascii_lower ["blue-light.py"; "TEST"; "3000"] env_day
              first_run)) = Holds v' /\
    is_state v' false false 3000.
Proof.
  assert (Hst : is_state (loaded (state_file first_run)) false false 4500)
    by (repeat split; reflexivity).
  split; [reflexivity |]. split; [reflexivity |]. split; [exact Hst |].
  destruct (test_command_records_temperature ascii_int ascii_lower
              "blue-light.py" "TEST" "3000" [] 3000 env_day first_run
              false false 4500 eq_refl eq_refl Hst)
    as (w' & Hmain & _ & _ & Hok & _).
  rewrite Hmain. exact (proj1 (Hok 100 eq_refl eq_refl)).
Defined.


(** * Further properties *)

(** ** Further properties of the mode controller *)

Lemma calculate_temperature_range e s n :
  fst (calculate_temperature e s) = Ok n -> n ∈ decided_temperatures.
Proof.
  unfold calculate_temperature, decided_temperatures. unfold_monad. simpl.
  repeat (case_match; simpl; try discriminate);
    intros [= <-]; apply list_elem_of_In; simpl; tauto.
Qed.

(** Normalizes a goal [trace w' = trace w ++ ?evs]. *)
Ltac trace_eq :=
  unfold add_events; cbn [trace state_file fst snd];
  rewrite <- ?app_assoc; cbn [app];
  first [ reflexivity | symmetry; apply app_nil_r ].

Lemma applier_temps_popen t evs :
  applier_temps (PopenHyprsunset t :: evs) = t :: applier_temps evs.
Proof. reflexivity. Qed.

Lemma applier_temps_nil : applier_temps [] = [].
Proof. reflexivity. Qed.

Lemma applier_temps_log m evs : applier_temps (Log m :: evs) = applier_temps evs.
Proof. reflexivity. Qed.

Lemma applier_temps_sleep ms evs : applier_temps (Sleep ms :: evs) = applier_temps evs.
Proof. reflexivity. Qed.

Lemma applier_temps_stdout m evs : applier_temps (Stdout m :: evs) = applier_temps evs.
Proof. reflexivity. Qed.

Create Rewrite HintDb temps.
#[global] Hint Rewrite applier_temps_app applier_temps_popen applier_temps_nil applier_temps_log
  applier_temps_sleep applier_temps_stdout applier_temps_load
  applier_temps_notify applier_temps_save applier_temps_pkill applier_temps_ok
  applier_temps_error : temps.

Ltac no_temps := autorewrite with temps; cbn [app]; reflexivity.

Lemma asks_update_temperature :
  asks_at_most (fun t => t ∈ decided_temperatures) update_temperature.
Proof.
  intros e [self w].
  unfold update_temperature. unfold_monad. simpl.
  destruct (getitem (state self) "manual") as [manual|x]; simpl;
    [| exists []; split; [trace_eq | by left]].
  destruct (truthy manual); simpl; [exists []; split; [trace_eq | by left] |].
  pose proof (calculate_temperature_pure e (self, w)) as Hpure.
  pose proof (calculate_temperature_range e (self, w)) as Hrange.
  destruct (calculate_temperature e (self, w)) as [[new|x] s1]; simpl in Hpure; subst s1;
    [| exists []; split; [trace_eq | by left]].
  simpl.
  destruct (getitem (state self) "last_temp") as [last|x]; simpl;
    [| exists []; split; [trace_eq | by left]].
  destruct (py_int_ne new last).
  - match goal with
    | |- context [apply_temperature new e (self, ?w0)] =>
        destruct (apply_temperature_trace new e self w0) as (evs & Htr & Hevs)
    end.
    eexists. split.
    + rewrite Htr. trace_eq.
    + right. exists new. split; [| by apply Hrange]. simpl. exact Hevs.
  - eexists. split; [trace_eq |]. by left.
Qed.

Ltac asks_none := eexists; split; [trace_eq | left; no_temps].

Ltac asks_one t :=
  eexists; split; [trace_eq | right; exists t; split; [no_temps | ]].

Lemma asks_weaken {A} (P Q : Z -> Prop) (p : M A) :
  (forall t, P t -> Q t) -> asks_at_most P p -> asks_at_most Q p.
Proof.
  intros HPQ Hp e s. destruct (Hp e s) as (evs & Htr & [H | (t & H & Ht)]);
    exists evs; split; auto. right. eauto.
Qed.

Lemma decided_operation t :
  t ∈ decided_temperatures -> t ∈ operation_temperatures.
Proof.
  intros H. apply list_elem_of_In in H. apply list_elem_of_In.
  simpl in *. tauto.
Qed.

Lemma asks_toggle_bluelight :
  asks_at_most (fun t => t ∈ operation_temperatures) toggle_bluelight.
Proof.
  intros e [[st p] w].
  unfold toggle_bluelight. unfold_monad.
  destruct st; simpl; try asks_none.
  case_lookup "manual"; [| asks_none].
  destruct (truthy v); simpl; run; [| asks_none].
  case_lookup "bluelight"; [| asks_none].
  run.
  destruct (popen e) as [pid|x]; simpl; run;
    (destruct (truthy v0); simpl;
     [ asks_one MANUAL_OFF | asks_one MANUAL_ON ];
     apply list_elem_of_In; simpl; tauto).
Qed.

Lemma manual_off_operation : MANUAL_OFF ∈ operation_temperatures.
Proof. apply list_elem_of_In. simpl. tauto. Qed.

Lemma asks_force_manual_mode :
  asks_at_most (fun t => t ∈ operation_temperatures) force_manual_mode.
Proof.
  intros e [[st p] w].
  unfold force_manual_mode. unfold_monad.
  destruct st; simpl; try asks_none.
  case_lookup "manual"; [| asks_none].
  destruct (truthy v); simpl; run; [asks_none |].
  destruct (popen e) as [pid|x]; simpl; run;
    asks_one MANUAL_OFF; apply manual_off_operation.
Qed.

(** After a prefix that asked for nothing, a tail keeps its bound. *)
Lemma asks_after {A} (P : Z -> Prop) (p : M A) e self w w0 pre :
  asks_at_most P p ->
  trace w0 = trace w ++ pre ->
  applier_temps pre = [] ->
  exists evs,
    trace (snd (snd (p e (self, w0)))) = trace w ++ evs /\
    (applier_temps evs = [] \/ exists t, applier_temps evs = [t] /\ P t).
Proof.
  intros Hp Hw0 Hpre.
  destruct (Hp e (self, w0)) as (evs & Htr & Hevs).
  exists (pre ++ evs). split.
  - rewrite Htr. cbn [snd]. rewrite Hw0. by rewrite app_assoc.
  - by rewrite applier_temps_app, Hpre.
Qed.

Lemma asks_toggle_auto_mode :
  asks_at_most (fun t => t ∈ operation_temperatures) toggle_auto_mode.
Proof.
  intros e [[st p] w].
  unfold toggle_auto_mode. unfold_monad.
  destruct st; simpl; try asks_none.
  case_lookup "manual"; [| asks_none].
  destruct (truthy v); simpl; run; [| asks_none].
  eapply asks_after.
  - eapply asks_weaken; [apply decided_operation | apply asks_update_temperature].
  - trace_eq.
  - no_temps.
Qed.

Lemma asks_toggle_manual_mode :
  asks_at_most (fun t => t ∈ operation_temperatures) toggle_manual_mode.
Proof.
  intros e [[st0 p] w].
  unfold toggle_manual_mode. unfold_monad.
  rewrite load_state_loaded. cbn [fst snd state hyprsunset_pid].
  generalize (loaded (state_file w)) as st. intros st.
  destruct st; simpl; try asks_none.
  case_lookup "manual"; [| asks_none].
  destruct (truthy v); simpl; run.
  - match goal with
    | |- context [update_temperature e (?self1, ?w1)] =>
        edestruct (asks_after (fun t => t ∈ operation_temperatures) update_temperature
                     e self1 w w1) as (evs & Htr & Hevs);
        [ eapply asks_weaken; [apply decided_operation | apply asks_update_temperature]
        | trace_eq
        | no_temps
        | destruct (update_temperature e (self1, w1)) as [r1 [self2 w2]] ]
    end.
    simpl in Htr.
    destruct r1; simpl.
    + destruct (getitem (state self2) "manual"); simpl.
      * exists (evs ++ [Log (Msg "Final mode after toggle: {}" [mode_name a0])]).
        split; [rewrite Htr; by rewrite app_assoc |].
        rewrite applier_temps_app. cbn [applier_temps omap]. by rewrite app_nil_r.
      * exists evs. done.
    + exists evs. done.
  - destruct (popen e) as [pid|x]; simpl; run;
      asks_one MANUAL_OFF; apply manual_off_operation.
Qed.

(** X1: an operation of the mode controller (the reconcile, the filter
    toggle, the manual-mode toggle, the switch to automatic, the switch to
    manual) starts hyprsunset at most once, and only with one of the six
    temperatures 6500, 5800, 5200, 5000, 4200 and 3800 (never with
    BLUELIGHT_ON, 4000K), whatever state the manager holds and whatever the
    environment answers. *)
Theorem operation_asks_for_one_profile_temperature o e s :
  exists evs,
    trace (snd (snd (run_operation o e s))) = trace (snd s) ++ evs /\
    (length (applier_temps evs) <= 1)%nat /\
    (forall t, t ∈ applier_temps evs ->
               t ∈ [6500; 5800; 5200; 5000; 4200; 3800]).
Proof.
  assert (H : asks_at_most (fun t => t ∈ operation_temperatures) (run_operation o)).
  { destruct o; simpl.
    - eapply asks_weaken; [apply decided_operation | apply asks_update_temperature].
    - apply asks_toggle_bluelight.
    - apply asks_toggle_manual_mode.
    - apply asks_toggle_auto_mode.
    - apply asks_force_manual_mode. }
  destruct (H e s) as (evs & Htr & [Hnone | (t & Hone & Ht)]); exists evs.
  - rewrite Hnone. split; [done |]. split; [simpl; lia |].
    intros t Hin. by apply elem_of_nil in Hin.
  - rewrite Hone. split; [done |]. split; [simpl; lia |].
    intros t' ->%list_elem_of_singleton. exact Ht.
Qed.

(** X2: whatever the weather answer holds, a temperature that
    calculate_temperature returns is 4200 or 3800 when the UTC hour is
    before 6 or from 20 on, and 6500, 5800 or 5200 otherwise: every night
    temperature is below every day temperature. *)
Theorem calculate_temperature_by_hour e s n :
  fst (calculate_temperature e s) = Ok n ->
  if isNight (utc_hour e) then n ∈ [4200; 3800] else n ∈ [6500; 5800; 5200].
Proof.
  unfold calculate_temperature. unfold_monad. cbn [fst snd].
  rewrite hour_is_night. destruct (isNight (utc_hour e)); simpl.
  all: repeat (case_match; simpl; try discriminate).
  all: intros [= <-]; apply list_elem_of_In; simpl; tauto.
Qed.

Lemma calculate_temperature_by_hour_witness :
  fst (calculate_temperature env_rainy_night (new_manager, first_run)) = Ok 3800 /\
  3800 ∈ [4200; 3800].
Proof.
  split; [reflexivity |].
  exact (calculate_temperature_by_hour env_rainy_night (new_manager, first_run) 3800
           eq_refl).
Defined.

Lemma notices_app evs1 evs2 :
  notices (evs1 ++ evs2) = notices evs1 ++ notices evs2.
Proof. apply omap_app. Qed.

Lemma notices_nil : notices [] = [].
Proof. reflexivity. Qed.

Lemma notices_log m evs : notices (Log m :: evs) = notices evs.
Proof. reflexivity. Qed.

Lemma notices_popen t evs : notices (PopenHyprsunset t :: evs) = notices evs.
Proof. reflexivity. Qed.

Lemma notices_sleep ms evs : notices (Sleep ms :: evs) = notices evs.
Proof. reflexivity. Qed.

Lemma notices_stdout m evs : notices (Stdout m :: evs) = notices evs.
Proof. reflexivity. Qed.

Lemma notices_save e st : notices (save_events e st) = [].
Proof. unfold save_events. by destruct (state_writable e). Qed.

Lemma notices_pkill e : notices (pkill_events e) = [].
Proof. unfold pkill_events. by destruct (pkill_present e). Qed.

Lemma notices_load f : notices (load_events f) = [].
Proof. by destruct f. Qed.

Lemma notices_ok e temp pid st :
  notices (apply_ok_events e temp pid st) = [Msg "Screen temperature set to {}K" [PInt temp]].
Proof.
  unfold apply_ok_events.
  by rewrite !notices_app, notices_save, notices_notify.
Qed.

Lemma notices_error e x :
  notices (apply_error_events e x) =
  [match x with
   | FileNotFoundError => Msg "Error: hyprsunset not installed or not in PATH" []
   | _ => Msg "Error setting temperature: {}" [exn_str x]
   end].
Proof. destruct x; simpl; by rewrite notices_notify. Qed.

Create Rewrite HintDb notes.
#[global] Hint Rewrite notices_app notices_nil notices_log notices_popen notices_sleep
  notices_stdout notices_save notices_pkill notices_load notices_ok notices_error
  notices_notify : notes.

(** X3: switching to the mode already in force only sends a notice:
    toggle_auto_mode in automatic mode and force_manual_mode in manual mode
    return normally, change neither the manager nor the state file, send the
    one notice (Already in automatic mode, Already in manual mode) and ask
    the applier for nothing. *)
Theorem switch_to_current_mode_only_notifies e self w m b t r self' w' :
  is_state (state self) m b t ->
  (if m then force_manual_mode else toggle_auto_mode) e (self, w) = (r, (self', w')) ->
  r = Ok tt /\
  self' = self /\
  state_file w' = state_file w /\
  notices (new_events w w') =
    [Msg (if m then "Already in manual mode" else "Already in automatic mode") []] /\
  applier_temps (new_events w w') = [].
Proof.
  intros H. dict_state H self.
  destruct m; [unfold force_manual_mode | unfold toggle_auto_mode];
    unfold_monad; simpl; run; intros [= <- <- <-];
    unfold add_events; rewrite new_events_add;
    by rewrite notices_notify, applier_temps_notify.
Qed.

Lemma switch_to_current_mode_only_notifies_witness :
  is_state (state manual_manager) true false 6500 /\
  notices
    (new_events first_run (snd (snd (force_manual_mode env_day (manual_manager, first_run)))))
  = [Msg "Already in manual mode" []].
Proof.
  assert (Hst : is_state (state manual_manager) true false 6500)
    by (repeat split; reflexivity).
  split; [exact Hst |].
  destruct (switch_to_current_mode_only_notifies env_day manual_manager first_run
              true false 6500 _ _ _ Hst
              (run_eta force_manual_mode env_day (manual_manager, first_run)))
    as (_ & _ & _ & Hn & _).
  exact Hn.
Defined.

Lemma calculate_temperature_world e self w1 w2 :
  fst (calculate_temperature e (self, w1)) = fst (calculate_temperature e (self, w2)).
Proof.
  unfold calculate_temperature. unfold_monad. simpl.
  repeat (case_match; simpl; try reflexivity).
Qed.

Lemma same_run_apply_temperature temp e self w1 w2 :
  state_file w1 = state_file w2 ->
  same_run (apply_temperature temp) e self w1 w2.
Proof.
  intros Hf. unfold same_run. rewrite !apply_temperature_run, Hf.
  destruct (popen e) as [pid|x];
    [destruct (setitem (state self) "last_temp" (PInt temp)) |];
    do 4 eexists; split; unfold add_events; rewrite ?Hf; reflexivity.
Qed.

Lemma same_run_update_temperature e self w1 w2 :
  state_file w1 = state_file w2 ->
  same_run update_temperature e self w1 w2.
Proof.
  intros Hf. unfold same_run, update_temperature. unfold_monad. simpl.
  assert (Hnone : forall (r : result unit),
             exists r' self' f evs,
               (r, (self, w1)) = (r', (self', World f (trace w1 ++ evs))) /\
               (r, (self, w2)) = (r', (self', World f (trace w2 ++ evs)))).
  { intros r. exists r, self, (state_file w1), [].
    rewrite !app_nil_r. split; [by destruct w1 |].
    rewrite Hf. by destruct w2. }
  destruct (getitem (state self) "manual") as [manual|x]; simpl; [| apply Hnone].
  destruct (truthy manual); simpl; [apply Hnone |].
  pose proof (calculate_temperature_pure e (self, w1)) as Hp1.
  pose proof (calculate_temperature_pure e (self, w2)) as Hp2.
  pose proof (calculate_temperature_world e self w1 w2) as Hw.
  destruct (calculate_temperature e (self, w1)) as [r1 s1].
  destruct (calculate_temperature e (self, w2)) as [r2 s2].
  simpl in *. subst s1 s2 r2.
  destruct r1 as [new|x]; simpl; [| apply Hnone].
  destruct (getitem (state self) "last_temp") as [last|x]; simpl; [| apply Hnone].
  destruct (py_int_ne new last).
  - match goal with
    | |- context [apply_temperature new e (self, ?a)] =>
        match goal with
        | |- context [apply_temperature new e (self, ?b)] =>
            lazymatch a with
            | b => fail
            | _ => destruct (same_run_apply_temperature new e self a b Hf)
                     as (r & self' & f & evs & H1 & H2)
            end
        end
    end.
    rewrite H1, H2. cbn [trace].
    exists r, self', f, ([Log (Msg "Calculated temperature: {}K, current: {}K"
                                  [PInt new; last])] ++ evs).
    by rewrite !app_assoc.
  - exists (Ok tt), self, (state_file w1),
      [Log (Msg "Calculated temperature: {}K, current: {}K" [PInt new; last]);
       Log (Msg "Temperature unchanged at {}K" [PInt new])].
    simpl. rewrite <- !app_assoc, Hf. done.
Qed.

(** [apply_temperature] and [update_temperature] write no field of the state
    but [last_temp]. *)
Lemma apply_temperature_frame temp e self w k :
  k <> "last_temp" ->
  field (state (fst (snd (apply_temperature temp e (self, w))))) k = field (state self) k.
Proof.
  intros Hk. rewrite apply_temperature_run. cbn [fst snd].
  destruct (popen e) as [pid|x]; [| reflexivity].
  destruct (state self) as [| | | | | |d]; cbn [setitem state]; try reflexivity.
  simpl. by rewrite lookup_insert_ne.
Qed.

Lemma update_temperature_frame e self w k :
  k <> "last_temp" ->
  field (state (fst (snd (update_temperature e (self, w))))) k = field (state self) k.
Proof.
  intros Hk. unfold update_temperature. unfold_monad. simpl.
  destruct (getitem (state self) "manual") as [manual|x]; simpl; [| reflexivity].
  destruct (truthy manual); simpl; [reflexivity |].
  pose proof (calculate_temperature_pure e (self, w)) as Hpure.
  destruct (calculate_temperature e (self, w)) as [[new|x] s1]; simpl in Hpure; subst s1;
    [| reflexivity].
  simpl.
  destruct (getitem (state self) "last_temp") as [last|x]; simpl; [| reflexivity].
  destruct (py_int_ne new last); [| reflexivity].
  by apply apply_temperature_frame.
Qed.

Lemma saved_saved e st1 st2 f : saved e st1 (saved e st2 f) = saved e st1 f.
Proof. unfold saved. by destruct (state_writable e). Qed.

(** X4: from automatic mode the commands force-manual and manual are the
    same to the user: same exit status (0), same state file left, same
    notices and the same applier request (6500K), although
    toggle_manual_mode saves before it applies and force_manual_mode after. *)
Theorem force_manual_is_manual_from_automatic
    py_int lower prog1 arg1 rest1 prog2 arg2 rest2 e w b t :
  lower arg1 = "force-manual" ->
  lower arg2 = "manual" ->
  is_state (loaded (state_file w)) false b t ->
  observe w (main py_int lower (prog1 :: arg1 :: rest1) e w) =
  observe w (main py_int lower (prog2 :: arg2 :: rest2) e w) /\
  fst (main py_int lower (prog1 :: arg1 :: rest1) e w) = Exit 0 /\
  applier_temps (new_events w (snd (main py_int lower (prog1 :: arg1 :: rest1) e w))) = [6500].
Proof.
  intros H1 H2 Hst. rewrite !main_command. unfold dispatch. rewrite H1, H2.
  cbn [String.eqb Ascii.eqb Bool.eqb].
  unfold force_manual_mode, toggle_manual_mode. unfold_monad.
  apply is_state_dict in Hst as (d & Hd & Hm & Hb & Ht).
  repeat (rewrite load_state_loaded;
          cbn [fst snd state state_file hyprsunset_pid add_events]; rewrite ?Hd).
  simpl. run.
  unfold observe.
  destruct (popen e) as [pid|x]; simpl; run;
    erewrite !(new_events_trace w) by trace_eq;
    (split; [| split; [reflexivity | no_temps]]);
    rewrite ?saved_saved; autorewrite with notes temps; reflexivity.
Qed.

Lemma force_manual_is_manual_from_automatic_witness :
  ascii_lower "FORCE-MANUAL" = "force-manual" /\
  ascii_lower "manual" = "manual" /\
  is_state (loaded (state_file first_run)) false false 4500 /\
  observe first_run (main ascii_int ascii_lower ["blue-light.py"; "FORCE-MANUAL"] env_day first_run) =
  observe first_run (main ascii_int ascii_lower ["blue-light.py"; "manual"] env_day first_run).
Proof.
  assert (Hst : is_state (loaded (state_file first_run)) false false 4500)
    by (repeat split; reflexivity).
  split; [reflexivity |]. split; [reflexivity |]. split; [exact Hst |].
  exact (proj1 (force_manual_is_manual_from_automatic ascii_int ascii_lower
                  "blue-light.py" "FORCE-MANUAL" [] "blue-light.py" "manual" []
                  env_day first_run false 4500 eq_refl eq_refl Hst)).
Defined.

(** X5: from manual mode the commands auto and manual are the same to the
    user: both save automatic mode with the filter off and run
    update_temperature, and they end with the same exit status, state file,
    notices and applier requests. *)
Theorem auto_is_manual_from_manual
    py_int lower prog1 arg1 rest1 prog2 arg2 rest2 e w b t :
  lower arg1 = "auto" ->
  lower arg2 = "manual" ->
  is_state (loaded (state_file w)) true b t ->
  observe w (main py_int lower (prog1 :: arg1 :: rest1) e w) =
  observe w (main py_int lower (prog2 :: arg2 :: rest2) e w).
Proof.
  intros H1 H2 Hst. rewrite !main_command. unfold dispatch. rewrite H1, H2.
  cbn [String.eqb Ascii.eqb Bool.eqb].
  unfold toggle_auto_mode, toggle_manual_mode. unfold_monad.
  apply is_state_dict in Hst as (d & Hd & Hm & Hb & Ht).
  repeat (rewrite load_state_loaded;
          cbn [fst snd state state_file hyprsunset_pid add_events]; rewrite ?Hd).
  simpl. run.
  match goal with
  | |- context [update_temperature e (?self, ?a)] =>
      match goal with
      | |- context [update_temperature e (self, ?b)] =>
          lazymatch a with
          | b => fail
          | _ => destruct (same_run_update_temperature e self a b eq_refl)
                   as (r & self' & f & evs & Ha & Hb')
          end
      end
  end.
  assert (Hmanual : getitem (state self') "manual" = Ok (PBool false)).
  { apply field_getitem.
    match type of Ha with
    | update_temperature e (?self, ?a) = _ =>
        pose proof (update_temperature_frame e self a "manual" ltac:(done)) as Hfr;
        rewrite Ha in Hfr; cbn [fst snd state field] in Hfr
    end.
    rewrite Hfr. simpl. by rewrite lookup_insert_ne, lookup_insert_eq. }
  rewrite Ha, Hb'. unfold observe.
  destruct r as [|x]; simpl.
  - rewrite Hmanual; simpl;
      erewrite !(new_events_trace w) by trace_eq;
      autorewrite with notes temps; cbn [app]; rewrite ?app_nil_r; reflexivity.
  - erewrite !(new_events_trace w) by trace_eq.
    autorewrite with notes temps. cbn [app]. rewrite ?app_nil_r. reflexivity.
Qed.

Lemma auto_is_manual_from_manual_witness :
  ascii_lower "auto" = "auto" /\
  ascii_lower "manual" = "manual" /\
  is_state (loaded (state_file manual_run)) true false 6500 /\
  observe manual_run (main ascii_int ascii_lower ["blue-light.py"; "auto"] env_night manual_run) =
  observe manual_run (main ascii_int ascii_lower ["blue-light.py"; "manual"] env_night manual_run).
Proof.
  assert (Hst : is_state (loaded (state_file manual_run)) true false 6500)
    by (repeat split; reflexivity).
  split; [reflexivity |]. split; [reflexivity |]. split; [exact Hst |].
  exact (auto_is_manual_from_manual ascii_int ascii_lower
           "blue-light.py" "auto" [] "blue-light.py" "manual" []
           env_night manual_run false 6500 eq_refl eq_refl Hst).
Defined.

Lemma update_temperature_is_state e self w m b t :
  is_state (state self) m b t ->
  exists t', is_state (state (fst (snd (update_temperature e (self, w))))) m b t'.
Proof.
  intros Hst. destruct m.
  - rewrite (update_temperature_manual _ _ _ _ _ Hst). eauto.
  - rewrite (update_temperature_auto _ _ _ _ _ Hst).
    destruct (fst (calculate_temperature e (self, w))) as [new|x]; [| by eauto].
    cbv beta iota zeta.
    destruct (new =? t); [by eauto |].
    rewrite apply_temperature_run. cbn [fst snd].
    pose proof Hst as Hst'.
    apply is_state_dict in Hst' as (d & Hd & _). rewrite Hd in *.
    destruct (popen e) as [pid|x]; cbn [setitem state fst snd]; [| by rewrite ?Hd; eauto].
    exists new. by apply (is_state_set_last_temp d false b t new).
Qed.

(** A manager whose state is the one in the state file stays so across
    [update_temperature] when the state file is writable. *)
Lemma update_temperature_synced e self w r self' w' :
  state_writable e = true ->
  state_file w = Holds (state self) ->
  update_temperature e (self, w) = (r, (self', w')) ->
  state_file w' = Holds (state self').
Proof.
  intros Hw Hf Hrun.
  destruct (persists_update_temperature e (self, w) r (self', w') Hw Hrun)
    as [H | [H1 H2]]; [exact H |].
  simpl in *. by rewrite H2, H1.
Qed.

Lemma manual_command_effect py_int lower prog arg rest e w m b t :
  lower arg = "manual" ->
  is_state (loaded (state_file w)) m b t ->
  state_writable e = true ->
  exists v' t',
    state_file (snd (main py_int lower (prog :: arg :: rest) e w)) = Holds v' /\
    is_state v' (negb m) false t' /\
    (m = false ->
     applier_temps (new_events w (snd (main py_int lower (prog :: arg :: rest) e w)))
     = [6500]).
Proof.
  intros Hcmd Hst Hw. rewrite main_command. unfold dispatch. rewrite Hcmd.
  cbn [String.eqb Ascii.eqb Bool.eqb].
  unfold toggle_manual_mode. unfold_monad.
  apply is_state_dict in Hst as (d & Hd & Hm & Hb & Ht).
  repeat (rewrite load_state_loaded;
          cbn [fst snd state state_file hyprsunset_pid add_events]; rewrite ?Hd).
  simpl. run. destruct m; simpl; run.
  - match goal with
    | |- context [update_temperature e (?self1, ?w1)] =>
        assert (Hst1 : is_state (state self1) false false t)
          by (unfold is_state; simpl; simpl_lookup; done);
        destruct (update_temperature_is_state e self1 w1 false false t Hst1) as (t' & Hst');
        pose proof (update_temperature_synced e self1 w1) as Hsync;
        destruct (update_temperature e (self1, w1)) as [r1 [self2 w2]]
    end.
    specialize (Hsync r1 self2 w2 Hw).
    cbn [state_file state saved] in Hsync. unfold saved in Hsync. rewrite Hw in Hsync.
    specialize (Hsync eq_refl eq_refl). cbn [fst snd] in Hst'.
    exists (state self2), t'. split; [| split; [exact Hst' | done]].
    destruct r1; simpl; [| exact Hsync].
    destruct (getitem (state self2) "manual"); exact Hsync.
  - unfold saved. rewrite Hw.
    destruct (popen e) as [pid|x]; simpl; run;
      (eexists _, _; split; [reflexivity |]; split;
       [ unfold is_state; simpl; simpl_lookup; repeat split; first [reflexivity | eassumption]
       | intros _; erewrite new_events_trace by trace_eq; no_temps ]).
Qed.

(** X6: the manual command run twice (state file writable) brings the mode
    back to what it was, with the filter flag off whatever it was before;
    the run that enters manual mode asks the applier for 6500K and nothing
    else. *)
Theorem manual_twice_restores_mode py_int lower prog arg rest e1 e2 w m b t :
  lower arg = "manual" ->
  is_state (loaded (state_file w)) m b t ->
  state_writable e1 = true ->
  state_writable e2 = true ->
  let w1 := snd (main py_int lower (prog :: arg :: rest) e1 w) in
  let w2 := snd (main py_int lower (prog :: arg :: rest) e2 w1) in
  (exists t2, is_state (loaded (state_file w2)) m false t2) /\
  applier_temps (new_events (if m then w1 else w) (if m then w2 else w1)) = [6500].
Proof.
  intros Hcmd Hst Hw1 Hw2 w1 w2.
  destruct (manual_command_effect py_int lower prog arg rest e1 w m b t Hcmd Hst Hw1)
    as (v1 & t1 & Hf1 & Hst1 & Ha1).
  fold w1 in Hf1, Ha1.
  assert (Hl1 : is_state (loaded (state_file w1)) (negb m) false t1)
    by (by rewrite Hf1).
  destruct (manual_command_effect py_int lower prog arg rest e2 w1 _ _ _ Hcmd Hl1 Hw2)
    as (v2 & t2 & Hf2 & Hst2 & Ha2).
  fold w2 in Hf2, Ha2. rewrite Hf2. simpl. rewrite Bool.negb_involutive in Hst2.
  split; [eauto |]. destruct m; [apply Ha2 | apply Ha1]; done.
Qed.

Lemma manual_twice_restores_mode_witness :
  ascii_lower "manual" = "manual" /\
  is_state (loaded (state_file first_run)) false false 4500 /\
  exists t2,
    is_state
      (loaded (state_file
         (snd (main ascii_int ascii_lower ["blue-light.py"; "manual"] env_night
                 (snd (main ascii_int ascii_lower ["blue-light.py"; "manual"] env_day
                         first_run))))))
      false false t2.
Proof.
  assert (Hst : is_state (loaded (state_file first_run)) false false 4500)
    by (repeat split; reflexivity).
  split; [reflexivity |]. split; [exact Hst |].
  exact (proj1 (manual_twice_restores_mode ascii_int ascii_lower "blue-light.py" "manual" []
                  env_day env_night first_run false false 4500
                  eq_refl Hst eq_refl eq_refl)).
Defined.

Lemma toggle_command_effect py_int lower prog arg rest e w b t :
  lower arg = "toggle" ->
  is_state (loaded (state_file w)) true b t ->
  state_writable e = true ->
  let w' := snd (main py_int lower (prog :: arg :: rest) e w) in
  let temp := if b then 6500 else 5000 in
  (exists t', is_state (loaded (state_file w')) true (negb b) t' /\
              (t' = t \/ t' = temp)) /\
  applier_temps (new_events w w') = [temp].
Proof.
  intros Hcmd Hst Hw. cbv zeta. rewrite main_command. unfold dispatch. rewrite Hcmd.
  cbn [String.eqb Ascii.eqb Bool.eqb].
  unfold toggle_bluelight. unfold_monad.
  apply is_state_dict in Hst as (d & Hd & Hm & Hb & Ht).
  rewrite ?Hd.
  simpl. run.
  destruct b; simpl; run; destruct (popen e) as [pid|x]; simpl; run.
  all: unfold saved; rewrite ?Hw; cbn [loaded state_file snd fst].
  all: split;
    [ eexists; split;
      [ unfold is_state; simpl; simpl_lookup; repeat split; first [reflexivity | eassumption]
      | auto ]
    | erewrite new_events_trace by trace_eq; no_temps ].
Qed.

(** X7: in manual mode the toggle command run twice (state file writable)
    leaves the filter flag as it was; the first run asks the applier for
    5000K when the filter was off and 6500K when it was on, the second run
    for the other one. *)
Theorem toggle_twice_restores_filter py_int lower prog arg rest e1 e2 w b t :
  lower arg = "toggle" ->
  is_state (loaded (state_file w)) true b t ->
  state_writable e1 = true ->
  state_writable e2 = true ->
  let w1 := snd (main py_int lower (prog :: arg :: rest) e1 w) in
  let w2 := snd (main py_int lower (prog :: arg :: rest) e2 w1) in
  (exists t2, is_state (loaded (state_file w2)) true b t2) /\
  applier_temps (new_events w w1) = [if b then 6500 else 5000] /\
  applier_temps (new_events w1 w2) = [if b then 5000 else 6500].
Proof.
  intros Hcmd Hst Hw1 Hw2 w1 w2.
  destruct (toggle_command_effect py_int lower prog arg rest e1 w b t Hcmd Hst Hw1)
    as ((t1 & Hst1 & _) & Ha1).
  fold w1 in Hst1, Ha1.
  destruct (toggle_command_effect py_int lower prog arg rest e2 w1 _ _ Hcmd Hst1 Hw2)
    as ((t2 & Hst2 & _) & Ha2).
  fold w2 in Hst2, Ha2. rewrite Bool.negb_involutive in Hst2.
  split; [eauto |]. split; [exact Ha1 |]. rewrite Ha2. by destruct b.
Qed.

Lemma toggle_twice_restores_filter_witness :
  ascii_lower "toggle" = "toggle" /\
  is_state (loaded (state_file manual_run)) true false 6500 /\
  applier_temps
    (new_events manual_run
       (snd (main ascii_int ascii_lower ["blue-light.py"; "toggle"] env_day manual_run)))
  = [5000] /\
  applier_temps
    (new_events
       (snd (main ascii_int ascii_lower ["blue-light.py"; "toggle"] env_day manual_run))
       (snd (main ascii_int ascii_lower ["blue-light.py"; "toggle"] env_night
               (snd (main ascii_int ascii_lower ["blue-light.py"; "toggle"] env_day
                       manual_run)))))
  = [6500].
Proof.
  assert (Hst : is_state (loaded (state_file manual_run)) true false 6500)
    by (repeat split; reflexivity).
  split; [reflexivity |]. split; [exact Hst |].
  exact (proj2 (toggle_twice_restores_filter ascii_int ascii_lower "blue-light.py" "toggle" []
                  env_day env_night manual_run false 6500
                  eq_refl Hst eq_refl eq_refl)).
Defined.

(** ** The daemon loop *)

Lemma daemon_tick_unfold e s :
  daemon_tick e s =
  match update_temperature e s with
  | (Ok _, s') => (Ok tt, (fst s', add_events [Sleep 300000] (snd s')))
  | (Raise x, s') =>
      (Ok tt, (fst s', add_events [Log (Msg "Error in daemon loop: {}" [exn_str x]);
                                    Sleep 60000] (snd s')))
  end.
Proof.
  unfold daemon_tick, log, add_events. unfold_monad.
  destruct (update_temperature e s) as [[[]|x] [self' w']]; simpl; try reflexivity.
  by rewrite <- app_assoc.
Qed.

Lemma update_temperature_trace e s :
  exists evs, trace (snd (snd (update_temperature e s))) = trace (snd s) ++ evs.
Proof.
  destruct (asks_update_temperature e s) as (evs & H & _). eauto.
Qed.

(** X8: one iteration of the daemon loop never raises: it ends with a sleep
    of 300 seconds when update_temperature returned and of 60 seconds when
    it raised, whatever the manager's state and the environment. *)
Theorem daemon_tick_never_raises e s :
  fst (daemon_tick e s) = Ok tt /\
  exists evs,
    trace (snd (snd (daemon_tick e s))) =
    trace (snd s) ++ evs ++
      [Sleep (match fst (update_temperature e s) with
              | Ok _ => 300000
              | Raise _ => 60000
              end)].
Proof.
  rewrite daemon_tick_unfold.
  destruct (update_temperature_trace e s) as (evs & Hevs).
  destruct (update_temperature e s) as [[[]|x] [self' w']]; simpl in *.
  - split; [done |]. exists evs. by rewrite Hevs, app_assoc.
  - split; [done |].
    exists (evs ++ [Log (Msg "Error in daemon loop: {}" [exn_str x])]).
    rewrite Hevs. by rewrite <- !app_assoc.
Qed.

(** X9: a daemon whose own state says manual mode does nothing but sleep 300
    seconds per iteration, for any number of iterations: it never reads or
    writes the state file, never asks the applier, never notifies, and its
    state stays as it is. *)
Theorem daemon_in_manual_mode_only_sleeps ticks self w b t :
  is_state (state self) true b t ->
  daemon_loop ticks (self, w) =
  (self, add_events (replicate (length ticks) (Sleep 300000)) w).
Proof.
  intros Hst. revert w. induction ticks as [|e ticks IH]; intros w.
  - simpl. unfold add_events. rewrite app_nil_r. by destruct w.
  - cbn [daemon_loop]. rewrite daemon_tick_unfold.
    rewrite (update_temperature_manual _ _ _ _ _ Hst). cbn [fst snd].
    rewrite IH. unfold add_events. simpl. by rewrite <- app_assoc.
Qed.

Lemma daemon_in_manual_mode_only_sleeps_witness :
  is_state (state manual_manager) true false 6500 /\
  daemon_loop [env_day; env_rainy_night] (manual_manager, first_run) =
  (manual_manager, World Absent [Sleep 300000; Sleep 300000]).
Proof.
  assert (Hst : is_state (state manual_manager) true false 6500)
    by (repeat split; reflexivity).
  split; [exact Hst |].
  exact (daemon_in_manual_mode_only_sleeps [env_day; env_rainy_night]
           manual_manager first_run false 6500 Hst).
Defined.

(** X10: the daemon loop changes no field of its manager's state but
    last_temp, for any number of iterations and any environments: the mode
    and the filter flag it started with are the ones it keeps (it never
    reloads the state file). *)
Theorem daemon_keeps_mode_fields ticks self w k :
  k <> "last_temp" ->
  field (state (fst (daemon_loop ticks (self, w)))) k = field (state self) k.
Proof.
  intros Hk. revert self w. induction ticks as [|e ticks IH]; intros self w; [done |].
  cbn [daemon_loop]. rewrite daemon_tick_unfold.
  pose proof (update_temperature_frame e self w k Hk) as Hfr.
  destruct (update_temperature e (self, w)) as [[[]|x] [self' w']];
    cbn [fst snd] in *; by rewrite IH.
Qed.

Lemma daemon_keeps_mode_fields_witness :
  "manual" <> "last_temp" /\
  field (state (fst (daemon_loop [env_day; env_rainy_night] (new_manager, first_run))))
        "manual" = Some (PBool false).
Proof.
  assert (Hk : "manual" <> "last_temp") by done.
  split; [exact Hk |].
  exact (daemon_keeps_mode_fields [env_day; env_rainy_night] new_manager first_run
           "manual" Hk).
Defined.

(** X11: over any number of iterations the daemon loop asks the applier at
    most once per iteration, and only for one of the five temperatures the
    decider returns (6500, 5800, 5200, 4200, 3800). *)
Theorem daemon_asks_for_decided_temperatures ticks s :
  exists evs,
    trace (snd (daemon_loop ticks s)) = trace (snd s) ++ evs /\
    (length (applier_temps evs) <= length ticks)%nat /\
    (forall t, t ∈ applier_temps evs -> t ∈ [6500; 5800; 5200; 4200; 3800]).
Proof.
  revert s. induction ticks as [|e ticks IH]; intros s.
  - exists []. simpl. rewrite app_nil_r. split; [done |]. split; [done |].
    intros t Ht. by apply elem_of_nil in Ht.
  - cbn [daemon_loop]. destruct (IH (snd (daemon_tick e s))) as (evs2 & Htr2 & Hlen2 & Hin2).
    assert (Htick : exists evs1,
      trace (snd (snd (daemon_tick e s))) = trace (snd s) ++ evs1 /\
      (length (applier_temps evs1) <= 1)%nat /\
      (forall t, t ∈ applier_temps evs1 -> t ∈ decided_temperatures)).
    { rewrite daemon_tick_unfold.
      destruct (asks_update_temperature e s) as (evs & Hevs & Hask).
      destruct (update_temperature e s) as [[[]|x] [self' w']]; simpl in *.
      - exists (evs ++ [Sleep 300000]). rewrite Hevs, <- app_assoc. split; [done |].
        autorewrite with temps. rewrite app_nil_r.
        destruct Hask as [-> | (t & -> & Ht)]; simpl; split; try lia.
        + intros t Ht. by apply elem_of_nil in Ht.
        + intros t' Ht'. apply list_elem_of_singleton in Ht'. by subst.
      - exists (evs ++ [Log (Msg "Error in daemon loop: {}" [exn_str x]); Sleep 60000]).
        rewrite Hevs, <- app_assoc. split; [done |].
        autorewrite with temps. rewrite app_nil_r.
        destruct Hask as [-> | (t & -> & Ht)]; simpl; split; try lia.
        + intros t Ht. by apply elem_of_nil in Ht.
        + intros t' Ht'. apply list_elem_of_singleton in Ht'. by subst. }
    destruct Htick as (evs1 & Htr1 & Hlen1 & Hin1).
    exists (evs1 ++ evs2). rewrite Htr2, Htr1, <- app_assoc. split; [done |].
    rewrite applier_temps_app, length_app. split; [simpl; lia |].
    intros t Ht. apply elem_of_app in Ht as [Ht | Ht]; auto.
Qed.

Lemma update_temperature_computed e self w b t :
  is_state (state self) false b t ->
  update_temperature e (self, w) =
  match computed_temperature e with
  | Ok new =>
      let calculated :=
        Log (Msg "Calculated temperature: {}K, current: {}K" [PInt new; PInt t]) in
      if new =? t
      then (Ok tt, (self, add_events [calculated; Log (Msg "Temperature unchanged at {}K" [PInt new])] w))
      else apply_temperature new e (self, add_events [calculated] w)
  | Raise x => (Raise x, (self, w))
  end.
Proof.
  intros Hst. rewrite (update_temperature_auto _ _ _ _ _ Hst).
  by rewrite (computed_temperature_spec _ _ _ _ _ _ Hst).
Qed.

Lemma daemon_steady e n self w b t :
  is_state (state self) false b t ->
  computed_temperature e = Ok t ->
  exists evs,
    daemon_loop (replicate n e) (self, w) = (self, add_events evs w) /\
    applier_temps evs = [].
Proof.
  intros Hst Hc. revert w. induction n as [|n IH]; intros w.
  - exists []. unfold add_events. rewrite app_nil_r. by destruct w.
  - cbn [replicate daemon_loop]. rewrite daemon_tick_unfold.
    rewrite (update_temperature_computed _ _ _ _ _ Hst), Hc.
    cbv zeta. rewrite Z.eqb_refl. cbn [fst snd].
    edestruct IH as (evs & -> & Hevs). eexists. split.
    + f_equal. unfold add_events. cbn [trace state_file]. f_equal.
      rewrite <- !app_assoc. reflexivity.
    + autorewrite with temps. cbn [app]. by rewrite Hevs.
Qed.

(** X12: in automatic mode, with an environment that stays the same and in
    which hyprsunset starts, the daemon loop asks the applier once for the
    computed temperature when it differs from last_temp (and not at all when
    it is equal), however many iterations follow, and ends with last_temp
    equal to the computed temperature. *)
Theorem daemon_settles e n self w b t new pid :
  is_state (state self) false b t ->
  computed_temperature e = Ok new ->
  popen e = Ok pid ->
  let s' := daemon_loop (replicate (S n) e) (self, w) in
  is_state (state (fst s')) false b new /\
  applier_temps (new_events w (snd s')) = (if new =? t then [] else [new]).
Proof.
  intros Hst Hc Hp s'. subst s'.
  destruct (Z.eqb_spec new t) as [-> | Hne].
  - destruct (daemon_steady e (S n) self w b t Hst Hc) as (evs & -> & Hevs).
    split; [done |]. erewrite new_events_trace by trace_eq. done.
  - cbn [replicate daemon_loop]. rewrite daemon_tick_unfold.
    rewrite (update_temperature_computed _ _ _ _ _ Hst), Hc. cbv zeta.
    apply Z.eqb_neq in Hne. rewrite Hne.
    rewrite apply_temperature_run, Hp.
    pose proof Hst as Hd. apply is_state_dict in Hd as (d & Hd & _).
    rewrite Hd in *. cbn [setitem fst snd].
    match goal with
    | |- context [daemon_loop _ (?self1, ?w1)] =>
        assert (Hst1 : is_state (state self1) false b new)
          by (by apply (is_state_set_last_temp d false b t new));
        destruct (daemon_steady e n self1 w1 b new Hst1 Hc) as (evs & -> & Hevs)
    end.
    split; [exact Hst1 |].
    erewrite new_events_trace by trace_eq.
    autorewrite with temps. cbn [app]. by rewrite Hevs.
Qed.

Lemma daemon_settles_witness :
  is_state (state new_manager) false false 4500 /\
  computed_temperature env_night = Ok 4200 /\
  popen env_night = Ok 101 /\
  applier_temps
    (new_events first_run
       (snd (daemon_loop (replicate 3 env_night) (new_manager, first_run)))) = [4200].
Proof.
  assert (Hst : is_state (state new_manager) false false 4500)
    by (repeat split; reflexivity).
  split; [exact Hst |]. split; [reflexivity |]. split; [reflexivity |].
  exact (proj2 (daemon_settles env_night 2 new_manager first_run false 4500 4200 101
                  Hst eq_refl eq_refl)).
Defined.

(** X13: in automatic mode, when hyprsunset cannot be started and the
    computed temperature differs from last_temp, every iteration of the
    daemon loop tries to start it again and sends the error notice again: n
    iterations give n applier requests and n notices, and the manager's
    state never changes. *)
Theorem daemon_retries_when_launch_fails e n self w b t new x :
  is_state (state self) false b t ->
  computed_temperature e = Ok new ->
  new <> t ->
  popen e = Raise x ->
  exists evs,
    daemon_loop (replicate n e) (self, w) = (self, add_events evs w) /\
    applier_temps evs = replicate n new /\
    length (notices evs) = n.
Proof.
  intros Hst Hc Hne Hp. apply Z.eqb_neq in Hne. revert w.
  induction n as [|n IH]; intros w.
  - exists []. unfold add_events. rewrite app_nil_r. by destruct w.
  - cbn [replicate daemon_loop]. rewrite daemon_tick_unfold.
    rewrite (update_temperature_computed _ _ _ _ _ Hst), Hc. cbv zeta. rewrite Hne.
    rewrite apply_temperature_run, Hp. cbn [fst snd].
    edestruct IH as (evs & -> & Hevs & Hn). eexists. split; [| split].
    + f_equal. unfold add_events. cbn [trace state_file]. f_equal.
      rewrite <- !app_assoc. reflexivity.
    + autorewrite with temps. cbn [app]. by rewrite Hevs.
    + autorewrite with notes. cbn [app length]. by rewrite ?length_app, Hn.
Qed.

Lemma daemon_retries_when_launch_fails_witness :
  is_state (state new_manager) false false 4500 /\
  computed_temperature env_no_hyprsunset = Ok 6500 /\
  6500 <> 4500 /\
  popen env_no_hyprsunset = Raise FileNotFoundError /\
  exists evs,
    daemon_loop (replicate 3 env_no_hyprsunset) (new_manager, first_run) =
    (new_manager, add_events evs first_run) /\
    applier_temps evs = [6500; 6500; 6500] /\
    length (notices evs) = 3%nat.
Proof.
  assert (Hst : is_state (state new_manager) false false 4500)
    by (repeat split; reflexivity).
  assert (Hne : 6500 <> 4500) by done.
  split; [exact Hst |]. split; [reflexivity |]. split; [exact Hne |].
  split; [reflexivity |].
  exact (daemon_retries_when_launch_fails env_no_hyprsunset 3 new_manager first_run
           false 4500 6500 FileNotFoundError Hst eq_refl Hne eq_refl).
Defined.

(** ** Unusable weather answers and state files of another shape *)

Lemma update_temperature_raises e self w b t x :
  is_state (state self) false b t ->
  computed_temperature e = Raise x ->
  update_temperature e (self, w) = (Raise x, (self, w)).
Proof.
  intros Hst Hc. by rewrite (update_temperature_computed _ _ _ _ _ Hst), Hc.
Qed.

(** X14: the auto command from manual mode, when the weather answer makes
    calculate_temperature raise, ends with exit status 1 after the switch
    was saved and announced: the state file holds automatic mode with the
    filter off and the old last_temp, the one notice is Switched to
    automatic mode, and the applier is asked for nothing. *)
Theorem auto_with_unusable_weather py_int lower prog arg rest e w b t x :
  lower arg = "auto" ->
  is_state (loaded (state_file w)) true b t ->
  computed_temperature e = Raise x ->
  state_writable e = true ->
  exists v' w',
    main py_int lower (prog :: arg :: rest) e w = (Exit 1, w') /\
    state_file w' = Holds v' /\
    is_state v' false false t /\
    notices (new_events w w') = [Msg "Switched to automatic mode" []] /\
    applier_temps (new_events w w') = [].
Proof.
  intros Hcmd Hst Hc Hw. rewrite main_command. unfold dispatch. rewrite Hcmd.
  cbn [String.eqb Ascii.eqb Bool.eqb].
  unfold toggle_auto_mode. unfold_monad.
  apply is_state_dict in Hst as (d & Hd & Hm & Hb & Ht).
  rewrite ?Hd. simpl. run.
  erewrite update_temperature_raises;
    [| unfold is_state; simpl; simpl_lookup; repeat split; first [reflexivity | eassumption]
     | exact Hc ].
  simpl. unfold saved. rewrite Hw.
  eexists _, _. split; [reflexivity |]. split; [reflexivity |].
  split; [unfold is_state; simpl; simpl_lookup; done |].
  erewrite !new_events_trace by trace_eq.
  split; [autorewrite with notes; cbn [app]; reflexivity | no_temps].
Qed.

Lemma auto_with_unusable_weather_witness :
  ascii_lower "auto" = "auto" /\
  is_state (loaded (state_file manual_run)) true false 6500 /\
  computed_temperature env_unusable_weather = Raise (KeyError "main") /\
  state_writable env_unusable_weather = true /\
  exists v' w',
    main ascii_int ascii_lower ["blue-light.py"; "auto"] env_unusable_weather manual_run
    = (Exit 1, w') /\
    state_file w' = Holds v' /\
    is_state v' false false 6500 /\
    notices (new_events manual_run w') = [Msg "Switched to automatic mode" []] /\
    applier_temps (new_events manual_run w') = [].
Proof.
  assert (Hst : is_state (loaded (state_file manual_run)) true false 6500)
    by (repeat split; reflexivity).
  split; [reflexivity |]. split; [exact Hst |]. split; [reflexivity |].
  split; [reflexivity |].
  exact (auto_with_unusable_weather ascii_int ascii_lower "blue-light.py" "auto" []
           env_unusable_weather manual_run false 6500 (KeyError "main")
           eq_refl Hst eq_refl eq_refl).
Defined.

(** X15: started without a command and with a state file in manual mode, the
    script sends the start notice with the stored last_temp and enters the
    daemon loop with the state it loaded, without asking the applier and
    without writing the state file. *)
Theorem daemon_start_in_manual_mode py_int lower argv e w b t :
  (length argv <= 1)%nat ->
  is_state (loaded (state_file w)) true b t ->
  main py_int lower argv e w =
  (InDaemonLoop (Manager (loaded (state_file w)) None),
   add_events
     (load_events (state_file w) ++
      notify_events e (Msg "Starting screen temperature service, initial temp: {}K" [PInt t]))
     w).
Proof.
  intros Hlen Hst. rewrite (main_daemon _ _ _ _ _ Hlen).
  unfold run_daemon_start. unfold_monad.
  apply is_state_dict in Hst as (d & Hd & Hm & Hb & Ht).
  rewrite ?Hd. simpl. run. f_equal. unfold add_events. simpl.
  by rewrite <- app_assoc.
Qed.

Lemma daemon_start_in_manual_mode_witness :
  (length ["blue-light.py"] <= 1)%nat /\
  is_state (loaded (state_file manual_run)) true false 6500 /\
  fst (main ascii_int ascii_lower ["blue-light.py"] env_day manual_run) =
  InDaemonLoop (Manager (record_state true false 6500) None).
Proof.
  assert (Hst : is_state (loaded (state_file manual_run)) true false 6500)
    by (repeat split; reflexivity).
  assert (Hlen : (length ["blue-light.py"] <= 1)%nat) by (simpl; lia).
  split; [exact Hlen |]. split; [exact Hst |].
  rewrite (daemon_start_in_manual_mode ascii_int ascii_lower ["blue-light.py"]
             env_day manual_run false 6500 Hlen Hst).
  reflexivity.
Defined.

(** X16: started without a command in automatic mode, when the weather
    answer makes calculate_temperature raise, the script ends with exit
    status 1 right after the start notice: the first update_temperature of
    run_daemon is outside the loop's try, so the daemon never reaches its
    loop. *)
Theorem daemon_start_with_unusable_weather py_int lower argv e w b t x :
  (length argv <= 1)%nat ->
  is_state (loaded (state_file w)) false b t ->
  computed_temperature e = Raise x ->
  main py_int lower argv e w =
  (Exit 1,
   add_events
     (load_events (state_file w) ++
      notify_events e (Msg "Starting screen temperature service, initial temp: {}K" [PInt t]))
     w).
Proof.
  intros Hlen Hst Hc. rewrite (main_daemon _ _ _ _ _ Hlen).
  unfold run_daemon_start. unfold_monad.
  pose proof Hst as Hst'.
  apply is_state_dict in Hst as (d & Hd & Hm & Hb & Ht).
  rewrite ?Hd in *. simpl. run.
  erewrite update_temperature_raises; [| exact Hst' | exact Hc].
  f_equal. unfold add_events. simpl. by rewrite <- app_assoc.
Qed.

Lemma daemon_start_with_unusable_weather_witness :
  (length ["blue-light.py"] <= 1)%nat /\
  is_state (loaded (state_file first_run)) false false 4500 /\
  computed_temperature env_unusable_weather = Raise (KeyError "main") /\
  fst (main ascii_int ascii_lower ["blue-light.py"] env_unusable_weather first_run) = Exit 1.
Proof.
  assert (Hst : is_state (loaded (state_file first_run)) false false 4500)
    by (repeat split; reflexivity).
  assert (Hlen : (length ["blue-light.py"] <= 1)%nat) by (simpl; lia).
  split; [exact Hlen |]. split; [exact Hst |]. split; [reflexivity |].
  rewrite (daemon_start_with_unusable_weather ascii_int ascii_lower ["blue-light.py"]
             env_unusable_weather first_run false 4500 (KeyError "main")
             Hlen Hst eq_refl).
  reflexivity.
Defined.

(** X17: when the loaded state has no usable manual entry (the state file
    holds JSON of another shape), the commands toggle, manual, auto and
    force-manual end with exit status 1 without writing the state file,
    sending a notice or asking the applier. *)
Theorem state_without_mode_ends_commands py_int lower prog arg rest e w x :
  getitem (loaded (state_file w)) "manual" = Raise x ->
  lower arg ∈ ["toggle"; "manual"; "auto"; "force-manual"] ->
  exists w',
    main py_int lower (prog :: arg :: rest) e w = (Exit 1, w') /\
    state_file w' = state_file w /\
    notices (new_events w w') = [] /\
    applier_temps (new_events w w') = [].
Proof.
  intros Hx Hcmd. rewrite main_command. unfold dispatch.
  repeat (apply elem_of_cons in Hcmd as [-> | Hcmd]); [| | | | by apply elem_of_nil in Hcmd].
  all: cbn [String.eqb Ascii.eqb Bool.eqb].
  all: unfold toggle_bluelight, toggle_manual_mode, toggle_auto_mode, force_manual_mode.
  all: unfold_monad; rewrite ?load_state_loaded.
  all: cbn [fst snd state state_file add_events hyprsunset_pid]; rewrite Hx.
  all: eexists; split; [reflexivity |]; split; [reflexivity |].
  all: erewrite !new_events_trace by trace_eq.
  all: split; [autorewrite with notes; cbn [app]; reflexivity | no_temps].
Qed.

Lemma state_without_mode_ends_commands_witness :
  getitem (loaded (state_file other_shape_run)) "manual" = Raise TypeError /\
  ascii_lower "force-manual" ∈ ["toggle"; "manual"; "auto"; "force-manual"] /\
  exists w',
    main ascii_int ascii_lower ["blue-light.py"; "force-manual"] env_day other_shape_run
    = (Exit 1, w') /\
    state_file w' = state_file other_shape_run /\
    notices (new_events other_shape_run w') = [] /\
    applier_temps (new_events other_shape_run w') = [].
Proof.
  assert (Hcmd : ascii_lower "force-manual" ∈ ["toggle"; "manual"; "auto"; "force-manual"])
    by (apply list_elem_of_In; simpl; tauto).
  split; [reflexivity |]. split; [exact Hcmd |].
  exact (state_without_mode_ends_commands ascii_int ascii_lower "blue-light.py"
           "force-manual" [] env_day other_shape_run TypeError eq_refl Hcmd).
Defined.

(** X18: the test command on a loaded state that is not a JSON object starts
    hyprsunset with the given temperature and then fails to record it: the
    state file is not written, the one notice is Error setting temperature
    with the exception's text, and the exit status is 0. *)
Theorem test_on_state_of_another_shape py_int lower prog arg1 arg2 rest k e w x pid :
  lower arg1 = "test" ->
  py_int arg2 = Some k ->
  setitem (loaded (state_file w)) "last_temp" (PInt k) = Raise x ->
  popen e = Ok pid ->
  exists w',
    main py_int lower (prog :: arg1 :: arg2 :: rest) e w = (Exit 0, w') /\
    state_file w' = state_file w /\
    applier_temps (new_events w w') = [k] /\
    notices (new_events w w') = [Msg "Error setting temperature: {}" [exn_str x]].
Proof.
  intros Hcmd Hint Hx Hp. rewrite main_command. unfold dispatch. rewrite Hcmd.
  cbn [String.eqb Ascii.eqb Bool.eqb].
  unfold int. rewrite Hint. unfold_monad.
  rewrite apply_temperature_run, Hp. cbn [fst snd state]. rewrite Hx.
  assert (x = TypeError) as ->.
  { destruct (loaded (state_file w)); simpl in Hx; congruence. }
  eexists. split; [reflexivity |]. split; [reflexivity |].
  erewrite !new_events_trace by trace_eq.
  split; [no_temps |]. autorewrite with notes. cbn [app]. reflexivity.
Qed.

Lemma test_on_state_of_another_shape_witness :
  ascii_lower "test" = "test" /\
  ascii_int "3000" = Some 3000 /\
  setitem (loaded (state_file other_shape_run)) "last_temp" (PInt 3000) = Raise TypeError /\
  popen env_day = Ok 100 /\
  exists w',
    main ascii_int ascii_lower ["blue-light.py"; "test"; "3000"] env_day other_shape_run
    = (Exit 0, w') /\
    state_file w' = state_file other_shape_run /\
    applier_temps (new_events other_shape_run w') = [3000] /\
    notices (new_events other_shape_run w') =
      [Msg "Error setting temperature: {}" [exn_str TypeError]].
Proof.
  split; [reflexivity |]. split; [reflexivity |]. split; [reflexivity |].
  split; [reflexivity |].
  exact (test_on_state_of_another_shape ascii_int ascii_lower "blue-light.py"
           "test" "3000" [] 3000 env_day other_shape_run TypeError 100
           eq_refl eq_refl eq_refl eq_refl).
Defined.

(** ** The providers *)

Import Providers.

Ltac unfold_provider :=
  unfold config_get, requests_get_ipgeo, requests_get_owm, log, emit, get_caches,
    ask, lift, raise, try_except, bind, ret in *.

Lemma with_events_nil c : with_events [] c = c.
Proof. unfold with_events. rewrite app_nil_r. by destruct c. Qed.

Lemma requests_app evs1 evs2 : requests (evs1 ++ evs2) = requests evs1 ++ requests evs2.
Proof. apply omap_app. Qed.

Lemma requests_logged m evs : requests (Logged m :: evs) = requests evs.
Proof. reflexivity. Qed.

Lemma requests_printed m evs : requests (Printed m :: evs) = requests evs.
Proof. reflexivity. Qed.

Lemma requests_get r evs : requests (HttpGet r :: evs) = r :: requests evs.
Proof. reflexivity. Qed.

Lemma requests_nil : requests [] = [].
Proof. reflexivity. Qed.

Create Rewrite HintDb reqs.
#[global] Hint Rewrite requests_app requests_logged requests_printed requests_get
  requests_nil : reqs.

(** What the cached coordinates give. *)
Lemma cached_coordinates_run e c :
  cached_coordinates e c =
  match coordinates_cache c with
  | NoCoordinates => (Ok None, c)
  | BadCoordinates x =>
      (Ok None, with_events [Logged (Msg "Error reading cached coordinates: {}" [exn_str x])] c)
  | Coordinates lat lon =>
      (Ok (Some (lat, lon)),
       with_events [Logged (Msg "Using cached coordinates: {}, {}" [PFloat lat; PFloat lon])] c)
  end.
Proof.
  unfold cached_coordinates, read_coordinates. unfold_provider.
  destruct c as [[] loc we evs]; reflexivity.
Qed.

(** The live lookup writes the coordinates before the location record,
    and returns coordinates only when both are written. *)
Lemma fetch_coordinates_cases py_float k e c :
  exists r coords loc evs,
    fetch_coordinates py_float k e c =
    (r, Caches coords loc (weather_cache c)
               (events c ++ Logged (Msg "Attempting to fetch location from IP geolocation API..." []) ::
                            HttpGet (IpGeolocation k IPGEO_FIELDS) :: evs)) /\
    requests evs = [] /\
    match r with
    | Ok (Some p) =>
        exists data, ipgeo e = Ok data /\ locates py_float data (fst p) (snd p) /\
                     coordinates_writable e = true /\ location_writable e = true /\
                     coords = Coordinates (fst p) (snd p) /\
                     loc = Holds (location_data data (fst p) (snd p))
    | Ok None => False
    | Raise x =>
        loc = location_cache c /\
        (coords = coordinates_cache c \/
         exists data lat lon,
           ipgeo e = Ok data /\ locates py_float data lat lon /\
           coordinates_writable e = true /\ location_writable e = false /\
           coords = Coordinates lat lon)
    end.
Proof.
  unfold fetch_coordinates, write_coordinates, json_dump_location. unfold_provider.
  cbn [fst snd coordinates_cache location_cache weather_cache events].
  destruct (ipgeo e) as [data|x] eqn:Hgeo; cbn;
    [| eexists _, _, _, []; split; [rewrite <- app_assoc; reflexivity |]; by auto].
  destruct (getitem data "latitude") as [latitude|x] eqn:Hla; cbn;
    [| eexists _, _, _, []; split; [rewrite <- app_assoc; reflexivity |]; by auto].
  destruct (py_float latitude) as [lat|x] eqn:Hlat; cbn;
    [| eexists _, _, _, []; split; [rewrite <- app_assoc; reflexivity |]; by auto].
  destruct (getitem data "longitude") as [longitude|x] eqn:Hlo; cbn;
    [| eexists _, _, _, []; split; [rewrite <- app_assoc; reflexivity |]; by auto].
  destruct (py_float longitude) as [lon|x] eqn:Hlon; cbn;
    [| eexists _, _, _, []; split; [rewrite <- app_assoc; reflexivity |]; by auto].
  assert (Hloc : locates py_float data lat lon) by (by exists latitude, longitude).
  destruct data as [| | | | | |d]; try discriminate. cbn.
  destruct (coordinates_writable e) eqn:Hcw; cbn;
    [| eexists _, _, _, [_]; split; [rewrite <- !app_assoc; reflexivity |]; by auto].
  destruct (location_writable e) eqn:Hlw; cbn.
  - eexists _, _, _, [_]. split; [rewrite <- !app_assoc; reflexivity |].
    split; [done |]. exists (PDict d). by repeat split.
  - eexists _, _, _, [_]. split; [rewrite <- !app_assoc; reflexivity |].
    split; [done |]. split; [done |]. right. by exists (PDict d), lat, lon.
Qed.

Lemma api_key_run name e c : config_get name e c = (api_key e name, c).
Proof. reflexivity. Qed.

Lemma stored_coordinates_run e c :
  exists evs,
    stored_coordinates e c = (Ok (fallback_coordinates c), with_events evs c) /\
    requests evs = [].
Proof.
  unfold stored_coordinates. unfold bind at 1. rewrite cached_coordinates_run.
  unfold fallback_coordinates.
  destruct (coordinates_cache c) as [|y|lat lon]; unfold_provider; cbn.
  all: eexists; split; [unfold with_events; cbn; rewrite <- ?app_assoc; reflexivity |].
  all: done.
Qed.

Lemma locates_dict py_float data lat lon :
  locates py_float data lat lon -> exists d, data = PDict d.
Proof.
  intros (la & lo & Hla & _). destruct data; try discriminate. eauto.
Qed.

(** The live lookup when the service answers with coordinates. *)
Lemma fetch_coordinates_run py_float k e c data lat lon :
  ipgeo e = Ok data ->
  locates py_float data lat lon ->
  exists evs,
    requests evs = [IpGeolocation k IPGEO_FIELDS] /\
    fetch_coordinates py_float k e c =
    if coordinates_writable e then
      if location_writable e then
        (Ok (Some (lat, lon)),
         Caches (Coordinates lat lon) (Holds (location_data data lat lon))
                (weather_cache c) (events c ++ evs))
      else
        (Raise OSError,
         Caches (Coordinates lat lon) (location_cache c) (weather_cache c) (events c ++ evs))
    else (Raise OSError, with_events evs c).
Proof.
  intros Hgeo Hloc. destruct (locates_dict _ _ _ _ Hloc) as (d & ->).
  destruct Hloc as (la & lo & Hla & Hlat & Hlo & Hlon).
  unfold fetch_coordinates, write_coordinates, json_dump_location. unfold_provider.
  cbn [fst snd coordinates_cache location_cache weather_cache events].
  rewrite Hgeo. cbn [fst snd coordinates_cache location_cache weather_cache events].
  rewrite Hla. cbn [fst snd]. rewrite Hlat. cbn [fst snd].
  rewrite Hlo. cbn [fst snd]. rewrite Hlon.
  cbn [fst snd dict_get coordinates_cache location_cache weather_cache events].
  eexists. split; cycle 1.
  - destruct (coordinates_writable e), (location_writable e);
      cbn [fst snd coordinates_cache location_cache weather_cache events location_data];
      unfold with_events; rewrite <- ?app_assoc; reflexivity.
  - by autorewrite with reqs.
Qed.

(** The first stage: it returns coordinates only when both caches were
    written, and it leaves the location cache alone otherwise. *)
Lemma live_coordinates_cases py_float e c k :
  api_key e "ipgeolocation" = Ok k ->
  exists live coords loc evs,
    live_coordinates py_float e c =
    (Ok live, Caches coords loc (weather_cache c) (events c ++ evs)) /\
    requests evs =
      (if key_present k then [IpGeolocation (key_string k) IPGEO_FIELDS] else []) /\
    match live with
    | Some p => coords = Coordinates (fst p) (snd p)
    | None => loc = location_cache c
    end.
Proof.
  intros Hk. unfold live_coordinates.
  unfold bind at 1. rewrite api_key_run, Hk.
  destruct (key_present k).
  - unfold try_except at 1.
    destruct (fetch_coordinates_cases py_float (key_string k) e c)
      as (r & coords & loc & evs & -> & Hreq & Hr).
    destruct r as [[p|]|x]; [| done |].
    + destruct Hr as (data & _ & _ & _ & _ & -> & _).
      eexists (Some p), _, _, _. split; [reflexivity |]. split; [| done].
      autorewrite with reqs. by rewrite Hreq.
    + destruct Hr as [-> _]. unfold_provider.
      cbn [fst snd coordinates_cache location_cache weather_cache events].
      eexists None, _, _, _. split; [rewrite <- !app_assoc; reflexivity |].
      split; [| done]. cbn [app]. autorewrite with reqs. by rewrite Hreq.
  - unfold_provider. cbn [fst snd coordinates_cache location_cache weather_cache events].
    eexists None, _, _, _. split; [reflexivity |]. by autorewrite with reqs.
Qed.

Lemma get_coordinates_cases py_float e c k :
  api_key e "ipgeolocation" = Ok k ->
  exists p coords loc evs,
    get_coordinates py_float e c =
    (Ok p, Caches coords loc (weather_cache c) (events c ++ evs)) /\
    requests evs =
      (if key_present k then [IpGeolocation (key_string k) IPGEO_FIELDS] else []) /\
    (p = LONDON \/ coords = Coordinates (fst p) (snd p)).
Proof.
  intros Hk. unfold get_coordinates. unfold bind at 1.
  destruct (live_coordinates_cases py_float e c k Hk)
    as ([p|] & coords & loc & evs & -> & Hreq & Hlive).
  - eexists p, _, _, _. split; [reflexivity |]. by auto.
  - match goal with
    | |- context [stored_coordinates e ?c1] =>
        destruct (stored_coordinates_run e c1) as (evs2 & -> & Hreq2)
    end.
    unfold with_events, fallback_coordinates.
    cbn [coordinates_cache location_cache weather_cache events].
    eexists _, _, _, _. split; [rewrite <- app_assoc; reflexivity |].
    split; [by rewrite requests_app, Hreq, Hreq2, app_nil_r |].
    destruct coords; auto.
Qed.

Lemma live_coordinates_offline py_float e c :
  offline e ->
  exists evs, live_coordinates py_float e c = (Ok None, with_events evs c).
Proof.
  intros (k & Hk & Hoff). unfold live_coordinates.
  unfold bind at 1. rewrite api_key_run, Hk.
  destruct (key_present k) eqn:Hp.
  - destruct Hoff as [? | (x & Hx)]; [done |].
    unfold fetch_coordinates, requests_get_ipgeo. unfold_provider.
    cbn [fst snd coordinates_cache location_cache weather_cache events].
    rewrite Hx. cbn [fst snd coordinates_cache location_cache weather_cache events].
    eexists. unfold with_events. rewrite <- !app_assoc. reflexivity.
  - unfold_provider. by eexists.
Qed.

Lemma get_coordinates_offline py_float e c :
  offline e ->
  exists evs,
    get_coordinates py_float e c = (Ok (fallback_coordinates c), with_events evs c).
Proof.
  intros Hoff. unfold get_coordinates. unfold bind at 1.
  destruct (live_coordinates_offline py_float e c Hoff) as (evs & ->).
  destruct (stored_coordinates_run e (with_events evs c)) as (evs2 & -> & _).
  eexists. unfold with_events, fallback_coordinates. cbn. by rewrite <- app_assoc.
Qed.

Lemma get_coordinates_raises py_float e c x :
  api_key e "ipgeolocation" = Raise x ->
  get_coordinates py_float e c = (Raise x, c).
Proof.
  intros Hk. unfold get_coordinates, live_coordinates.
  unfold bind at 1. unfold bind at 1. by rewrite api_key_run, Hk.
Qed.

Lemma get_coordinates_frame py_float e c :
  exists r coords loc evs,
    get_coordinates py_float e c =
    (r, Caches coords loc (weather_cache c) (events c ++ evs)) /\
    (forall lat lon k u, OpenWeather lat lon k u ∉ requests evs).
Proof.
  destruct (api_key e "ipgeolocation") as [k|x] eqn:Hk.
  - destruct (get_coordinates_cases py_float e c k Hk)
      as (p & coords & loc & evs & -> & Hreq & _).
    eexists _, _, _, _. split; [reflexivity |].
    intros lat lon k' u. rewrite Hreq. destruct (key_present k).
    + intros H. by apply list_elem_of_singleton in H.
    + apply not_elem_of_nil.
  - rewrite (get_coordinates_raises _ _ _ _ Hk).
    exists (Raise x), (coordinates_cache c), (location_cache c), [].
    split; [rewrite app_nil_r; by destruct c |].
    intros. apply not_elem_of_nil.
Qed.

Lemma cached_weather_run e c :
  cached_weather e c =
  (match weather_cache c with
   | Absent => Ok PNone
   | f => json_load f
   end, c).
Proof.
  unfold cached_weather. unfold_provider. by destruct (weather_cache c).
Qed.

Lemma locates_paris :
  locates float_of_number paris 0x1.86e147ae147aep+5%float 0x1.2cccccccccccdp+1%float.
Proof.
  exists (PFloat 0x1.86e147ae147aep+5%float), (PFloat 0x1.2cccccccccccdp+1%float).
  repeat split; reflexivity.
Qed.

Lemma offline_no_keys : offline no_keys.
Proof. exists (Some ""). split; [reflexivity | left; reflexivity]. Qed.

Lemma no_weather_key_no_keys : no_weather_key no_keys.
Proof. intros k [= <-]. reflexivity. Qed.

Lemma fetches_online :
  fetches float_of_number online no_caches
    (0x1.86e147ae147aep+5%float, 0x1.2cccccccccccdp+1%float) (Some "owm-key") clear_sky.
Proof. repeat split; reflexivity. Qed.

(** X19: when the configuration answers for the ipgeolocation key,
    get_coordinates returns coordinates and never raises; the answer is
    London or what the coordinates cache holds afterwards; the weather cache
    is not touched; one request goes to the geolocation service when a key
    is configured and none otherwise. *)
Theorem get_coordinates_always_answers py_float e c k :
  api_key e "ipgeolocation" = Ok k ->
  exists p c' evs,
    get_coordinates py_float e c = (Ok p, c') /\
    (p = LONDON \/ coordinates_cache c' = Coordinates (fst p) (snd p)) /\
    weather_cache c' = weather_cache c /\
    events c' = events c ++ evs /\
    requests evs =
      (if key_present k then [IpGeolocation (key_string k) IPGEO_FIELDS] else []).
Proof.
  intros Hk.
  destruct (get_coordinates_cases py_float e c k Hk)
    as (p & coords & loc & evs & -> & Hreq & Hp).
  eexists _, _, _. split; [reflexivity |]. by repeat split.
Qed.

Lemma get_coordinates_always_answers_witness :
  api_key online "ipgeolocation" = Ok (Some "geo-key") /\
  exists p c' evs,
    get_coordinates float_of_number online no_caches = (Ok p, c') /\
    (p = LONDON \/ coordinates_cache c' = Coordinates (fst p) (snd p)) /\
    weather_cache c' = weather_cache no_caches /\
    events c' = events no_caches ++ evs /\
    requests evs = [IpGeolocation "geo-key" IPGEO_FIELDS].
Proof.
  split; [reflexivity |].
  exact (get_coordinates_always_answers float_of_number online no_caches
           (Some "geo-key") eq_refl).
Defined.

Lemma live_coordinates_run py_float e c k data lat lon :
  api_key e "ipgeolocation" = Ok k ->
  key_present k = true ->
  ipgeo e = Ok data ->
  locates py_float data lat lon ->
  exists evs,
    live_coordinates py_float e c =
    if coordinates_writable e then
      if location_writable e then
        (Ok (Some (lat, lon)),
         Caches (Coordinates lat lon) (Holds (location_data data lat lon))
                (weather_cache c) (events c ++ evs))
      else
        (Ok None,
         Caches (Coordinates lat lon) (location_cache c) (weather_cache c)
                (events c ++ evs ++ [Logged (Msg "Geolocation API error: {}" [exn_str OSError])]))
    else
      (Ok None,
       with_events (evs ++ [Logged (Msg "Geolocation API error: {}" [exn_str OSError])]) c).
Proof.
  intros Hk Hp Hgeo Hloc. unfold live_coordinates.
  unfold bind at 1. rewrite api_key_run, Hk, Hp. unfold try_except.
  destruct (fetch_coordinates_run py_float (key_string k) e c data lat lon Hgeo Hloc)
    as (evs & _ & ->).
  exists evs.
  destruct (coordinates_writable e), (location_writable e); try reflexivity.
  all: unfold_provider; unfold with_events;
    cbn [fst snd coordinates_cache location_cache weather_cache events];
    by rewrite <- ?app_assoc.
Qed.

Lemma get_coordinates_live_run py_float e c k data lat lon :
  api_key e "ipgeolocation" = Ok k ->
  key_present k = true ->
  ipgeo e = Ok data ->
  locates py_float data lat lon ->
  coordinates_writable e = true ->
  exists c',
    get_coordinates py_float e c = (Ok (lat, lon), c') /\
    coordinates_cache c' = Coordinates lat lon /\
    location_cache c' =
      (if location_writable e then Holds (location_data data lat lon)
       else location_cache c) /\
    weather_cache c' = weather_cache c.
Proof.
  intros Hk Hp Hgeo Hloc Hcw. unfold get_coordinates. unfold bind at 1.
  destruct (live_coordinates_run py_float e c k data lat lon Hk Hp Hgeo Hloc)
    as (evs & ->).
  rewrite Hcw. destruct (location_writable e).
  - eexists. split; [reflexivity |]. done.
  - match goal with
    | |- context [stored_coordinates e ?c1] =>
        destruct (stored_coordinates_run e c1) as (evs2 & -> & _)
    end.
    eexists. split; [reflexivity |]. done.
Qed.

(** X20: with a key, an answer of the geolocation service that has latitude
    and longitude, and a writable coordinates cache, get_coordinates returns
    the coordinates of the answer and the coordinates cache holds them; the
    location cache holds the new record when it can be written and is left
    as it was otherwise (the coordinates are then returned through the cache
    just written). *)
Theorem get_coordinates_live py_float e c k data lat lon :
  api_key e "ipgeolocation" = Ok k ->
  key_present k = true ->
  ipgeo e = Ok data ->
  locates py_float data lat lon ->
  coordinates_writable e = true ->
  let c' := snd (get_coordinates py_float e c) in
  fst (get_coordinates py_float e c) = Ok (lat, lon) /\
  coordinates_cache c' = Coordinates lat lon /\
  location_cache c' =
    (if location_writable e then Holds (location_data data lat lon)
     else location_cache c).
Proof.
  intros Hk Hp Hgeo Hloc Hcw.
  destruct (get_coordinates_live_run py_float e c k data lat lon Hk Hp Hgeo Hloc Hcw)
    as (c1 & Hrun & Hc1 & Hl1 & _).
  cbv zeta. rewrite Hrun. done.
Qed.

Lemma get_coordinates_live_witness :
  api_key online "ipgeolocation" = Ok (Some "geo-key") /\
  ipgeo online = Ok paris /\
  fst (get_coordinates float_of_number online no_caches) =
    Ok (0x1.86e147ae147aep+5%float, 0x1.2cccccccccccdp+1%float) /\
  coordinates_cache (snd (get_coordinates float_of_number online no_caches)) =
    Coordinates 0x1.86e147ae147aep+5%float 0x1.2cccccccccccdp+1%float.
Proof.
  split; [reflexivity |]. split; [reflexivity |].
  destruct (get_coordinates_live float_of_number online no_caches (Some "geo-key") paris
              _ _ eq_refl eq_refl eq_refl locates_paris eq_refl) as (H1 & H2 & _).
  split; [exact H1 | exact H2].
Defined.

(** X21: when the geolocation service answers but the coordinates cache
    cannot be written, get_coordinates does not return the answer: it
    returns the coordinates cached before, or London, and changes no cache
    file. *)
Theorem get_coordinates_drops_uncached_answer py_float e c k data lat lon :
  api_key e "ipgeolocation" = Ok k ->
  key_present k = true ->
  ipgeo e = Ok data ->
  locates py_float data lat lon ->
  coordinates_writable e = false ->
  exists evs,
    get_coordinates py_float e c = (Ok (fallback_coordinates c), with_events evs c).
Proof.
  intros Hk Hp Hgeo Hloc Hcw. unfold get_coordinates. unfold bind at 1.
  destruct (live_coordinates_run py_float e c k data lat lon Hk Hp Hgeo Hloc)
    as (evs & ->).
  rewrite Hcw.
  match goal with
  | |- context [stored_coordinates e ?c1] =>
      destruct (stored_coordinates_run e c1) as (evs2 & -> & _)
  end.
  eexists. unfold with_events, fallback_coordinates. cbn. by rewrite <- !app_assoc.
Qed.

Lemma get_coordinates_drops_uncached_answer_witness :
  ipgeo read_only = Ok paris /\
  coordinates_writable read_only = false /\
  exists evs,
    get_coordinates float_of_number read_only no_caches = (Ok LONDON, with_events evs no_caches).
Proof.
  split; [reflexivity |]. split; [reflexivity |].
  exact (get_coordinates_drops_uncached_answer float_of_number read_only no_caches
           (Some "geo-key") paris _ _ eq_refl eq_refl eq_refl locates_paris eq_refl).
Defined.

(** X22: round trip through the coordinates cache: after a live lookup that
    could write the coordinates cache, a later get_coordinates without a key
    or with a failing geolocation service returns the same coordinates. *)
Theorem coordinates_live_then_offline py_float e1 e2 c k data lat lon :
  api_key e1 "ipgeolocation" = Ok k ->
  key_present k = true ->
  ipgeo e1 = Ok data ->
  locates py_float data lat lon ->
  coordinates_writable e1 = true ->
  offline e2 ->
  fst (get_coordinates py_float e2 (snd (get_coordinates py_float e1 c))) = Ok (lat, lon).
Proof.
  intros Hk Hp Hgeo Hloc Hcw Hoff.
  destruct (get_coordinates_live_run py_float e1 c k data lat lon Hk Hp Hgeo Hloc Hcw)
    as (c1 & -> & Hc1 & _).
  cbn [snd].
  destruct (get_coordinates_offline py_float e2 c1 Hoff) as (evs & ->).
  cbn [fst snd]. unfold fallback_coordinates. by rewrite Hc1.
Qed.

Lemma coordinates_live_then_offline_witness :
  ipgeo online = Ok paris /\
  offline no_keys /\
  fst (get_coordinates float_of_number no_keys
         (snd (get_coordinates float_of_number online no_caches))) =
  Ok (0x1.86e147ae147aep+5%float, 0x1.2cccccccccccdp+1%float).
Proof.
  split; [reflexivity |]. split; [exact offline_no_keys |].
  exact (coordinates_live_then_offline float_of_number online no_keys no_caches
           (Some "geo-key") paris _ _ eq_refl eq_refl eq_refl locates_paris eq_refl
           offline_no_keys).
Defined.

Lemma get_location_info_run e c :
  get_location_info e c =
  match location_cache c with
  | Absent => (Ok london_info, c)
  | Holds v => (Ok v, c)
  | f =>
      (Ok london_info,
       with_events
         [Logged (Msg "Error reading location cache: {}"
                      [exn_str (match f with Unreadable => OSError | _ => JSONDecodeError end)])]
         c)
  end.
Proof.
  unfold get_location_info. unfold_provider.
  destruct c as [coords [] wc evs]; reflexivity.
Qed.

(** X23: get_location_info never raises, makes no request and changes no
    cache file: it returns what the location cache holds, and the London
    record when the cache is absent, unreadable or not JSON. *)
Theorem get_location_info_never_raises e c :
  exists v evs,
    get_location_info e c = (Ok v, with_events evs c) /\
    requests evs = [] /\
    (location_cache c = Holds v \/
     v = london_info /\ forall v', location_cache c <> Holds v').
Proof.
  rewrite get_location_info_run.
  destruct (location_cache c) eqn:Hl.
  - exists london_info, []. rewrite with_events_nil. split; [done |]. split; [done |].
    by right.
  - eexists london_info, _. split; [reflexivity |]. split; [done |]. by right.
  - eexists london_info, _. split; [reflexivity |]. split; [done |]. by right.
  - exists v, []. rewrite with_events_nil. split; [done |]. split; [done |]. by left.
Qed.

Lemma location_data_fields d lat lon :
  exists d',
    location_data (PDict d) lat lon = PDict d' /\
    d' !! "lat" = Some (PFloat lat) /\ d' !! "lon" = Some (PFloat lon) /\
    d' !! "city" = Some (default (PStr "Unknown") (d !! "city")) /\
    d' !! "country" = Some (default (PStr "Unknown") (d !! "country_name")).
Proof.
  eexists. split; [reflexivity |].
  repeat split; repeat first [ rewrite lookup_insert_eq | rewrite lookup_insert_ne by done ];
    reflexivity.
Qed.

(** X24: after a live lookup that could write both caches, get_location_info
    returns a record whose lat and lon are the coordinates get_coordinates
    returned and whose city and country are those of the answer (Unknown
    when the answer has none). *)
Theorem location_info_agrees_with_coordinates py_float e1 e2 c k data lat lon :
  api_key e1 "ipgeolocation" = Ok k ->
  key_present k = true ->
  ipgeo e1 = Ok data ->
  locates py_float data lat lon ->
  coordinates_writable e1 = true ->
  location_writable e1 = true ->
  let c1 := snd (get_coordinates py_float e1 c) in
  exists info,
    get_location_info e2 c1 = (Ok info, c1) /\
    getitem info "lat" = Ok (PFloat lat) /\
    getitem info "lon" = Ok (PFloat lon) /\
    Ok (lat, lon) = fst (get_coordinates py_float e1 c) /\
    dict_get data "city" (PStr "Unknown") = getitem info "city" /\
    dict_get data "country_name" (PStr "Unknown") = getitem info "country".
Proof.
  intros Hk Hp Hgeo Hloc Hcw Hlw.
  destruct (get_coordinates_live_run py_float e1 c k data lat lon Hk Hp Hgeo Hloc Hcw)
    as (c1 & Hrun & _ & Hl1 & _).
  cbv zeta. rewrite Hrun. cbn [fst snd]. rewrite Hlw in Hl1.
  rewrite get_location_info_run, Hl1.
  destruct (locates_dict _ _ _ _ Hloc) as (d & ->).
  destruct (location_data_fields d lat lon) as (d' & -> & Hlat & Hlon & Hcity & Hcountry).
  eexists. split; [reflexivity |]. simpl. by rewrite Hlat, Hlon, Hcity, Hcountry.
Qed.

Lemma location_info_agrees_with_coordinates_witness :
  ipgeo online = Ok paris /\
  location_writable online = true /\
  exists info,
    get_location_info no_keys (snd (get_coordinates float_of_number online no_caches)) =
      (Ok info, snd (get_coordinates float_of_number online no_caches)) /\
    getitem info "lat" = Ok (PFloat 0x1.86e147ae147aep+5%float) /\
    getitem info "city" = Ok (PStr "Paris").
Proof.
  split; [reflexivity |]. split; [reflexivity |].
  destruct (location_info_agrees_with_coordinates float_of_number online no_keys no_caches
              (Some "geo-key") paris _ _ eq_refl eq_refl eq_refl locates_paris
              eq_refl eq_refl) as (info & Hrun & Hlat & _ & _ & Hcity & _).
  exists info. split; [exact Hrun |]. split; [exact Hlat |]. rewrite <- Hcity. reflexivity.
Defined.

(** X25: when reading the ipgeolocation key raises (a configuration file
    without an API section), get_coordinates raises it and changes nothing;
    get_weather absorbs it, logs it and serves the weather cache;
    refresh-location ends with an exception before it prints anything. *)
Theorem missing_api_section py_float e c x :
  api_key e "ipgeolocation" = Raise x ->
  get_coordinates py_float e c = (Raise x, c) /\
  get_weather py_float e c =
    cached_weather e (with_events [Logged (Msg "Weather API error: {}" [exn_str x])] c) /\
  exists y c',
    refresh_location py_float e c = (Raise y, c') /\ events c' = events c.
Proof.
  intros Hk. pose proof (get_coordinates_raises py_float e c x Hk) as Hrun.
  split; [exact Hrun |]. split.
  - unfold get_weather, try_except. unfold bind at 1. rewrite Hrun. reflexivity.
  - unfold refresh_location. unfold bind at 1. unfold unlink_coordinates.
    destruct (coordinates_exist (coordinates_cache c));
      [destruct (coordinates_unlinkable e); [| by eauto] |].
    all: unfold bind at 1; unfold unlink_location;
      cbn [location_cache events];
      (destruct (file_exists (location_cache c));
        [destruct (location_unlinkable e); [| by eauto] |]).
    all: unfold bind at 1; rewrite (get_coordinates_raises _ _ _ x) by exact Hk; by eauto.
Qed.

Lemma missing_api_section_witness :
  api_key no_api_section "ipgeolocation" = Raise (KeyError "API") /\
  get_coordinates float_of_number no_api_section paris_cached =
    (Raise (KeyError "API"), paris_cached) /\
  fst (get_weather float_of_number no_api_section paris_cached) = Ok PNone.
Proof.
  split; [reflexivity |].
  destruct (missing_api_section float_of_number no_api_section paris_cached
              (KeyError "API") eq_refl) as (H1 & H2 & _).
  split; [exact H1 |]. rewrite H2. reflexivity.
Defined.

Lemma cached_weather_stored e c : cached_weather e c = (stored_weather c, c).
Proof. apply cached_weather_run. Qed.

Lemma not_openweather_app evs1 evs2 :
  (forall lat lon k u, OpenWeather lat lon k u ∉ requests evs1) ->
  requests evs2 = [] ->
  forall lat lon k u, OpenWeather lat lon k u ∉ requests (evs1 ++ evs2).
Proof.
  intros H1 H2 lat lon k u. rewrite requests_app, H2, app_nil_r. apply H1.
Qed.

(** [get_weather] either fetches an answer and stores it, or serves the
    weather cache as it is. *)
Lemma get_weather_cases py_float e c :
  exists r c' evs,
    get_weather py_float e c = (r, c') /\
    events c' = events c ++ evs /\
    ((exists p k data,
        fetches py_float e c p k data /\
        r = Ok data /\ weather_cache c' = Holds data /\
        OpenWeather (fst p) (snd p) (key_string k) "metric" ∈ requests evs) \/
     ((forall p k data, ~ fetches py_float e c p k data) /\
      r = stored_weather c /\ weather_cache c' = weather_cache c /\
      (no_weather_key e -> forall lat lon k u, OpenWeather lat lon k u ∉ requests evs))).
Proof.
  unfold get_weather, try_except.
  unfold bind at 1.
  destruct (get_coordinates_frame py_float e c) as (r & coords & loc & evs & Hrun & Hreq).
  rewrite Hrun.
  assert (Hhandler : forall x evs1,
    (forall p k data, ~ fetches py_float e c p k data) ->
    (no_weather_key e -> forall lat lon k u, OpenWeather lat lon k u ∉ requests (evs ++ evs1)) ->
    exists r c' evs2,
      (log (Msg "Weather API error: {}" [exn_str x]) ;; cached_weather)%provider e
        (Caches coords loc (weather_cache c) (events c ++ evs ++ evs1)) = (r, c') /\
      events c' = events c ++ evs2 /\
      ((exists p k data,
          fetches py_float e c p k data /\
          r = Ok data /\ weather_cache c' = Holds data /\
          OpenWeather (fst p) (snd p) (key_string k) "metric" ∈ requests evs2) \/
       ((forall p k data, ~ fetches py_float e c p k data) /\
        r = stored_weather c /\ weather_cache c' = weather_cache c /\
        (no_weather_key e -> forall lat lon k u, OpenWeather lat lon k u ∉ requests evs2)))).
  { intros x evs1 Hnf Hno. unfold bind, log, emit. rewrite cached_weather_stored.
    cbn [fst snd coordinates_cache location_cache weather_cache events].
    eexists _, _, _. split; [reflexivity |]. cbn [events weather_cache].
    rewrite <- !app_assoc. split; [reflexivity |]. right.
    split; [exact Hnf |]. split; [reflexivity |]. split; [done |].
    intros Hk. rewrite app_assoc. apply not_openweather_app; [by apply Hno | done]. }
  destruct r as [p|x].
  2: { specialize (Hhandler x []). rewrite !app_nil_r in Hhandler. apply Hhandler.
       - intros p k data (Hco & _). rewrite Hrun in Hco. discriminate.
       - intros _. exact Hreq. }
  unfold bind at 1. rewrite api_key_run.
  cbn [fst snd coordinates_cache location_cache weather_cache events].
  destruct (api_key e "openweather") as [k|x] eqn:Hk.
  2: { specialize (Hhandler x []). rewrite !app_nil_r in Hhandler. apply Hhandler.
       - intros p' k data (_ & Hk' & _). congruence.
       - intros _. exact Hreq. }
  destruct (key_present k) eqn:Hp; cbn [negb].
  - unfold bind at 1. unfold requests_get_owm.
    unfold bind at 1. unfold emit at 1. unfold bind at 1. unfold ask at 1. unfold lift at 1.
    cbn [fst snd coordinates_cache location_cache weather_cache events].
    set (get := HttpGet (OpenWeather (fst p) (snd p) (key_string k) "metric")).
    assert (Hnokey : no_weather_key e -> False).
    { intros Hno. specialize (Hno k Hk). congruence. }
    destruct (owm e (fst p) (snd p)) as [data|x] eqn:Howm.
    2: { rewrite <- app_assoc. apply Hhandler.
         - intros p' k' data (Hco & _ & _ & Howm' & _). rewrite Hrun in Hco.
           injection Hco as <-. congruence.
         - intros Hno. by destruct Hnokey. }
    unfold bind at 1. unfold json_dump_weather.
    destruct (weather_writable e) eqn:Hww.
    2: { rewrite <- app_assoc. apply Hhandler.
         - intros p' k' data' (_ & _ & _ & _ & Hww'). congruence.
         - intros Hno. by destruct Hnokey. }
    unfold ret. cbn [weather_cache events coordinates_cache location_cache].
    eexists _, _, _. split; [reflexivity |].
    cbn [events weather_cache]. rewrite <- app_assoc. split; [reflexivity |].
    left. exists p, k, data. unfold fetches. rewrite Hrun. repeat split; try done.
    rewrite requests_app. apply elem_of_app. right. subst get. apply list_elem_of_singleton. reflexivity.
  - assert (Hnf : forall p k data, ~ fetches py_float e c p k data).
    { intros p' k' data (_ & Hk' & Hp' & _). congruence. }
    unfold bind at 1. unfold log at 1, emit at 1.
    rewrite cached_weather_stored.
    cbn [fst snd coordinates_cache location_cache weather_cache events].
    set (nokey := Logged (Msg "OpenWeather API key not configured" [])).
    destruct (stored_weather _) as [v|x] eqn:Hst.
    + eexists _, _, _. split; [reflexivity |]. cbn [events weather_cache].
      rewrite <- !app_assoc. split; [reflexivity |]. right.
      split; [exact Hnf |]. split; [by rewrite <- Hst |]. split; [done |].
      intros _. by apply not_openweather_app.
    + rewrite <- app_assoc. apply Hhandler; [exact Hnf |].
      intros _. by apply not_openweather_app.
Qed.

(** X26: what get_weather returns is what the weather cache holds
    afterwards, or None when there is no cache; when it raises, the
    exception is the one reading the existing weather cache raises, and the
    cache is as it was. *)
Theorem get_weather_returns_its_cache py_float e c :
  exists r c' evs,
    get_weather py_float e c = (r, c') /\
    events c' = events c ++ evs /\
    weather_result c r (weather_cache c').
Proof.
  destruct (get_weather_cases py_float e c) as (r & c' & evs & Hrun & Hev & Hcases).
  exists r, c', evs. split; [exact Hrun |]. split; [exact Hev |].
  destruct Hcases as [(p & k & data & _ & -> & Hwc & _) | (_ & -> & Hwc & _)].
  - by right.
  - unfold weather_result, stored_weather. rewrite Hwc.
    destruct (weather_cache c); simpl; auto.
Qed.

Lemma fetches_functional py_float e c p1 k1 data1 p2 k2 data2 :
  fetches py_float e c p1 k1 data1 ->
  fetches py_float e c p2 k2 data2 ->
  p1 = p2 /\ k1 = k2 /\ data1 = data2.
Proof.
  intros (Hco1 & Hk1 & _ & Howm1 & _) (Hco2 & Hk2 & _ & Howm2 & _).
  rewrite Hco1 in Hco2. injection Hco2 as <-.
  rewrite Hk1 in Hk2. injection Hk2 as <-.
  rewrite Howm1 in Howm2. injection Howm2 as <-. done.
Qed.

(** X27: round trip through the weather cache: when the weather service
    answers (with any JSON, an error answer included, since the status is
    not checked) and the cache can be written, get_weather requests the
    weather for the coordinates get_coordinates returned with units metric,
    returns the answer and stores it; a later get_weather without a weather
    key returns the same answer. *)
Theorem get_weather_live_then_offline py_float e1 e2 c p k data :
  fetches py_float e1 c p k data ->
  no_weather_key e2 ->
  let c1 := snd (get_weather py_float e1 c) in
  fst (get_weather py_float e1 c) = Ok data /\
  weather_cache c1 = Holds data /\
  (exists evs, events c1 = events c ++ evs /\
               OpenWeather (fst p) (snd p) (key_string k) "metric" ∈ requests evs) /\
  fst (get_weather py_float e2 c1) = Ok data /\
  weather_cache (snd (get_weather py_float e2 c1)) = Holds data.
Proof.
  intros Hfetch Hno. cbv zeta.
  destruct (get_weather_cases py_float e1 c) as (r & c1 & evs & -> & Hev & Hcases).
  cbn [fst snd].
  destruct Hcases as [(p' & k' & data' & Hfetch' & -> & Hwc & Hreq) | (Hnf & _)];
    [| by destruct (Hnf p k data)].
  destruct (fetches_functional _ _ _ _ _ _ _ _ _ Hfetch Hfetch') as (<- & <- & <-).
  split; [done |]. split; [done |]. split; [by eauto |].
  destruct (get_weather_cases py_float e2 c1) as (r2 & c2 & evs2 & -> & Hev2 & Hcases2).
  cbn [fst snd].
  destruct Hcases2 as [(p2 & k2 & data2 & (_ & Hk2 & Hp2 & _) & _) | (_ & -> & Hwc2 & _)].
  - specialize (Hno k2 Hk2). congruence.
  - unfold stored_weather. by rewrite Hwc2, Hwc.
Qed.

Lemma get_weather_live_then_offline_witness :
  fetches float_of_number online no_caches
    (0x1.86e147ae147aep+5%float, 0x1.2cccccccccccdp+1%float) (Some "owm-key") clear_sky /\
  no_weather_key no_keys /\
  fst (get_weather float_of_number online no_caches) = Ok clear_sky /\
  fst (get_weather float_of_number no_keys
         (snd (get_weather float_of_number online no_caches))) = Ok clear_sky.
Proof.
  split; [exact fetches_online |]. split; [exact no_weather_key_no_keys |].
  destruct (get_weather_live_then_offline float_of_number online no_keys no_caches
              _ _ _ fetches_online no_weather_key_no_keys) as (H1 & _ & _ & H2 & _).
  split; [exact H1 | exact H2].
Defined.

(** X28: without a weather key get_weather sends no request to the weather
    service and leaves the weather cache as it is: it returns the cached
    answer, None without a cache, and raises what reading the cache raises. *)
Theorem get_weather_without_key py_float e c :
  no_weather_key e ->
  exists c' evs,
    get_weather py_float e c = (stored_weather c, c') /\
    weather_cache c' = weather_cache c /\
    events c' = events c ++ evs /\
    forall lat lon k u, OpenWeather lat lon k u ∉ requests evs.
Proof.
  intros Hno.
  destruct (get_weather_cases py_float e c) as (r & c' & evs & -> & Hev & Hcases).
  destruct Hcases as [(p & k & data & (_ & Hk & Hp & _) & _) | (_ & -> & Hwc & Hreq)].
  - specialize (Hno k Hk). congruence.
  - exists c', evs. by auto.
Qed.

Lemma get_weather_without_key_witness :
  no_weather_key no_keys /\
  exists c' evs,
    get_weather float_of_number no_keys no_caches = (Ok PNone, c') /\
    weather_cache c' = Absent /\
    events c' = events no_caches ++ evs /\
    forall lat lon k u, OpenWeather lat lon k u ∉ requests evs.
Proof.
  split; [exact no_weather_key_no_keys |].
  exact (get_weather_without_key float_of_number no_keys no_caches no_weather_key_no_keys).
Defined.

Lemma unlink_run e c :
  coordinates_unlinkable e = true ->
  location_unlinkable e = true ->
  (unlink_coordinates ;; unlink_location)%provider e c =
  (Ok tt, Caches NoCoordinates Absent (weather_cache c) (events c)).
Proof.
  intros Hc Hl. unfold bind, unlink_coordinates, unlink_location. rewrite Hc, Hl.
  destruct c as [[] [] wc evs]; reflexivity.
Qed.

(** X29: refresh-location without a key or with a failing geolocation
    service, when both location caches can be deleted, deletes the known
    location: it prints Location data refreshed and returns normally, both
    location caches are gone, the weather cache is kept, and from then on an
    offline get_coordinates returns London and get_location_info the London
    record. *)
Theorem refresh_location_offline_forgets py_float e c :
  coordinates_unlinkable e = true ->
  location_unlinkable e = true ->
  offline e ->
  exists c' evs,
    refresh_location py_float e c = (Ok tt, c') /\
    coordinates_cache c' = NoCoordinates /\
    location_cache c' = Absent /\
    weather_cache c' = weather_cache c /\
    events c' = events c ++ evs ++ [Printed (Msg "Location data refreshed" [])] /\
    (forall e2, offline e2 -> fst (get_coordinates py_float e2 c') = Ok LONDON) /\
    (forall e2, fst (get_location_info e2 c') = Ok london_info).
Proof.
  intros Hu Hul Hoff. unfold refresh_location.
  change (unlink_coordinates ;; unlink_location ;; get_coordinates py_float ;;
          emit (Printed (Msg "Location data refreshed" [])))%provider
    with (bind unlink_coordinates (fun _ =>
            bind unlink_location (fun _ =>
              bind (get_coordinates py_float) (fun _ =>
                emit (Printed (Msg "Location data refreshed" [])))))).
  pose proof (unlink_run e c Hu Hul) as Hun. unfold bind in Hun |- *.
  destruct (unlink_coordinates e c) as [[[]|x] c1]; [| discriminate].
  destruct (unlink_location e c1) as [[[]|x] c2]; [| discriminate].
  injection Hun as ->.
  match goal with
  | |- context [get_coordinates py_float e ?c1] =>
      destruct (get_coordinates_offline py_float e c1 Hoff) as (evs & ->)
  end.
  unfold emit, with_events. cbn [coordinates_cache location_cache weather_cache events].
  eexists _, evs. split; [reflexivity |].
  cbn [coordinates_cache location_cache weather_cache events].
  split; [done |]. split; [done |]. split; [done |].
  split; [by rewrite ?app_assoc |]. split.
  - intros e2 Hoff2.
    match goal with
    | |- context [get_coordinates py_float e2 ?c1] =>
        destruct (get_coordinates_offline py_float e2 c1 Hoff2) as (evs2 & ->)
    end.
    reflexivity.
  - intros e2. by rewrite get_location_info_run.
Qed.

Lemma refresh_location_offline_forgets_witness :
  coordinates_unlinkable no_keys = true /\
  location_unlinkable no_keys = true /\
  offline no_keys /\
  exists c' evs,
    refresh_location float_of_number no_keys paris_cached = (Ok tt, c') /\
    coordinates_cache c' = NoCoordinates /\
    location_cache c' = Absent /\
    weather_cache c' = weather_cache paris_cached /\
    events c' = events paris_cached ++ evs ++ [Printed (Msg "Location data refreshed" [])] /\
    (forall e2, offline e2 -> fst (get_coordinates float_of_number e2 c') = Ok LONDON) /\
    (forall e2, fst (get_location_info e2 c') = Ok london_info).
Proof.
  split; [reflexivity |]. split; [reflexivity |]. split; [exact offline_no_keys |].
  exact (refresh_location_offline_forgets float_of_number no_keys paris_cached
           eq_refl eq_refl offline_no_keys).
Defined.

(** X30: when one of the two location caches exists and cannot be deleted,
    refresh-location ends with OSError before any lookup: no request is
    sent, nothing is printed, and the location record and the weather cache
    are as they were. The two deletions are separate calls: when the
    coordinates cache is the file that cannot be deleted it is as it was
    too, and when the failure is on the location record the coordinates
    cache is already gone. *)
Theorem refresh_location_cannot_delete py_float e c :
  (coordinates_cache c <> NoCoordinates /\ coordinates_unlinkable e = false) \/
  ((coordinates_cache c = NoCoordinates \/ coordinates_unlinkable e = true) /\
   location_cache c <> Absent /\ location_unlinkable e = false) ->
  refresh_location py_float e c =
  (Raise OSError,
   Caches (if coordinates_unlinkable e then NoCoordinates else coordinates_cache c)
          (location_cache c) (weather_cache c) (events c)).
Proof.
  intros H. unfold refresh_location, bind, unlink_coordinates, unlink_location.
  destruct c as [coords loc wc evs].
  cbn [coordinates_cache location_cache weather_cache events] in *.
  destruct (coordinates_unlinkable e), (location_unlinkable e), coords, loc;
    try reflexivity; exfalso;
    destruct H as [[Hex Hc] | ([Hc | Hc] & Hex & Hl)]; congruence.
Qed.

Lemma refresh_location_cannot_delete_witness :
  coordinates_unlinkable location_kept = true /\
  location_cache paris_known <> Absent /\
  location_unlinkable location_kept = false /\
  refresh_location float_of_number location_kept paris_known =
  (Raise OSError,
   Caches NoCoordinates (location_cache paris_known) Absent []).
Proof.
  assert (Hex : location_cache paris_known <> Absent) by discriminate.
  split; [reflexivity |]. split; [exact Hex |]. split; [reflexivity |].
  exact (refresh_location_cannot_delete float_of_number location_kept paris_known
           (or_intror (conj (or_intror eq_refl) (conj Hex eq_refl)))).
Defined.
